(** * svrmgr-discord-bot: the interaction handler of [src/main.py]

    A shallow embedding of the Lambda handler that lets a Discord message
    start and stop EC2 instances, and the properties of its request
    handling: authentication, payload validation, the ownership check that
    binds a button to the message it lives on, rendering, and the encoding
    of responses for the Lambda transport.

    Representation choices, used throughout:
    - a Python [str] is the [string] of its UTF-8 bytes (so [str.encode] is
      the identity on contents, comparison of [str] values is comparison of
      these bytes, and strings holding lone surrogates are not represented);
    - Python [bytes] are [list byte];
    - a [dict] whose iteration order is observable (headers, JSON objects)
      is an association list in insertion order; the tags of an instance,
      only ever read with [.get], are a [gmap string string];
    - an exception is a value of [exn]; a function that may raise returns
      a [result];
    - the EC2 client, the signature verifier, [json.loads], [json.dumps]
      and [repr] are not part of the repository: they are fields of
      [Externals], and every statement holds for all of them;
    - the calls on the EC2 client are threaded through a state, the
      provider's world and the log of the calls made;
    - the [while] loop of the pagination is bounded by a number of pages:
      a run that needs more is [None]. A run that finishes does not depend
      on the bound, and runs finish when the provider's listings do.

    Not modelled: logging. [main] is the source's [main] from its [try]
    on, on the decoded request; [main_of_event] is the whole of it, from
    the event. *)

From Stdlib Require Import ZArith List String Ascii Bool Lia PrimFloat Uint63 DecimalString.
From Stdlib Require Import Strings.Byte.
From Stdlib Require Import Sorting.Permutation Sorting.Sorted.
From stdpp Require Import gmap strings.

Set Warnings "-register-all".

Local Open Scope string_scope.
Local Open Scope list_scope.

(** ** Python built-ins *)

Module Py.

(** [str.lower()] on the ASCII range. The handler lower-cases header names
    only to compare them with ["x-signature-ed25519"],
    ["x-signature-timestamp"] and ["content-type"]; no character outside
    ASCII lower-cases to a letter of these names, so on these comparisons
    the ASCII rule agrees with Python's. *)
Definition lower_ascii (c : ascii) : ascii :=
  let n := N_of_ascii c in
  if (65 <=? n)%N && (n <=? 90)%N then ascii_of_N (n + 32) else c.

Fixpoint lower (s : string) : string :=
  match s with
  | EmptyString => EmptyString
  | String c s' => String (lower_ascii c) (lower s')
  end.

(** [maxsplit] of [str.split]: [None] is Python's default (no limit). *)
Definition may_split (maxsplit : option nat) : bool :=
  match maxsplit with Some O => false | _ => true end.

Definition after_split (maxsplit : option nat) : option nat :=
  match maxsplit with Some n => Some (Nat.pred n) | None => None end.

(** [s.split(sep, maxsplit)] for a one-character separator. *)
Fixpoint split (sep : ascii) (maxsplit : option nat) (s : string) : list string :=
  match s with
  | EmptyString => [EmptyString]
  | String c s' =>
      if Ascii.eqb c sep && may_split maxsplit
      then EmptyString :: split sep (after_split maxsplit) s'
      else match split sep maxsplit s' with
           | w :: ws => String c w :: ws
           | [] => [String c EmptyString]
           end
  end.

(** [s.startswith(p)]. *)
Definition startswith (s p : string) : bool := String.prefix p s.

(** [str(n)] for an integer. *)
Definition str_of_int (n : Z) : string := NilZero.string_of_int (Z.to_int n).

(** Value of a hexadecimal digit ([_PyLong_DigitValue] below 16). *)
Definition hex_digit (c : ascii) : option N :=
  let n := N_of_ascii c in
  if (48 <=? n)%N && (n <=? 57)%N then Some (n - 48)%N
  else if (97 <=? n)%N && (n <=? 102)%N then Some (n - 87)%N
  else if (65 <=? n)%N && (n <=? 70)%N then Some (n - 55)%N
  else None.

(** [Py_ISSPACE]: space, and the control characters 9 to 13. *)
Definition is_space (c : ascii) : bool :=
  let n := N_of_ascii c in
  (n =? 32)%N || ((9 <=? n)%N && (n <=? 13)%N).

Definition byte_of_N (n : N) : byte :=
  match Byte.of_N n with Some b => b | None => x00 end.

(** [bytes.fromhex(s)]: pairs of hexadecimal digits, ASCII white space
    allowed between pairs; [None] stands for the [ValueError] raised on
    anything else. *)
Fixpoint fromhex (s : string) : option (list byte) :=
  match s with
  | EmptyString => Some []
  | String c s1 =>
      if is_space c then fromhex s1
      else match hex_digit c, s1 with
           | Some top, String c2 s2 =>
               match hex_digit c2 with
               | Some bot =>
                   match fromhex s2 with
                   | Some bs => Some (byte_of_N (16 * top + bot) :: bs)
                   | None => None
                   end
               | None => None
               end
           | _, _ => None
           end
  end.

(** [s.encode("utf-8")]. *)
Definition encode (s : string) : list byte := list_byte_of_string s.

Definition is_cont (b : byte) : bool :=
  let n := Byte.to_N b in (128 <=? n)%N && (n <=? 191)%N.

Definition in_range (lo hi : N) (b : byte) : bool :=
  let n := Byte.to_N b in (lo <=? n)%N && (n <=? hi)%N.

(** Well-formed UTF-8, as the strict decoder accepts it: shortest forms
    only, no surrogates, nothing above U+10FFFF. *)
Fixpoint utf8_valid (l : list byte) : bool :=
  match l with
  | [] => true
  | b0 :: l1 =>
      if in_range 0 127 b0 then utf8_valid l1
      else match l1 with
      | b1 :: l2 =>
          if in_range 194 223 b0 then is_cont b1 && utf8_valid l2
          else match l2 with
          | b2 :: l3 =>
              if in_range 224 239 b0 then
                (if in_range 224 224 b0 then in_range 160 191 b1
                 else if in_range 237 237 b0 then in_range 128 159 b1
                 else is_cont b1)
                && is_cont b2 && utf8_valid l3
              else match l3 with
              | b3 :: l4 =>
                  in_range 240 244 b0
                  && (if in_range 240 240 b0 then in_range 144 191 b1
                      else if in_range 244 244 b0 then in_range 128 143 b1
                      else is_cont b1)
                  && is_cont b2 && is_cont b3 && utf8_valid l4
              | [] => false
              end
          | [] => false
          end
      | [] => false
      end
  end.

Definition is_ascii (b : byte) : bool := (Byte.to_N b <? 128)%N.

(** [b.decode("utf-8")]; [None] stands for [UnicodeDecodeError]. *)
Definition decode (b : list byte) : option string :=
  if utf8_valid b then Some (string_of_list_byte b) else None.

Definition b64_alphabet : list byte :=
  list_byte_of_string
    "ABCDEFGHIJKLMNOPQRSTUVWXYZabcdefghijklmnopqrstuvwxyz0123456789+/".

Definition b64_char (n : N) : byte := nth (N.to_nat n) b64_alphabet x00.

Definition b64_pad : byte := byte_of_N 61.

(** [base64.b64encode]: three bytes become four characters of the
    alphabet, the last group padded with [=]. *)
Fixpoint b64encode (l : list byte) : list byte :=
  match l with
  | [] => []
  | [a] =>
      let n := Byte.to_N a in
      [b64_char (n / 4); b64_char ((n mod 4) * 16); b64_pad; b64_pad]
  | [a; b] =>
      let n := Byte.to_N a in
      let m := Byte.to_N b in
      [b64_char (n / 4); b64_char ((n mod 4) * 16 + m / 16);
       b64_char ((m mod 16) * 4); b64_pad]
  | a :: b :: c :: rest =>
      let n := Byte.to_N a in
      let m := Byte.to_N b in
      let k := Byte.to_N c in
      b64_char (n / 4) :: b64_char ((n mod 4) * 16 + m / 16)
        :: b64_char ((m mod 16) * 4 + k / 64) :: b64_char (k mod 64)
        :: b64encode rest
  end.

(** [binascii]'s table from a character of the alphabet to its value. *)
Definition b64_value (c : byte) : option N :=
  let n := Byte.to_N c in
  if (65 <=? n)%N && (n <=? 90)%N then Some (n - 65)%N
  else if (97 <=? n)%N && (n <=? 122)%N then Some (n - 71)%N
  else if (48 <=? n)%N && (n <=? 57)%N then Some (n + 4)%N
  else if (n =? 43)%N then Some 62%N
  else if (n =? 47)%N then Some 63%N
  else None.

(** [binascii.a2b_base64] as [base64.b64decode] calls it (not strict): a
    character outside the alphabet is skipped, four characters give three
    bytes, and a pad that completes a group ends the decoding. [quad_pos]
    is the position in the group, [leftchar] the bits carried over, [pads]
    the pads seen in a row. [None] stands for [binascii.Error]. *)
Fixpoint a2b_base64 (quad_pos : nat) (leftchar : N) (pads : nat) (data : list byte)
  : option (list byte) :=
  match data with
  | [] => if (quad_pos =? 0)%nat then Some [] else None
  | this_ch :: rest =>
      if (Byte.to_N this_ch =? 61)%N then
        if (2 <=? quad_pos)%nat then
          if (4 <=? quad_pos + S pads)%nat then Some []
          else a2b_base64 quad_pos leftchar (S pads) rest
        else a2b_base64 quad_pos leftchar pads rest
      else
        match b64_value this_ch with
        | None => a2b_base64 quad_pos leftchar pads rest
        | Some v =>
            match quad_pos with
            | 0%nat => a2b_base64 1 v 0 rest
            | 1%nat =>
                option_map
                  (cons (byte_of_N (N.lor (N.shiftl leftchar 2) (N.shiftr v 4) mod 256)))
                  (a2b_base64 2 (N.land v 15) 0 rest)
            | 2%nat =>
                option_map
                  (cons (byte_of_N (N.lor (N.shiftl leftchar 4) (N.shiftr v 2) mod 256)))
                  (a2b_base64 3 (N.land v 3) 0 rest)
            | _ =>
                option_map
                  (cons (byte_of_N (N.lor (N.shiftl leftchar 6) v mod 256)))
                  (a2b_base64 0 0 0 rest)
            end
        end
  end.

(** [base64.b64decode(s)]. *)
Definition b64decode (s : list byte) : option (list byte) := a2b_base64 0 0 0 s.

End Py.

(** ** Exceptions and results *)

(** The exceptions the handler raises or lets through. [message] is what
    [str(e)] gives. The texts of exceptions raised by the interpreter and
    its libraries are abridged; [OtherError] is any exception of a class
    the handler never names (a provider [ClientError], a [JSONDecodeError]). *)
Inductive exn :=
| HTTPError (message : string) (status_code : Z)
| NotManaged (message : string)
| BadSignatureError (message : string)
| RuntimeError (message : string)
| ValueError (message : string)
| KeyError (message : string)
| AttributeError (message : string)
| UnicodeDecodeError (message : string)
| AssertionError (message : string)
| OtherError (class_name : string) (message : string).

(** [e.__class__.__name__] and [str(e)]. *)
Definition exn_class_name (e : exn) : string :=
  match e with
  | HTTPError _ _ => "HTTPError"
  | NotManaged _ => "NotManaged"
  | BadSignatureError _ => "BadSignatureError"
  | RuntimeError _ => "RuntimeError"
  | ValueError _ => "ValueError"
  | KeyError _ => "KeyError"
  | AttributeError _ => "AttributeError"
  | UnicodeDecodeError _ => "UnicodeDecodeError"
  | AssertionError _ => "AssertionError"
  | OtherError c _ => c
  end.

Definition exn_str (e : exn) : string :=
  match e with
  | HTTPError _ _ => ""
  | NotManaged m | BadSignatureError m | RuntimeError m | ValueError m
  | KeyError m | AttributeError m | UnicodeDecodeError m | AssertionError m
  | OtherError _ m => m
  end.

(** What a call that may raise produces. *)
Inductive result (A : Type) :=
| Ok (a : A)
| Raise (e : exn).

Arguments Ok {A} a.
Arguments Raise {A} e.

Definition rbind {A B} (r : result A) (k : A -> result B) : result B :=
  match r with
  | Ok a => k a
  | Raise e => Raise e
  end.

(** ** JSON values, as [json.loads] builds them *)

Inductive json :=
| JNull
| JBool (b : bool)
| JInt (n : Z)
| JFloat (f : float)
| JStr (s : string)
| JList (l : list json)
| JDict (d : list (string * json)).

Fixpoint assoc {A} (k : string) (d : list (string * A)) : option A :=
  match d with
  | [] => None
  | (k', v) :: d' => if String.eqb k' k then Some v else assoc k d'
  end.

(** [d.get(k)]: [None] (the same value as a JSON [null]) when [k] is absent. *)
Definition dict_get (k : string) (d : list (string * json)) : json :=
  match assoc k d with
  | Some v => v
  | None => JNull
  end.

(** Truth value of a Python object. *)
Definition truthy (v : json) : bool :=
  match v with
  | JNull => false
  | JBool b => b
  | JInt n => negb (n =? 0)%Z
  | JFloat f => negb (PrimFloat.eqb f 0%float)
  | JStr s => negb (String.eqb s "")
  | JList l => match l with [] => false | _ => true end
  | JDict d => match d with [] => false | _ => true end
  end.

(** [a or b]. *)
Definition py_or (a b : json) : json := if truthy a then a else b.

(** [v == n] for a small non-negative integer literal [n] (here 1 and 3):
    [True == 1] and [1.0 == 1] hold in Python. *)
Definition eq_int (v : json) (n : Z) : bool :=
  match v with
  | JInt m => (m =? n)%Z
  | JBool b => ((if b then 1 else 0) =? n)%Z
  | JFloat f => PrimFloat.eqb f (PrimFloat.of_uint63 (Uint63.of_Z n))
  | _ => false
  end.

(** [s == v] for a [str] [s]. *)
Definition eq_str (s : string) (v : json) : bool :=
  match v with
  | JStr s' => String.eqb s s'
  | _ => false
  end.

(** [o == v] for [o] a [str] or [None]. *)
Definition eq_opt_str (o : option string) (v : json) : bool :=
  match o, v with
  | Some s, _ => eq_str s v
  | None, JNull => true
  | None, _ => false
  end.

Definition type_name (v : json) : string :=
  match v with
  | JNull => "NoneType"
  | JBool _ => "bool"
  | JInt _ => "int"
  | JFloat _ => "float"
  | JStr _ => "str"
  | JList _ => "list"
  | JDict _ => "dict"
  end.

Definition no_attribute (v : json) (attr : string) : exn :=
  AttributeError ("'" +:+ type_name v +:+ "' object has no attribute '" +:+ attr +:+ "'").

(** [v.get(k)] on an arbitrary value. *)
Definition py_get (v : json) (k : string) : result json :=
  match v with
  | JDict d => Ok (dict_get k d)
  | _ => Raise (no_attribute v "get")
  end.

(** ** The EC2 client's requests and responses *)

Record Filter := { Name : string; Values : list string }.

Record Tag := { ResourceId : string; Key : string; Value : string }.

Record InstanceStatus := { InstanceId : string; InstanceStateName : string }.

(** One page of a paginated response: [response.get(items_key)] and
    [response.get("NextToken")]. *)
Record Page (A : Type) := { items : option (list A); NextToken : option string }.

Arguments items {A} _.
Arguments NextToken {A} _.

(** The calls the handler makes on [ec2_client]. *)
Inductive ec2_call :=
| DescribeTags (Filters : list Filter) (token : option string)
| DescribeInstanceStatus (InstanceIds : list string) (IncludeAllInstances : bool)
    (token : option string)
| StartInstances (InstanceIds : list string)
| StopInstances (InstanceIds : list string).

Definition is_lifecycle_call (c : ec2_call) : bool :=
  match c with
  | StartInstances _ | StopInstances _ => true
  | _ => false
  end.

(** ** What the handler is run against

    [World] is the provider's state. Every client call may raise and may
    change the world; nothing is assumed of it. [verify] is
    [VerifyKey.verify(message, signature)]: [None] when it returns,
    [Some e] when it raises [e]. [verify_key] is [None] when no public key
    is configured. *)
Record Externals := {
  World : Type;
  json_loads : string -> result json;
  json_dumps : json -> string;
  repr : string -> string;
  verify_key : option (list byte -> list byte -> option exn);
  describe_tags : list Filter -> option string -> World -> result (Page Tag) * World;
  describe_instance_status :
    list string -> bool -> option string -> World -> result (Page InstanceStatus) * World;
  start_instances : list string -> World -> result unit * World;
  stop_instances : list string -> World -> result unit * World
}.

Definition TAG_KEY : string := "svrmgr-message-id".

(** ** HTTP requests and responses *)

(** The event Lambda hands to [main], for the keys [from_lambda_event]
    reads. [None] is a key that is absent (for [body], also a null): the
    source reads [body] and [queryStringParameters] with [.get] and the
    others by subscript, which raises [KeyError]. *)
Module LambdaEvent.

Record http_t := { method : option string }.

Record requestContext_t := { http : option http_t }.

Record t := {
  body : option string;
  isBase64Encoded : option bool;
  requestContext : option requestContext_t;
  rawPath : option string;
  queryStringParameters : option (list (string * string));
  headers : option (list (string * string))
}.

End LambdaEvent.

Module HTTPRequest.

Record t := {
  method : string;
  path : string;
  query_parameters : option (list (string * string));
  headers : list (string * string);
  body : option (list byte)
}.

(** The value of the first header whose name matches, case-insensitively. *)
Definition get_header (self : t) (name : string) : option string :=
  match List.find (fun kv => String.eqb (Py.lower (fst kv)) (Py.lower name)) (headers self) with
  | Some kv => Some (snd kv)
  | None => None
  end.

Definition get_json_body_data (E : Externals) (self : t) : result json :=
  match body self with
  | None => Ok JNull
  | Some b =>
      match Py.decode b with
      | Some text => json_loads E text
      | None => Raise (UnicodeDecodeError "'utf-8' codec can't decode bytes")
      end
  end.

(** [event[key]]. *)
Definition subscript {A} (key : string) (value : option A) : result A :=
  match value with
  | Some v => Ok v
  | None => Raise (KeyError ("'" +:+ key +:+ "'"))
  end.

Definition from_lambda_event (event : LambdaEvent.t) : result t :=
  let body_json := LambdaEvent.body event in
  rbind
    match body_json with
    | None => Ok None
    | Some text =>
        let body := Py.encode text in
        rbind (subscript "isBase64Encoded" (LambdaEvent.isBase64Encoded event))
          (fun is_base64 =>
             if is_base64 : bool then
               match Py.b64decode body with
               | Some decoded => Ok (Some decoded)
               | None => Raise (OtherError "Error" "Incorrect padding")
               end
             else Ok (Some body))
    end
    (fun body =>
       rbind (subscript "requestContext" (LambdaEvent.requestContext event)) (fun context =>
       rbind (subscript "http" (LambdaEvent.http context)) (fun http =>
       rbind (subscript "method" (LambdaEvent.method http)) (fun method =>
       rbind (subscript "rawPath" (LambdaEvent.rawPath event)) (fun path =>
       rbind (subscript "headers" (LambdaEvent.headers event)) (fun headers =>
         Ok {| method := method;
               path := path;
               query_parameters := LambdaEvent.queryStringParameters event;
               headers := headers;
               body := body |})))))).

End HTTPRequest.

(** The dictionary handed back to Lambda; [None] is a key left out. *)
Module LambdaResult.

Record t := {
  statusCode : Z;
  headers : list (string * string);
  isBase64Encoded : option bool;
  body : option string
}.

End LambdaResult.

Module HTTPResponse.

Record t := {
  status_code : Z;
  headers : list (string * string);
  body : option (list byte)
}.

(** [HTTPError.to_response]. *)
Definition to_response (message : string) (status : Z) : t :=
  {| status_code := status;
     headers := [("Content-Type", "text/plain; charset=utf-8")];
     body := Some (Py.encode message) |}.

Definition from_exception (exception : exn) : t :=
  match exception with
  | HTTPError message status => to_response message status
  | _ =>
      let body_text := exn_class_name exception +:+ ": " +:+ exn_str exception in
      {| status_code := 500;
         headers := [("Content-Type", "text/plain; charset=utf-8")];
         body := Some (Py.encode body_text) |}
  end.

Definition from_json_body_data (E : Externals) (status : Z) (data : json) : t :=
  {| status_code := status;
     headers := [("Content-Type", "application/json; charset=utf-8")];
     body := Some (Py.encode (json_dumps E data)) |}.

(** [not self.body]: no body, or an empty one. *)
Definition body_missing (self : t) : bool :=
  match body self with
  | None | Some [] => true
  | Some (_ :: _) => false
  end.

Definition content_type_header (self : t) : string :=
  match List.find (fun kv => String.eqb (Py.lower (fst kv)) "content-type") (headers self) with
  | Some kv => snd kv
  | None => ""
  end.

Definition body_is_binary (self : t) : bool :=
  negb (Py.startswith (content_type_header self) "text/"
        || Py.startswith (content_type_header self) "application/json").

Definition to_lambda_result (self : t) : result LambdaResult.t :=
  if negb (status_code self =? 204)%Z then
    if body_missing self then
      Raise (RuntimeError ("Response status must be 204 (not "
                           +:+ Py.str_of_int (status_code self)
                           +:+ ") when body isn't provided"))
    else
      let body_bytes := default [] (body self) in
      let body_bytes := if body_is_binary self then Py.b64encode body_bytes else body_bytes in
      match Py.decode body_bytes with
      | Some text =>
          Ok {| LambdaResult.statusCode := status_code self;
                LambdaResult.headers := headers self;
                LambdaResult.isBase64Encoded := Some (body_is_binary self);
                LambdaResult.body := Some text |}
      | None => Raise (UnicodeDecodeError "'utf-8' codec can't decode bytes")
      end
  else
    Ok {| LambdaResult.statusCode := status_code self;
          LambdaResult.headers := headers self;
          LambdaResult.isBase64Encoded := None;
          LambdaResult.body := None |}.

End HTTPResponse.

(** ** Instances *)

Inductive InstanceState :=
| pending
| running
| shutting_down
| terminated
| stopping
| stopped.

Definition InstanceState_value (s : InstanceState) : string :=
  match s with
  | pending => "pending"
  | running => "running"
  | shutting_down => "shutting-down"
  | terminated => "terminated"
  | stopping => "stopping"
  | stopped => "stopped"
  end.

(** [InstanceState(v)]: the member with value [v], if any. *)
Definition InstanceState_of_value (v : string) : option InstanceState :=
  List.find (fun s => String.eqb (InstanceState_value s) v)
    [pending; running; shutting_down; terminated; stopping; stopped].

Record Instance := {
  id : string;
  tags : gmap string string;
  state : option InstanceState
}.

(** ** Effects

    The handler runs against a [system]: the provider's world and the log
    of the client calls made so far. A computation either returns or
    raises, leaving a new system, or does not finish within the pages its
    pagination loops were allowed ([None]). *)

Record system (W : Type) := { world : W; calls : list ec2_call }.

Arguments world {W} _.
Arguments calls {W} _.

Definition M (W A : Type) : Type := system W -> option (result A * system W).

Definition ret {W A} (a : A) : M W A := fun s => Some (Ok a, s).

Definition raise {W A} (e : exn) : M W A := fun s => Some (Raise e, s).

Definition lift {W A} (r : result A) : M W A := fun s => Some (r, s).

Definition diverge {W A} : M W A := fun _ => None.

Definition bind {W A B} (m : M W A) (k : A -> M W B) : M W B :=
  fun s =>
    match m s with
    | Some (Ok a, s') => k a s'
    | Some (Raise e, s') => Some (Raise e, s')
    | None => None
    end.

(** [try: m except ...: h e], where [h] re-raises what it does not handle. *)
Definition try_except {W A} (m : M W A) (h : exn -> M W A) : M W A :=
  fun s =>
    match m s with
    | Some (Raise e, s') => h e s'
    | r => r
    end.

Notation "x <- c ;; k" := (bind c (fun x => k))
  (at level 100, c at next level, right associativity).

Section Handler.

Context (E : Externals).

Abbreviation W := (World E).

(** *** The client *)

Definition logged {A} (c : ec2_call) (f : W -> result A * W) : M W A :=
  fun s =>
    let (r, w) := f (world s) in
    Some (r, {| world := w; calls := calls s ++ [c] |}).

Definition ec2_client_describe_tags (Filters : list Filter) (token : option string)
  : M W (Page Tag) :=
  logged (DescribeTags Filters token) (describe_tags E Filters token).

Definition ec2_client_describe_instance_status (InstanceIds : list string)
    (IncludeAllInstances : bool) (token : option string) : M W (Page InstanceStatus) :=
  logged (DescribeInstanceStatus InstanceIds IncludeAllInstances token)
    (describe_instance_status E InstanceIds IncludeAllInstances token).

Definition ec2_client_start_instances (InstanceIds : list string) : M W unit :=
  logged (StartInstances InstanceIds) (start_instances E InstanceIds).

Definition ec2_client_stop_instances (InstanceIds : list string) : M W unit :=
  logged (StopInstances InstanceIds) (stop_instances E InstanceIds).

(** *** Pagination *)

(** [response.get(items_key) or []]. *)
Definition page_items {A} (response : Page A) : list A :=
  match items response with
  | Some l => l
  | None => []
  end.

(** [response.get("NextToken")] when it is truthy. *)
Definition next_token {A} (response : Page A) : option string :=
  match NextToken response with
  | Some tok => if String.eqb tok "" then None else Some tok
  | None => None
  end.

(** The [while] loop of [_iter_ec2_response_pages]: at most [fuel] further
    pages are fetched. *)
Fixpoint next_pages {A} (fuel : nat) (client_fn : option string -> M W (Page A))
    (response : Page A) : M W (list A) :=
  match next_token response with
  | None => ret []
  | Some tok =>
      match fuel with
      | O => diverge
      | S fuel' =>
          response' <- client_fn (Some tok) ;;
          rest <- next_pages fuel' client_fn response' ;;
          ret (page_items response' ++ rest)
      end
  end.

(** The items of all pages, in order. The generator is consumed to its end
    by both callers, and what they do between two items is pure, so the
    items are returned as a list. *)
Definition _iter_ec2_response_pages {A} (fuel : nat)
    (client_fn : option string -> M W (Page A)) : M W (list A) :=
  response <- client_fn None ;;
  rest <- next_pages fuel client_fn response ;;
  ret (page_items response ++ rest).

(** *** Listing *)

(** One step of the grouping loop of [list_instances]: the tag goes into
    the dictionary of its instance, a new instance is added last. *)
Fixpoint add_tag (tag : Tag) (tags_by_instance : list (string * gmap string string))
  : list (string * gmap string string) :=
  match tags_by_instance with
  | [] => [(ResourceId tag, <[Key tag := Value tag]> (∅ : gmap string string))]
  | (instance_id, tags_for_instance) :: rest =>
      if String.eqb instance_id (ResourceId tag)
      then (instance_id, <[Key tag := Value tag]> tags_for_instance) :: rest
      else (instance_id, tags_for_instance) :: add_tag tag rest
  end.

Definition group_tags (tags : list Tag) : list (string * gmap string string) :=
  fold_left (fun tags_by_instance tag => add_tag tag tags_by_instance) tags [].

Definition list_instances (fuel : nat) : M W (list Instance) :=
  let tag_keys := [TAG_KEY; "Name"] in
  let describe_tags :=
    ec2_client_describe_tags
      [ {| Name := "resource-type"; Values := ["instance"] |};
        {| Name := "key"; Values := tag_keys |} ] in
  tags <- _iter_ec2_response_pages fuel describe_tags ;;
  ret (map (fun it => {| id := fst it; tags := snd it; state := None |}) (group_tags tags)).

(** *** Instance states *)

(** [{i["InstanceId"]: i for i in instance_statuses}[instance_id]]: the
    last status listed for the instance. *)
Definition status_by_instance_id (instance_statuses : list InstanceStatus)
    (instance_id : string) : option InstanceStatus :=
  List.find (fun i => String.eqb (InstanceId i) instance_id) (rev instance_statuses).

(** The loop that updates the instances. It assigns in place; the list is
    local to [handle_request] and dropped when the loop raises, so the
    model returns the updated list. *)
Fixpoint set_states (instance_statuses : list InstanceStatus) (instances : list Instance)
  : result (list Instance) :=
  match instances with
  | [] => Ok []
  | instance :: rest =>
      match status_by_instance_id instance_statuses (id instance) with
      | None => Raise (KeyError (repr E (id instance)))
      | Some status =>
          match InstanceState_of_value (InstanceStateName status) with
          | None =>
              Raise (ValueError (repr E (InstanceStateName status)
                                 +:+ " is not a valid InstanceState"))
          | Some st =>
              rbind (set_states instance_statuses rest) (fun rest' =>
                Ok ({| id := id instance; tags := tags instance; state := Some st |} :: rest'))
          end
      end
  end.

Definition get_instances_state (fuel : nat) (instances : list Instance)
  : M W (list Instance) :=
  let describe_instance_status :=
    ec2_client_describe_instance_status (map id instances) true in
  instance_statuses <- _iter_ec2_response_pages fuel describe_instance_status ;;
  lift (set_states instance_statuses instances).

(** *** Ownership *)

(** The filters of the ownership query: the tags of one instance with key
    [TAG_KEY]. *)
Definition owner_filters (instance_id : string) : list Filter :=
  [ {| Name := "resource-id"; Values := [instance_id] |};
    {| Name := "resource-type"; Values := ["instance"] |};
    {| Name := "key"; Values := [TAG_KEY] |} ].

Definition get_message_id_for_instance (instance_id : string) : M W string :=
  response <- ec2_client_describe_tags (owner_filters instance_id) None ;;
  let tags := page_items response in
  match tags with
  | [] =>
      raise (NotManaged ("EC2 instance " +:+ repr E instance_id
                         +:+ " is not managed by any Discord message"))
  | tag0 :: _ =>
      if (2 <? length tags)%nat then
        raise (RuntimeError ("Found multiple tags on EC2 instance " +:+ repr E instance_id
                             +:+ " with key " +:+ repr E TAG_KEY))
      else ret (Value tag0)
  end.

Definition start_instance (instance_id : string) : M W unit :=
  ec2_client_start_instances [instance_id].

Definition stop_instance (instance_id : string) : M W unit :=
  ec2_client_stop_instances [instance_id].

(** *** Authentication *)

(** [h or ""] for a header value. *)
Definition or_empty (h : option string) : string :=
  match h with
  | Some v => v
  | None => ""
  end.

(** [timestamp + (request.body or b"")]: what the signature is over. *)
Definition signed_message (request : HTTPRequest.t) : list byte :=
  let timestamp :=
    Py.encode (or_empty (HTTPRequest.get_header request "X-Signature-Timestamp")) in
  timestamp ++ match HTTPRequest.body request with Some b => b | None => [] end.

Definition verify_discord_request_auth (request : HTTPRequest.t) : result unit :=
  match verify_key E with
  | None => Ok tt
  | Some verify =>
      match Py.fromhex (or_empty (HTTPRequest.get_header request "X-Signature-Ed25519")) with
      | None => Raise (ValueError "non-hexadecimal number found in fromhex() arg")
      | Some signature =>
          let message := signed_message request in
          match message with
          | [] => Raise (HTTPError "missing request signature" 401)
          | _ :: _ =>
              match verify message signature with
              | None => Ok tt
              | Some (BadSignatureError _) =>
                  Raise (HTTPError "invalid request signature" 401)
              | Some e => Raise e
              end
          end
      end
  end.

(** *** Rendering *)

(** [x.tags.get("Name") or x.id]: the sort key and the display name. *)
Definition display_name (x : Instance) : string :=
  match tags x !! "Name" with
  | Some name => if String.eqb name "" then id x else name
  | None => id x
  end.

(** [sorted(l, key=key)] on string keys: ascending, and stable. Insertion
    from the right puts an element before the elements of equal key that
    followed it in [l]. *)
Fixpoint insert_by {A} (key : A -> string) (x : A) (l : list A) : list A :=
  match l with
  | [] => [x]
  | y :: l' => if String.leb (key x) (key y) then x :: y :: l' else y :: insert_by key x l'
  end.

Definition sorted {A} (key : A -> string) (l : list A) : list A :=
  fold_right (insert_by key) [] l.

(** The label of the refresh button, U+21BB. *)
Definition refresh_label : string :=
  String (ascii_of_N 226) (String (ascii_of_N 134) (String (ascii_of_N 187) EmptyString)).

Definition button_row (label : string) (style : Z) (custom_id : string) : json :=
  JDict [("type", JInt 1);
         ("components",
          JList [JDict [("type", JInt 2); ("label", JStr label);
                        ("style", JInt style); ("custom_id", JStr custom_id)]])].

(** The body of the loop over the instances: the row of one instance. *)
Definition instance_row (instance : Instance) : json :=
  let name := display_name instance in
  match state instance with
  | Some stopped => button_row ("Start " +:+ name) 3 ("start:" +:+ id instance)
  | Some running => button_row ("Stop " +:+ name) 4 ("stop:" +:+ id instance)
  | other =>
      let shown :=
        match other with
        | Some st => InstanceState_value st
        | None => "unknown"
        end in
      button_row (name +:+ " (" +:+ shown +:+ ")") 2 ("refresh:" +:+ id instance)
  end.

Definition server_components (instances : list Instance) : list json :=
  fold_left (fun components instance => components ++ [instance_row instance])
    instances [button_row refresh_label 2 "refresh"].

Definition response_data (instances : list Instance) : json :=
  JDict [("type", JInt 7);
         ("data", JDict [("content", JStr "Servers");
                         ("components", JList (server_components instances))])].

(** The instances of a listing that a message owns (line 422). *)
Definition owned_by (message_id : json) (instances : list Instance) : list Instance :=
  List.filter (fun i => eq_opt_str (tags i !! TAG_KEY) message_id) instances.

(** *** The handler *)

(** [v.split(":", maxsplit)] on an arbitrary value. *)
Definition py_split (v : json) (maxsplit : option nat) : result (list string) :=
  match v with
  | JStr s => Ok (Py.split ":" maxsplit s)
  | _ => Raise (no_attribute v "split")
  end.

(** [l[0]] of a list [str.split] returned (never empty). *)
Definition first (l : list string) : string :=
  match l with
  | x :: _ => x
  | [] => ""
  end.

(** [a, b = l]. *)
Definition unpack2 (l : list string) : result (string * string) :=
  match l with
  | [a; b] => Ok (a, b)
  | [] => Raise (ValueError "not enough values to unpack (expected 2, got 0)")
  | [_] => Raise (ValueError "not enough values to unpack (expected 2, got 1)")
  | _ => Raise (ValueError "too many values to unpack (expected 2)")
  end.

(** Lines 394 to 417: the start/stop branch and the grammar check. *)
Definition act_on_button (message_id custom_id : json) : M W unit :=
  parts <- lift (py_split custom_id None) ;;
  if String.eqb (first parts) "start" || String.eqb (first parts) "stop" then
    parts1 <- lift (py_split custom_id (Some 1%nat)) ;;
    ai <- lift (unpack2 parts1) ;;
    let action := fst ai in
    let instance_id := snd ai in
    instance_message_id <-
      try_except (get_message_id_for_instance instance_id)
        (fun e =>
           match e with
           | NotManaged _ =>
               raise (HTTPError
                        "Not allowed: instance doesn't exist or isn't managed by svrmgr" 403)
           | _ => raise e
           end) ;;
    if negb (eq_str instance_message_id message_id) then
      raise (HTTPError "Not allowed: instance isn't managed by this message" 403)
    else if String.eqb action "start" then start_instance instance_id
    else if String.eqb action "stop" then stop_instance instance_id
    else raise (AssertionError "")
  else if negb (eq_str "refresh" custom_id) && negb (String.eqb (first parts) "refresh") then
    raise (HTTPError "Unknown component custom ID" 400)
  else ret tt.

(** Lines 419 to 461: list, filter, sort, refresh the states, render. *)
Definition render_message (fuel : nat) (message_id : json) : M W HTTPResponse.t :=
  instances <- list_instances fuel ;;
  let instances := owned_by message_id instances in
  let instances := sorted display_name instances in
  instances <- get_instances_state fuel instances ;;
  ret (HTTPResponse.from_json_body_data E 200 (response_data instances)).

Definition handle_request (fuel : nat) (request : HTTPRequest.t) : M W HTTPResponse.t :=
  _ <- lift (verify_discord_request_auth request) ;;
  request_data <- lift (HTTPRequest.get_json_body_data E request) ;;
  match request_data with
  | JDict d =>
      let interaction_type := dict_get "type" d in
      match interaction_type with
      | JNull => raise (HTTPError "Bad request body: missing type" 400)
      | _ =>
          if eq_int interaction_type 1 then
            ret (HTTPResponse.from_json_body_data E 200 (JDict [("type", JInt 1)]))
          else if negb (eq_int interaction_type 3) then
            raise (HTTPError "Unsupported interaction type" 400)
          else
            message_id <- lift (py_get (py_or (dict_get "message" d) (JDict [])) "id") ;;
            match message_id with
            | JNull => raise (HTTPError "Bad request body: missing message ID" 400)
            | _ =>
                custom_id <- lift (py_get (py_or (dict_get "data" d) (JDict [])) "custom_id") ;;
                if negb (truthy custom_id) then
                  raise (HTTPError "Bad request body: missing component custom ID" 400)
                else
                  _ <- act_on_button message_id custom_id ;;
                  render_message fuel message_id
            end
      end
  | _ => raise (HTTPError "Bad request body: not an object" 400)
  end.

(** [main], from the [try] on: the event has been decoded into [request].
    Whatever [handle_request] raises becomes a response, and the response
    is encoded for Lambda. *)
Definition main (fuel : nat) (request : HTTPRequest.t) : M W LambdaResult.t :=
  fun s =>
    match handle_request fuel request s with
    | Some (Ok response, s') => Some (HTTPResponse.to_lambda_result response, s')
    | Some (Raise e, s') =>
        Some (HTTPResponse.to_lambda_result (HTTPResponse.from_exception e), s')
    | None => None
    end.

(** [main] whole, from the event: decoding the event is outside the
    [try], so what it raises leaves [main]. *)
Definition main_of_event (fuel : nat) (event : LambdaEvent.t) : M W LambdaResult.t :=
  fun s =>
    match HTTPRequest.from_lambda_event event with
    | Ok request => main fuel request s
    | Raise e => Some (Raise e, s)
    end.

(** *** Vocabulary of the statements *)

(** [request] is an authenticated [message_component] interaction (type 3)
    that carries the message identifier [message_id] and a non-empty
    custom identifier [custom_id]. *)
Definition message_component (request : HTTPRequest.t) (message_id custom_id : json) : Prop :=
  verify_discord_request_auth request = Ok tt
  /\ exists d,
       HTTPRequest.get_json_body_data E request = Ok (JDict d)
       /\ eq_int (dict_get "type" d) 1 = false
       /\ eq_int (dict_get "type" d) 3 = true
       /\ py_get (py_or (dict_get "message" d) (JDict [])) "id" = Ok message_id
       /\ message_id <> JNull
       /\ py_get (py_or (dict_get "data" d) (JDict [])) "custom_id" = Ok custom_id
       /\ truthy custom_id = true.

(** The client calls made between two systems of one run. *)
Definition issued (before after : system W) : list ec2_call :=
  skipn (length (calls before)) (calls after).

(** The system right after the ownership query for [instance_id]. *)
Definition after_owner_query (instance_id : string) (s : system W) : system W :=
  {| world := snd (describe_tags E (owner_filters instance_id) None (world s));
     calls := calls s ++ [DescribeTags (owner_filters instance_id) None] |}.

(** The tags the provider reports for the ownership query, when it
    answers. *)
Definition owner_tags (instance_id : string) (s : system W) : result (list Tag) :=
  match fst (describe_tags E (owner_filters instance_id) None (world s)) with
  | Ok response => Ok (page_items response)
  | Raise e => Raise e
  end.

End Handler.

(** The Lambda result of an error response with a plain-text message. *)
Definition error_result (status : Z) (message : string) : LambdaResult.t :=
  {| LambdaResult.statusCode := status;
     LambdaResult.headers := [("Content-Type", "text/plain; charset=utf-8")];
     LambdaResult.isBase64Encoded := Some false;
     LambdaResult.body := Some message |}.

(** The grammar of custom identifiers, as the specification words it:
    exactly [refresh], or [<action>:<target>] with the action one of
    [start], [stop], [refresh]. *)
Definition custom_id_grammar (custom_id : string) : Prop :=
  custom_id = "refresh"
  \/ exists action target : string,
       custom_id = action +:+ ":" +:+ target
       /\ (action = "start" \/ action = "stop" \/ action = "refresh").


(** Following the continuation tokens of a listing from [response], in
    world [w], reaches a page without a token (or a call that raises). *)
Inductive listing_ends {W A} (f : option string -> W -> result (Page A) * W)
  : Page A -> W -> Prop :=
| ends_here (response : Page A) (w : W) :
    NextToken response = None \/ NextToken response = Some "" ->
    listing_ends f response w
| ends_later (response : Page A) (w : W) (tok : string) :
    NextToken response = Some tok ->
    (forall response', fst (f (Some tok) w) = Ok response' ->
                       listing_ends f response' (snd (f (Some tok) w))) ->
    listing_ends f response w.

(** Every listing of the provider is finite, wherever it is started. *)
Definition listings_end (E : Externals) : Prop :=
  (forall Filters response w, listing_ends (describe_tags E Filters) response w)
  /\ (forall InstanceIds IncludeAllInstances response w,
        listing_ends (describe_instance_status E InstanceIds IncludeAllInstances) response w).

(** A computation that finishes from every system. *)
Definition returns {W A} (m : M W A) : Prop :=
  forall s : system W, exists out, m s = Some out.

(** A computation that, whenever it finishes, has only added calls that
    are neither a start nor a stop. *)
Definition queries_only {W A} (m : M W A) : Prop :=
  forall (s : system W) (r : result A) (s' : system W),
    m s = Some (r, s') ->
    exists added,
      calls s' = calls s ++ added
      /\ forallb (fun c => negb (is_lifecycle_call c)) added = true.


(** The order [sorted] works with: by key alone. *)
Definition key_le {A} (key : A -> string) (a b : A) : Prop :=
  String.leb (key a) (key b) = true.

(** The elements of key [k], for stating stability. *)
Definition has_key {A} (key : A -> string) (k : string) (a : A) : bool :=
  String.eqb (key a) k.

(** ** Vocabulary of the properties of the parts

    What follows names what the statements about pagination, grouping, the
    states, authentication and the error responses speak of. *)

(** The filters of the listing of [list_instances]. *)
Definition instance_tag_filters : list Filter :=
  [ {| Name := "resource-type"; Values := ["instance"] |};
    {| Name := "key"; Values := [TAG_KEY; "Name"] |} ].

(** The arithmetic of one base64 group on the bytes [n] and [m]: what the
    decoder rebuilds from the sextets the encoder cut, checked on all
    pairs of bytes by computation. *)
Definition sextets_ok (n m : N) : bool :=
  (N.lor (N.shiftl (n / 4) 2) (N.shiftr ((n mod 4) * 16 + m / 16) 4) mod 256 =? n)%N
  && (N.land ((n mod 4) * 16 + m / 16) 15 =? m / 16)%N
  && (N.lor (N.shiftl (n / 16) 4) (N.shiftr ((n mod 16) * 4 + m / 64) 2) mod 256 =? n)%N
  && (N.land ((n mod 16) * 4 + m / 64) 3 =? m / 64)%N
  && (N.lor (N.shiftl (n / 64) 6) (n mod 64) mod 256 =? n)%N
  && ((n mod 4) * 16 + m / 16 <? 64)%N
  && ((n mod 16) * 4 + m / 64 <? 64)%N
  && (n / 4 <? 64)%N
  && (n mod 64 <? 64)%N.

(** A listing of the provider followed from [token] in world [w]: the
    pages it returned, in order, the exception that cut it short if one
    did, and the world it left. Each page but the last carries the token
    the next call is made with; a listing that was not cut ends on the
    first page without a token (an absent, null or empty [NextToken]). *)
Inductive listing {W A} (f : option string -> W -> result (Page A) * W)
  : option string -> W -> list (Page A) -> option exn -> W -> Prop :=
| listing_last (token : option string) (w : W) (response : Page A) (w' : W) :
    f token w = (Ok response, w') ->
    next_token response = None ->
    listing f token w [response] None w'
| listing_raise (token : option string) (w : W) (e : exn) (w' : W) :
    f token w = (Raise e, w') ->
    listing f token w [] (Some e) w'
| listing_more (token : option string) (w : W) (response : Page A) (w1 : W)
    (tok : string) (pages : list (Page A)) (raised : option exn) (w' : W) :
    f token w = (Ok response, w1) ->
    next_token response = Some tok ->
    listing f (Some tok) w1 pages raised w' ->
    listing f token w (response :: pages) raised w'.

(** What a listing gives its consumer: the items of its pages, or the
    exception. *)
Definition listing_outcome {A} (pages : list (Page A)) (raised : option exn)
  : result (list A) :=
  match raised with
  | None => Ok (concat (map page_items pages))
  | Some e => Raise e
  end.

(** The tokens of the calls of a listing: none for the first call, then
    the token of each page that was followed. *)
Definition listing_tokens {A} (pages : list (Page A)) (raised : option exn)
  : list (option string) :=
  None :: map next_token (match raised with
                          | None => removelast pages
                          | Some _ => pages
                          end).

(** The value of the last tag of [tag_list] on [instance_id] with key
    [key]. *)
Definition last_tag_value (tag_list : list Tag) (instance_id key : string) : option string :=
  option_map Value
    (List.find (fun tag => String.eqb (ResourceId tag) instance_id && String.eqb (Key tag) key)
       (rev tag_list)).

(** The elements of a list, each once, in the order of their first
    occurrence. *)
Definition first_seen (l : list string) : list string :=
  rev (nodup String.string_dec (rev l)).

(** [shown] is [instance] with the state of the last status listed for
    it. *)
Definition shows_last_status (instance_statuses : list InstanceStatus)
    (instance shown : Instance) : Prop :=
  id shown = id instance
  /\ tags shown = tags instance
  /\ exists (before after : list InstanceStatus) (status : InstanceStatus)
            (st : InstanceState),
       instance_statuses = before ++ status :: after
       /\ InstanceId status = id instance
       /\ Forall (fun later => InstanceId later <> id instance) after
       /\ InstanceState_value st = InstanceStateName status
       /\ state shown = Some st.

(** The request passes the authentication: no key is configured, or the
    verifier returns on the signed message and the signature of the
    header. *)
Definition accepted (E : Externals) (request : HTTPRequest.t) : Prop :=
  match verify_key E with
  | None => True
  | Some verify =>
      exists signature : list byte,
        Py.fromhex (or_empty (HTTPRequest.get_header request "X-Signature-Ed25519"))
        = Some signature
        /\ signed_message request <> []
        /\ verify (signed_message request) signature = None
  end.

Definition is_HTTPError (e : exn) : bool :=
  match e with
  | HTTPError _ _ => true
  | _ => false
  end.

(** [HTTPError] is the handler's own class: nothing the handler calls
    raises it. *)
Definition libraries_raise_no_HTTPError (E : Externals) : Prop :=
  (forall text e, json_loads E text = Raise e -> is_HTTPError e = false)
  /\ (forall verify message signature e,
        verify_key E = Some verify -> verify message signature = Some e ->
        is_HTTPError e = false)
  /\ (forall Filters token w e,
        fst (describe_tags E Filters token w) = Raise e -> is_HTTPError e = false)
  /\ (forall InstanceIds IncludeAllInstances token w e,
        fst (describe_instance_status E InstanceIds IncludeAllInstances token w) = Raise e ->
        is_HTTPError e = false)
  /\ (forall InstanceIds w e,
        fst (start_instances E InstanceIds w) = Raise e -> is_HTTPError e = false)
  /\ (forall InstanceIds w e,
        fst (stop_instances E InstanceIds w) = Raise e -> is_HTTPError e = false).

(** A computation that raises only exceptions of [P]. *)
Definition raises_only {W A} (P : exn -> Prop) (m : M W A) : Prop :=
  forall (s : system W) (e : exn) (s' : system W), m s = Some (Raise e, s') -> P e.

(** The [HTTPError]s of [handle_request] and [verify_discord_request_auth]:
    those raised before any client call (lines 342, 347, 366, 371, 380,
    385, 390 and 417), and those of the ownership check (lines 401 and
    407). *)
Definition early_http_errors : list (string * Z) :=
  [ ("missing request signature", 401%Z);
    ("invalid request signature", 401%Z);
    ("Bad request body: not an object", 400%Z);
    ("Bad request body: missing type", 400%Z);
    ("Unsupported interaction type", 400%Z);
    ("Bad request body: missing message ID", 400%Z);
    ("Bad request body: missing component custom ID", 400%Z);
    ("Unknown component custom ID", 400%Z) ].

Definition ownership_http_errors : list (string * Z) :=
  [ ("Not allowed: instance doesn't exist or isn't managed by svrmgr", 403%Z);
    ("Not allowed: instance isn't managed by this message", 403%Z) ].

(** The action of the button rendered for an instance (lines 436 to
    446). *)
Definition button_action (instance : Instance) : string :=
  match state instance with
  | Some stopped => "start"
  | Some running => "stop"
  | _ => "refresh"
  end.

(** The Lambda result of the [AttributeError] raised by [v.attr]. *)
Definition crash_result (v : json) (attr : string) : LambdaResult.t :=
  error_result 500
    ("AttributeError: '" +:+ type_name v +:+ "' object has no attribute '" +:+ attr +:+ "'").

(** The handler refuses the request with a 400 before any client call,
    and [main] answers 400 with the text. *)
Definition refused_400 (E : Externals) (fuel : nat) (request : HTTPRequest.t)
    (s : system (World E)) (text : string) : Prop :=
  handle_request E fuel request s = Some (Raise (HTTPError text 400), s)
  /\ main E fuel request s = Some (Ok (error_result 400 text), s).

(** Reading [v.attr] raised [AttributeError] in the handler, before any
    client call, and [main] answers 500. *)
Definition crashes_500 (E : Externals) (fuel : nat) (request : HTTPRequest.t)
    (s : system (World E)) (v : json) (attr : string) : Prop :=
  handle_request E fuel request s = Some (Raise (no_attribute v attr), s)
  /\ main E fuel request s = Some (Ok (crash_result v attr), s).

(** ** A small provider to run the handler against

    The examples need a world. [Toy] keeps the tags of the account as a
    list of [Tag] rows and a state name per instance, pages its listings
    [1 + page_more] items at a time (the continuation token is the offset, in
    unary), and accepts a start or a stop of any instance it knows. Its
    verifier follows PyNaCl's interface: a signature that is not 64 bytes
    long is refused with [ValueError], a 64-byte one is accepted when every
    byte is the sum of the message's bytes modulo 256, and is a
    [BadSignatureError] otherwise. Its JSON decoder knows the documents it
    is given, and its encoder covers what the handler emits. *)

Module Toy.

Record cloud := {
  account_tags : list Tag;
  states : list (string * string);
  page_more : nat
}.

Definition filter_matches (resource : string) (key : string) (f : Filter) : bool :=
  if String.eqb (Name f) "resource-id" then existsb (String.eqb resource) (Values f)
  else if String.eqb (Name f) "key" then existsb (String.eqb key) (Values f)
  else if String.eqb (Name f) "resource-type" then existsb (String.eqb "instance") (Values f)
  else false.

Definition unary (n : nat) : string := string_of_list_ascii (repeat "x"%char n).

Definition offset_of (token : option string) : nat :=
  match token with
  | Some t => String.length t
  | None => O
  end.

Definition paged {A} (size : nat) (token : option string) (l : list A) : Page A :=
  let rest := skipn (offset_of token) l in
  {| items := Some (firstn size rest);
     NextToken := if (size <? length rest)%nat
                  then Some (unary (offset_of token + size)) else None |}.

Definition tags_of (Filters : list Filter) (token : option string) (w : cloud)
  : result (Page Tag) * cloud :=
  (Ok (paged (S (page_more w)) token
         (List.filter (fun t => forallb (filter_matches (ResourceId t) (Key t)) Filters)
            (account_tags w))), w).

Definition statuses_of (InstanceIds : list string) (IncludeAllInstances : bool)
    (token : option string) (w : cloud) : result (Page InstanceStatus) * cloud :=
  (Ok (paged (S (page_more w)) token
         (map (fun st => {| InstanceId := fst st; InstanceStateName := snd st |})
            (List.filter (fun st => match InstanceIds with
                                    | [] => true
                                    | _ => existsb (String.eqb (fst st)) InstanceIds
                                    end) (states w)))), w).

Definition set_state (to : string) (InstanceIds : list string) (w : cloud)
  : result unit * cloud :=
  if forallb (fun i => existsb (fun st => String.eqb (fst st) i) (states w)) InstanceIds
  then (Ok tt,
        {| account_tags := account_tags w;
           states := map (fun st => if existsb (String.eqb (fst st)) InstanceIds
                                    then (fst st, to) else st) (states w);
           page_more := page_more w |})
  else (Raise (OtherError "ClientError" "InvalidInstanceID.NotFound"), w).

Definition checksum (message : list byte) : N :=
  (fold_right (fun b acc => Byte.to_N b + acc) 0 message mod 256)%N.

Definition verify (message signature : list byte) : option exn :=
  if negb (length signature =? 64)%nat then
    Some (ValueError "The signature must be exactly 64 bytes long")
  else if forallb (fun b => (Byte.to_N b =? checksum message)%N) signature then None
  else Some (BadSignatureError "Signature was forged or corrupt").

Definition hex_of (n : N) : string :=
  let digit := fun d => match nth_error (list_ascii_of_string "0123456789abcdef") (N.to_nat d) with
                        | Some c => c
                        | None => "0"%char
                        end in
  String (digit (n / 16)%N) (String (digit (n mod 16)%N) EmptyString).

(** A signature the verifier accepts for [message], as the header carries it. *)
Definition sign (message : list byte) : string :=
  String.concat "" (repeat (hex_of (checksum message)) 64).

Definition hex4 (n : N) : string := hex_of (n / 256)%N +:+ hex_of (n mod 256)%N.

(** The code points of well-formed UTF-8. *)
Fixpoint code_points (l : list N) : list N :=
  match l with
  | [] => []
  | b0 :: l1 =>
      if (b0 <? 128)%N then b0 :: code_points l1
      else match l1 with
      | b1 :: l2 =>
          if (b0 <? 224)%N then ((b0 - 192) * 64 + (b1 - 128))%N :: code_points l2
          else match l2 with
          | b2 :: l3 =>
              if (b0 <? 240)%N
              then ((b0 - 224) * 4096 + (b1 - 128) * 64 + (b2 - 128))%N :: code_points l3
              else match l3 with
              | b3 :: l4 =>
                  ((b0 - 240) * 262144 + (b1 - 128) * 4096 + (b2 - 128) * 64 + (b3 - 128))%N
                    :: code_points l4
              | [] => []
              end
          | [] => []
          end
      | [] => []
      end
  end.

(** One character of a string literal, as [json.dumps] escapes it. *)
Definition dumps_char (n : N) : string :=
  let bs := String (ascii_of_N 92) EmptyString in
  if (n =? 34)%N then bs +:+ String (ascii_of_N 34) EmptyString
  else if (n =? 92)%N then bs +:+ bs
  else if (n =? 10)%N then bs +:+ "n"
  else if (n =? 13)%N then bs +:+ "r"
  else if (n =? 9)%N then bs +:+ "t"
  else if (n =? 8)%N then bs +:+ "b"
  else if (n =? 12)%N then bs +:+ "f"
  else if (32 <=? n)%N && (n <=? 126)%N then String (ascii_of_N n) EmptyString
  else if (n <? 65536)%N then bs +:+ "u" +:+ hex4 n
  else bs +:+ "u" +:+ hex4 (55296 + (n - 65536) / 1024)%N
       +:+ bs +:+ "u" +:+ hex4 (56320 + (n - 65536) mod 1024)%N.

Definition dumps_str (s : string) : string :=
  let quote := String (ascii_of_N 34) EmptyString in
  quote +:+ String.concat "" (map dumps_char (code_points (map N_of_ascii (list_ascii_of_string s))))
  +:+ quote.

Fixpoint dumps (v : json) : string :=
  match v with
  | JNull => "null"
  | JBool b => if b then "true" else "false"
  | JInt n => Py.str_of_int n
  | JFloat _ => "0.0"
  | JStr s => dumps_str s
  | JList l => "[" +:+ String.concat ", " (map dumps l) +:+ "]"
  | JDict d =>
      "{" +:+ String.concat ", " (map (fun kv => dumps_str (fst kv) +:+ ": " +:+ dumps (snd kv)) d)
      +:+ "}"
  end.

Definition loads (documents : list (string * json)) (text : string) : result json :=
  match assoc text documents with
  | Some v => Ok v
  | None => Raise (OtherError "JSONDecodeError" "Expecting value")
  end.

Definition externals (keyed : bool) (documents : list (string * json)) : Externals :=
  {| World := cloud;
     json_loads := loads documents;
     json_dumps := dumps;
     repr := fun s => "'" +:+ s +:+ "'";
     verify_key := if keyed then Some verify else None;
     describe_tags := tags_of;
     describe_instance_status := statuses_of;
     start_instances := set_state "pending";
     stop_instances := set_state "stopping" |}.

(** The payload of a button press. *)
Definition press (message_id custom_id : string) : json :=
  JDict [("type", JInt 3);
         ("message", JDict [("id", JStr message_id)]);
         ("data", JDict [("custom_id", JStr custom_id)])].

(** The documents of the examples, by the body text that stands for each. *)
Definition documents : list (string * json) :=
  [ ("ping", JDict [("type", JInt 1);
                    ("message", JDict [("id", JStr "M1")]);
                    ("data", JDict [("custom_id", JStr "stop:i-zzz")])]);
    ("M1 stop:i-abc", press "M1" "stop:i-abc");
    ("M1 stop:i-zzz", press "M1" "stop:i-zzz");
    ("M1 start:i-none", press "M1" "start:i-none");
    ("M1 start:", press "M1" "start:");
    ("M1 start", press "M1" "start");
    ("M1 stop", press "M1" "stop");
    ("M1 reboot:i-abc", press "M1" "reboot:i-abc");
    ("M1 refresh", press "M1" "refresh");
    ("M3 refresh", press "M3" "refresh");
    ("M1 stop:i-dup", press "M1" "stop:i-dup");
    ("[]", JList []);
    ("{}", JDict []) ].

Definition keyed : Externals := externals true documents.

Definition unkeyed : Externals := externals false documents.

Definition tag (resource key value : string) : Tag :=
  {| ResourceId := resource; Key := key; Value := value |}.

(** An account: [i-abc] (named web, running) and [i-def] (stopped) belong
    to message M1, [i-zzz] to M2, and [i-2] and [i-1], both named db and
    listed in this order, to M3. *)
Definition account : cloud :=
  {| account_tags :=
       [ tag "i-abc" TAG_KEY "M1"; tag "i-abc" "Name" "web";
         tag "i-def" TAG_KEY "M1";
         tag "i-zzz" TAG_KEY "M2";
         tag "i-2" TAG_KEY "M3"; tag "i-2" "Name" "db";
         tag "i-1" TAG_KEY "M3"; tag "i-1" "Name" "db" ];
     states := [("i-abc", "running"); ("i-def", "stopped"); ("i-zzz", "stopped");
                ("i-2", "stopped"); ("i-1", "stopped")];
     page_more := 2 |}.

(** An account whose instance [i-dup] carries two ownership tags. *)
Definition tampered : cloud :=
  {| account_tags := [ tag "i-dup" TAG_KEY "M1"; tag "i-dup" TAG_KEY "M2" ];
     states := [("i-dup", "running")];
     page_more := 2 |}.

(** An instance named db that message M3 owns, as listed and as shown. *)
Definition db (instance_id : string) (st : option InstanceState) : Instance :=
  {| id := instance_id;
     tags := <["Name" := "db"]> (<[TAG_KEY := "M3"]> (∅ : gmap string string));
     state := st |}.

Definition fresh (w : cloud) : system cloud := {| world := w; calls := [] |}.

Definition post (headers : list (string * string)) (body : option string) : HTTPRequest.t :=
  {| HTTPRequest.method := "POST";
     HTTPRequest.path := "/";
     HTTPRequest.query_parameters := None;
     HTTPRequest.headers := headers;
     HTTPRequest.body := option_map Py.encode body |}.

(** A request carrying a signature the verifier accepts. *)
Definition signed (timestamp body : string) : HTTPRequest.t :=
  post [("x-signature-ed25519", sign (Py.encode timestamp ++ Py.encode body));
        ("x-signature-timestamp", timestamp)] (Some body).

(** The event of a POST to the function URL. *)
Definition event (headers : list (string * string)) (is_base64 : bool) (body : string)
  : LambdaEvent.t :=
  {| LambdaEvent.body := Some body;
     LambdaEvent.isBase64Encoded := Some is_base64;
     LambdaEvent.requestContext :=
       Some {| LambdaEvent.http := Some {| LambdaEvent.method := Some "POST" |} |};
     LambdaEvent.rawPath := Some "/";
     LambdaEvent.queryStringParameters := None;
     LambdaEvent.headers := Some headers |}.

(** A response with a binary body, and its encoding for Lambda. *)
Definition binary_response : HTTPResponse.t :=
  {| HTTPResponse.status_code := 200;
     HTTPResponse.headers := [("Content-Type", "application/octet-stream")];
     HTTPResponse.body := Some [xff; x00; x01; x7f] |}.

Definition binary_result : LambdaResult.t :=
  {| LambdaResult.statusCode := 200;
     LambdaResult.headers := [("Content-Type", "application/octet-stream")];
     LambdaResult.isBase64Encoded := Some true;
     LambdaResult.body := Some "/wABfw==" |}.

(** The three pages of the listing of the account's tags. *)
Definition tag_pages : list (Page Tag) :=
  [ {| items := Some [ tag "i-abc" TAG_KEY "M1"; tag "i-abc" "Name" "web";
                       tag "i-def" TAG_KEY "M1" ];
       NextToken := Some "xxx" |};
    {| items := Some [ tag "i-zzz" TAG_KEY "M2";
                       tag "i-2" TAG_KEY "M3"; tag "i-2" "Name" "db" ];
       NextToken := Some "xxxxxx" |};
    {| items := Some [ tag "i-1" TAG_KEY "M3"; tag "i-1" "Name" "db" ];
       NextToken := None |} ].

(** Payloads whose fields have the wrong type. *)
Definition ill_typed : list (string * json) :=
  [ ("numeric custom id",
     JDict [("type", JInt 3);
            ("message", JDict [("id", JStr "M1")]);
            ("data", JDict [("custom_id", JInt 5)])]);
    ("message as text",
     JDict [("type", JInt 3);
            ("message", JStr "M1");
            ("data", JDict [("custom_id", JStr "refresh")])]) ].

End Toy.

(** * Properties *)

(** ** The built-ins on small inputs *)

Example split_every_colon : Py.split ":" None "stop:i-abc:x" = ["stop"; "i-abc"; "x"].
Proof. reflexivity. Qed.

Example split_first_colon :
  Py.split ":" (Some 1%nat) "stop:i-abc:x" = ["stop"; "i-abc:x"].
Proof. reflexivity. Qed.

Example split_without_colon :
  Py.split ":" (Some 1%nat) "start" = ["start"] /\ Py.split ":" None "" = [""].
Proof. split; reflexivity. Qed.

Example lower_header_name : Py.lower "X-Signature-Ed25519" = "x-signature-ed25519".
Proof. reflexivity. Qed.

Example fromhex_pairs : Py.fromhex "0aFF 10" = Some [x0a; xff; x10].
Proof. reflexivity. Qed.

Example fromhex_refuses :
  Py.fromhex "zz" = None /\ Py.fromhex "abc" = None /\ Py.fromhex "a b" = None.
Proof. repeat split; reflexivity. Qed.

Example b64encode_padding :
  map (fun s => string_of_list_byte (Py.b64encode (Py.encode s))) ["hello"; "hi"; "hey"; ""]
  = ["aGVsbG8="; "aGk="; "aGV5"; ""].
Proof. reflexivity. Qed.

Example decode_strict :
  Py.decode [xe2; x86; xbb] = Some refresh_label
  /\ Py.decode [xff] = None
  /\ Py.decode [xc0; x80] = None
  /\ Py.decode [xed; xa0; x80] = None
  /\ Py.decode [xe2; x86] = None.
Proof. repeat split; reflexivity. Qed.

Example header_lookup_ignores_case :
  HTTPRequest.get_header
    {| HTTPRequest.method := "POST"; HTTPRequest.path := "/";
       HTTPRequest.query_parameters := None;
       HTTPRequest.headers := [("Host", "example"); ("x-signature-TIMESTAMP", "17")];
       HTTPRequest.body := None |} "X-Signature-Timestamp"
  = Some "17".
Proof. reflexivity. Qed.

Example payload_equalities :
  eq_int (JBool true) 1 = true /\ eq_int (JFloat 3%float) 3 = true
  /\ eq_int (JStr "1") 1 = false /\ eq_str "M1" (JInt 1) = false.
Proof. repeat split; reflexivity. Qed.

Example sorted_is_stable :
  sorted fst [("web", "i-2"); ("db", "i-9"); ("web", "i-1")]
  = [("db", "i-9"); ("web", "i-2"); ("web", "i-1")].
Proof. reflexivity. Qed.

(** ** Strings *)

Lemma leb_refl (s : string) : String.leb s s = true.
Proof.
  destruct (String.leb_total s s); assumption.
Qed.

Lemma leb_false_total (a b : string) : String.leb a b = false -> String.leb b a = true.
Proof.
  intros H. destruct (String.leb_total a b) as [Hab | Hba]; congruence.
Qed.

Lemma compare_not_gt_trans (a b c : string) :
  String.compare a b <> Gt -> String.compare b c <> Gt -> String.compare a c <> Gt.
Proof.
  revert b c. induction a as [| x a IH]; intros [| y b] [| z c]; cbn [String.compare];
    try congruence.
  unfold Ascii.compare.
  destruct (N.compare_spec (N_of_ascii x) (N_of_ascii y)) as [Hxy | Hxy | Hxy];
    destruct (N.compare_spec (N_of_ascii y) (N_of_ascii z)) as [Hyz | Hyz | Hyz];
    destruct (N.compare_spec (N_of_ascii x) (N_of_ascii z)) as [Hxz | Hxz | Hxz];
    try congruence; try lia.
  apply IH.
Qed.

Lemma leb_trans (a b c : string) :
  String.leb a b = true -> String.leb b c = true -> String.leb a c = true.
Proof.
  unfold String.leb. intros Hab Hbc.
  assert (H : String.compare a c <> Gt).
  { apply (compare_not_gt_trans a b c).
    - destruct (String.compare a b); congruence.
    - destruct (String.compare b c); congruence. }
  destruct (String.compare a c); congruence.
Qed.

Lemma split_no_limit_left (sep : ascii) (s : string) : Py.split sep (Some 0%nat) s = [s].
Proof.
  induction s as [| c s IH]; simpl.
  - reflexivity.
  - rewrite andb_false_r, IH. reflexivity.
Qed.

Lemma split_nonempty (sep : ascii) (maxsplit : option nat) (s : string) :
  Py.split sep maxsplit s <> [].
Proof.
  revert maxsplit. induction s as [| c s IH]; intros maxsplit; simpl.
  - discriminate.
  - destruct (Ascii.eqb c sep && Py.may_split maxsplit); [discriminate |].
    destruct (Py.split sep maxsplit s) eqn:Hs; discriminate.
Qed.

Lemma split_at_first (sep : ascii) (maxsplit : option nat) (before rest : string) :
  forallb (fun c => negb (Ascii.eqb c sep)) (list_ascii_of_string before) = true ->
  Py.may_split maxsplit = true ->
  Py.split sep maxsplit (before +:+ String sep rest)
  = before :: Py.split sep (Py.after_split maxsplit) rest.
Proof.
  intros Hbefore Hmay. induction before as [| c before IH].
  - change (Py.split sep maxsplit (String sep rest)
            = "" :: Py.split sep (Py.after_split maxsplit) rest).
    cbn [Py.split]. now rewrite Ascii.eqb_refl, Hmay.
  - change (String c before +:+ String sep rest)
      with (String c (before +:+ String sep rest)).
    cbn [Py.split].
    cbn [list_ascii_of_string forallb] in Hbefore.
    apply andb_prop in Hbefore as [Hc Hbefore].
    apply negb_true_iff in Hc. rewrite Hc. cbn [andb].
    now rewrite (IH Hbefore).
Qed.

(** ** Sorting

    [sorted] returns a permutation of its argument, in non-decreasing key
    order, and keeps elements of equal key in the order they came in:
    the three properties that determine the result of Python's [sorted]. *)

Section Sorting.

Context {A : Type} (key : A -> string).



Lemma insert_by_hd (x y : A) (l : list A) :
  key_le key y x -> HdRel (key_le key) y l ->
  HdRel (key_le key) y (insert_by key x l).
Proof.
  intros Hyx Hl. destruct l as [| z l]; simpl.
  - now constructor.
  - destruct (String.leb (key x) (key z)); constructor; trivial.
    now inversion Hl.
Qed.

Lemma insert_by_sorted (x : A) (l : list A) :
  Sorted (key_le key) l -> Sorted (key_le key) (insert_by key x l).
Proof.
  induction 1 as [| y l Hl IH Hhd]; simpl.
  - repeat constructor.
  - destruct (String.leb (key x) (key y)) eqn:Hxy.
    + constructor; [now constructor | now constructor].
    + constructor; [exact IH |].
      apply insert_by_hd; [| exact Hhd].
      now apply leb_false_total.
Qed.

Lemma sorted_Sorted (l : list A) : Sorted (key_le key) (sorted key l).
Proof.
  induction l as [| x l IH]; simpl.
  - constructor.
  - now apply insert_by_sorted.
Qed.

Lemma insert_by_stable (k : string) (x : A) (l : list A) :
  List.filter (has_key key k) (insert_by key x l) = List.filter (has_key key k) (x :: l).
Proof.
  induction l as [| y l IH].
  - reflexivity.
  - cbn [insert_by]. destruct (String.leb (key x) (key y)) eqn:Hxy.
    + reflexivity.
    + cbn [List.filter] in *. rewrite IH.
      unfold has_key.
      destruct (String.eqb_spec (key x) k) as [Hx | Hx];
        destruct (String.eqb_spec (key y) k) as [Hy | Hy]; try reflexivity.
      rewrite Hx, Hy, leb_refl in Hxy. discriminate.
Qed.

Lemma sorted_stable (k : string) (l : list A) :
  List.filter (has_key key k) (sorted key l) = List.filter (has_key key k) l.
Proof.
  induction l as [| x l IH].
  - reflexivity.
  - cbn [sorted fold_right]. rewrite insert_by_stable.
    cbn [List.filter]. fold (sorted key l). now rewrite IH.
Qed.

Lemma key_le_trans : Transitive (key_le key).
Proof. intros a b c. unfold key_le. apply leb_trans. Qed.

Lemma has_key_head (x : A) (l : list A) :
  List.filter (has_key key (key x)) (x :: l)
  = x :: List.filter (has_key key (key x)) l.
Proof. cbn [List.filter]. unfold has_key at 1. now rewrite String.eqb_refl. Qed.

(** The head of a sorted list has the least key of any list with the same
    elements of each key. *)
Lemma sorted_head_least (x y : A) (l1 l2 : list A) :
  Sorted (key_le key) (x :: l1) ->
  (forall k, List.filter (has_key key k) (x :: l1) = List.filter (has_key key k) (y :: l2)) ->
  key_le key x y.
Proof.
  intros Hsorted Hsame.
  assert (Hin : In y (x :: l1)).
  { eapply (proj1 (filter_In (has_key key (key y)) y (x :: l1))).
    rewrite Hsame, has_key_head. now left. }
  apply Sorted_StronglySorted in Hsorted; [| exact key_le_trans].
  inversion Hsorted as [| ? ? _ Hall]; subst.
  destruct Hin as [-> | Hin].
  - apply leb_refl.
  - rewrite List.Forall_forall in Hall. now apply Hall.
Qed.

(** Two sorted lists with the same elements of each key, in the same
    order, are equal. *)
Lemma sorted_determined (l1 : list A) :
  forall l2 : list A,
    Sorted (key_le key) l1 -> Sorted (key_le key) l2 ->
    (forall k, List.filter (has_key key k) l1 = List.filter (has_key key k) l2) ->
    l1 = l2.
Proof.
  induction l1 as [| x l1 IH]; intros l2 Hs1 Hs2 Hsame.
  - destruct l2 as [| y l2]; [reflexivity |].
    specialize (Hsame (key y)). rewrite has_key_head in Hsame. discriminate.
  - destruct l2 as [| y l2].
    + specialize (Hsame (key x)). rewrite has_key_head in Hsame. discriminate.
    + assert (Hkey : key x = key y).
      { apply String.leb_antisym.
        - exact (sorted_head_least x y l1 l2 Hs1 Hsame).
        - apply (sorted_head_least y x l2 l1 Hs2). intros k. now rewrite Hsame. }
      assert (Hxy : x = y).
      { pose proof (Hsame (key x)) as Hk. rewrite has_key_head in Hk.
        rewrite Hkey, has_key_head in Hk. now injection Hk. }
      subst y. f_equal.
      apply IH.
      * now inversion Hs1.
      * now inversion Hs2.
      * intros k. specialize (Hsame k). cbn [List.filter] in Hsame.
        destruct (has_key key k x); [now injection Hsame | exact Hsame].
Qed.

End Sorting.

(** X4. Python's [sorted] is stable and returns its input in
    non-decreasing key order; any such result is the one [sorted] computes
    here. *)
Theorem sorted_unique {A} (key : A -> string) (l out : list A) :
  Sorted (key_le key) out ->
  (forall k, List.filter (has_key key k) out = List.filter (has_key key k) l) ->
  out = sorted key l.
Proof.
  intros Hsorted Hstable. apply (sorted_determined key); trivial.
  - apply sorted_Sorted.
  - intros k. now rewrite sorted_stable.
Qed.

(** The two results of sorting three tagged names by their letter. *)
Lemma sorted_unique_witness :
  sorted fst [("b", 1%nat); ("a", 2%nat); ("b", 3%nat)]
  = [("a", 2%nat); ("b", 1%nat); ("b", 3%nat)].
Proof.
  symmetry.
  apply (sorted_unique fst [("b", 1%nat); ("a", 2%nat); ("b", 3%nat)]
           [("a", 2%nat); ("b", 1%nat); ("b", 3%nat)]).
  - repeat constructor.
  - intros k. unfold has_key. cbn [List.filter fst].
    destruct (String.eqb_spec "b" k) as [<- | Hb]; [reflexivity |].
    destruct (String.eqb "a" k); reflexivity.
Defined.

(** ** Encoding a response for Lambda *)

Lemma b64_char_ascii (n : N) : Py.is_ascii (Py.b64_char n) = true.
Proof.
  unfold Py.b64_char.
  assert (Hall : forallb Py.is_ascii Py.b64_alphabet = true) by reflexivity.
  rewrite forallb_forall in Hall.
  destruct (nth_in_or_default (N.to_nat n) Py.b64_alphabet x00) as [Hin | Hd].
  - now apply Hall.
  - now rewrite Hd.
Qed.

Lemma b64encode_ascii_upto (n : nat) :
  forall l : list byte, (length l <= n)%nat -> forallb Py.is_ascii (Py.b64encode l) = true.
Proof.
  induction n as [| n IH]; intros l Hlen.
  - destruct l; [reflexivity | simpl in Hlen; lia].
  - destruct l as [| a [| b [| c rest]]]; cbn [Py.b64encode forallb].
    + reflexivity.
    + now rewrite !b64_char_ascii.
    + now rewrite !b64_char_ascii.
    + rewrite !b64_char_ascii. cbn [andb].
      apply IH. simpl in Hlen. lia.
Qed.

Lemma b64encode_ascii (l : list byte) : forallb Py.is_ascii (Py.b64encode l) = true.
Proof. now apply (b64encode_ascii_upto (length l)). Qed.

Lemma utf8_valid_ascii (l : list byte) : forallb Py.is_ascii l = true -> Py.utf8_valid l = true.
Proof.
  induction l as [| b l IH]; intros H.
  - reflexivity.
  - cbn [forallb] in H. apply andb_prop in H as [Hb Hl].
    cbn [Py.utf8_valid].
    assert (Hr : Py.in_range 0 127 b = true).
    { unfold Py.in_range, Py.is_ascii in *. apply N.ltb_lt in Hb.
      apply andb_true_intro. split; apply N.leb_le; lia. }
    rewrite Hr. now apply IH.
Qed.

(** Base64 text is ASCII, so decoding it never fails. *)
Lemma decode_b64encode (l : list byte) :
  Py.decode (Py.b64encode l) = Some (string_of_list_byte (Py.b64encode l)).
Proof.
  unfold Py.decode. now rewrite utf8_valid_ascii by apply b64encode_ascii.
Qed.

Lemma body_present (r : HTTPResponse.t) (b : list byte) :
  HTTPResponse.body r = Some b -> b <> [] -> HTTPResponse.body_missing r = false.
Proof.
  intros Hb Hne. unfold HTTPResponse.body_missing. rewrite Hb.
  destruct b; [contradiction | reflexivity].
Qed.

(** The Content-Type of a response is the value of the first header whose
    name is [content-type], whatever the case of its letters. *)
Lemma content_type_header_first (r : HTTPResponse.t)
    (before after : list (string * string)) (name value : string) :
  HTTPResponse.headers r = before ++ (name, value) :: after ->
  Py.lower name = "content-type" ->
  Forall (fun kv => Py.lower (fst kv) <> "content-type") before ->
  HTTPResponse.content_type_header r = value.
Proof.
  intros Hheaders Hname Hbefore. unfold HTTPResponse.content_type_header. rewrite Hheaders.
  clear Hheaders. induction Hbefore as [| kv before Hkv _ IH]; cbn [app List.find fst].
  - rewrite Hname. reflexivity.
  - apply String.eqb_neq in Hkv. rewrite Hkv. exact IH.
Qed.

(** Without such a header it is the empty text. *)
Lemma content_type_header_none (r : HTTPResponse.t) :
  Forall (fun kv => Py.lower (fst kv) <> "content-type") (HTTPResponse.headers r) ->
  HTTPResponse.content_type_header r = "".
Proof.
  intros Hnone. unfold HTTPResponse.content_type_header.
  induction Hnone as [| kv rest Hkv _ IH]; cbn [List.find]; [reflexivity |].
  apply String.eqb_neq in Hkv. now rewrite Hkv.
Qed.

(** C9, as stated, fails: a body that is not binary is embedded as text
    only when its bytes are UTF-8. The response with status 200, the
    header [Content-Type: text/plain] and the one byte 0xFF as its body
    has a Content-Type that starts with [text/], so it is not binary; it
    is not embedded as text either: the encoding raises
    [UnicodeDecodeError] and gives no result. *)
Lemma text_body_must_be_utf8 :
  Py.startswith "text/plain" "text/" = true
  /\ HTTPResponse.to_lambda_result
       {| HTTPResponse.status_code := 200;
          HTTPResponse.headers := [("Content-Type", "text/plain")];
          HTTPResponse.body := Some [xff] |}
     = Raise (UnicodeDecodeError "'utf-8' codec can't decode bytes")
  /\ forall result : LambdaResult.t,
       HTTPResponse.to_lambda_result
         {| HTTPResponse.status_code := 200;
            HTTPResponse.headers := [("Content-Type", "text/plain")];
            HTTPResponse.body := Some [xff] |}
       <> Ok result.
Proof.
  split; [reflexivity |]. split; [reflexivity |].
  intros result H. vm_compute in H. discriminate H.
Qed.

(** C9, amended. Encoding a response: with status 204 the result has no
    body field (and no base64 flag); with another status and no body
    (absent or empty) the encoding raises [RuntimeError]; with a body,
    the Content-Type is the value of the first header of the response
    whose name is [content-type] in any case (the empty text when there
    is none), the result is flagged binary exactly when that value starts
    with neither [text/] nor [application/json], a binary body is embedded
    as its base64 text, and any other body as the text its bytes decode
    to as UTF-8, when they do; when they do not, the encoding raises
    [UnicodeDecodeError]. *)
Theorem to_lambda_result_encoding (r : HTTPResponse.t) :
  (HTTPResponse.status_code r = 204%Z ->
   HTTPResponse.to_lambda_result r =
     Ok {| LambdaResult.statusCode := 204;
           LambdaResult.headers := HTTPResponse.headers r;
           LambdaResult.isBase64Encoded := None;
           LambdaResult.body := None |})
  /\ (HTTPResponse.status_code r <> 204%Z ->
      HTTPResponse.body r = None \/ HTTPResponse.body r = Some [] ->
      exists msg, HTTPResponse.to_lambda_result r = Raise (RuntimeError msg))
  /\ (forall (b : list byte) (content_type : string),
        HTTPResponse.status_code r <> 204%Z ->
        HTTPResponse.body r = Some b -> b <> [] ->
        (exists (before after : list (string * string)) (name : string),
           HTTPResponse.headers r = before ++ (name, content_type) :: after
           /\ Py.lower name = "content-type"
           /\ Forall (fun kv => Py.lower (fst kv) <> "content-type") before)
        \/ (content_type = ""
            /\ Forall (fun kv => Py.lower (fst kv) <> "content-type")
                 (HTTPResponse.headers r)) ->
        let text_like :=
          Py.startswith content_type "text/" || Py.startswith content_type "application/json" in
        (text_like = false ->
         HTTPResponse.to_lambda_result r =
           Ok {| LambdaResult.statusCode := HTTPResponse.status_code r;
                 LambdaResult.headers := HTTPResponse.headers r;
                 LambdaResult.isBase64Encoded := Some true;
                 LambdaResult.body := Some (string_of_list_byte (Py.b64encode b)) |})
        /\ (text_like = true ->
            forall text : string,
              Py.decode b = Some text ->
              HTTPResponse.to_lambda_result r =
                Ok {| LambdaResult.statusCode := HTTPResponse.status_code r;
                      LambdaResult.headers := HTTPResponse.headers r;
                      LambdaResult.isBase64Encoded := Some false;
                      LambdaResult.body := Some text |})
        /\ (text_like = true ->
            Py.decode b = None ->
            HTTPResponse.to_lambda_result r
            = Raise (UnicodeDecodeError "'utf-8' codec can't decode bytes"))).
Proof.
  split; [| split].
  - intros H204. unfold HTTPResponse.to_lambda_result.
    rewrite H204. reflexivity.
  - intros Hne Hbody. unfold HTTPResponse.to_lambda_result.
    apply Z.eqb_neq in Hne. rewrite Hne. cbn [negb].
    assert (Hmiss : HTTPResponse.body_missing r = true).
    { unfold HTTPResponse.body_missing. destruct Hbody as [-> | ->]; reflexivity. }
    rewrite Hmiss. eexists. reflexivity.
  - intros b content_type Hne Hb Hnonempty Hheader text_like.
    assert (Hvalue : HTTPResponse.content_type_header r = content_type).
    { destruct Hheader as [(before & after & name & Hheaders & Hname & Hbefore)
                          | [-> Hnone]].
      - now apply (content_type_header_first r before after name).
      - now apply content_type_header_none. }
    apply Z.eqb_neq in Hne.
    unfold HTTPResponse.to_lambda_result.
    rewrite Hne, (body_present r b Hb Hnonempty). cbn [negb].
    unfold HTTPResponse.body_is_binary.
    rewrite Hvalue. fold text_like.
    rewrite Hb. change (default [] (Some b)) with b.
    split; [| split]; intros Htl; rewrite Htl; cbn [negb].
    + now rewrite decode_b64encode.
    + now intros text ->.
    + now intros ->.
Qed.

(** The encoding at six responses: a 204; a 200 with an empty body; an
    image under a header named [content-TYPE]; a JSON body and a plain
    text, each after another header; and a body without a Content-Type,
    which goes as binary. *)
Lemma to_lambda_result_encoding_witness :
  HTTPResponse.to_lambda_result
    {| HTTPResponse.status_code := 204; HTTPResponse.headers := [];
       HTTPResponse.body := Some [x41] |}
  = Ok {| LambdaResult.statusCode := 204; LambdaResult.headers := [];
          LambdaResult.isBase64Encoded := None; LambdaResult.body := None |}
  /\ (exists msg,
        HTTPResponse.to_lambda_result
          {| HTTPResponse.status_code := 200; HTTPResponse.headers := [];
             HTTPResponse.body := Some [] |}
        = Raise (RuntimeError msg))
  /\ HTTPResponse.to_lambda_result
       {| HTTPResponse.status_code := 200;
          HTTPResponse.headers := [("content-TYPE", "image/png")];
          HTTPResponse.body := Some [x00; xff] |}
     = Ok {| LambdaResult.statusCode := 200;
             LambdaResult.headers := [("content-TYPE", "image/png")];
             LambdaResult.isBase64Encoded := Some true;
             LambdaResult.body := Some "AP8=" |}
  /\ HTTPResponse.to_lambda_result
       {| HTTPResponse.status_code := 200;
          HTTPResponse.headers :=
            [("X-Request-Id", "7"); ("Content-Type", "application/json; charset=utf-8")];
          HTTPResponse.body := Some [x7b; x7d] |}
     = Ok {| LambdaResult.statusCode := 200;
             LambdaResult.headers :=
               [("X-Request-Id", "7"); ("Content-Type", "application/json; charset=utf-8")];
             LambdaResult.isBase64Encoded := Some false;
             LambdaResult.body := Some "{}" |}
  /\ HTTPResponse.to_lambda_result
       {| HTTPResponse.status_code := 403;
          HTTPResponse.headers :=
            [("X-Request-Id", "7"); ("Content-Type", "text/plain; charset=utf-8")];
          HTTPResponse.body := Some [x6e; x6f] |}
     = Ok {| LambdaResult.statusCode := 403;
             LambdaResult.headers :=
               [("X-Request-Id", "7"); ("Content-Type", "text/plain; charset=utf-8")];
             LambdaResult.isBase64Encoded := Some false;
             LambdaResult.body := Some "no" |}
  /\ HTTPResponse.to_lambda_result
       {| HTTPResponse.status_code := 200;
          HTTPResponse.headers := [("X-Request-Id", "7")];
          HTTPResponse.body := Some [x68; x69] |}
     = Ok {| LambdaResult.statusCode := 200;
             LambdaResult.headers := [("X-Request-Id", "7")];
             LambdaResult.isBase64Encoded := Some true;
             LambdaResult.body := Some "aGk=" |}.
Proof.
  assert (Hother : Forall (fun kv : string * string => Py.lower (fst kv) <> "content-type")
                     [("X-Request-Id", "7")])
    by (repeat constructor; discriminate).
  split; [| split; [| split; [| split; [| split]]]].
  - apply (to_lambda_result_encoding
             {| HTTPResponse.status_code := 204; HTTPResponse.headers := [];
                HTTPResponse.body := Some [x41] |}).
    reflexivity.
  - apply (to_lambda_result_encoding
             {| HTTPResponse.status_code := 200; HTTPResponse.headers := [];
                HTTPResponse.body := Some [] |}).
    + discriminate.
    + now right.
  - destruct (to_lambda_result_encoding
                {| HTTPResponse.status_code := 200;
                   HTTPResponse.headers := [("content-TYPE", "image/png")];
                   HTTPResponse.body := Some [x00; xff] |}) as (_ & _ & H).
    destruct (H [x00; xff] "image/png") as [Hbinary _];
      [discriminate | reflexivity | discriminate | |].
    + left. exists [], [], "content-TYPE". repeat split. constructor.
    + apply Hbinary. reflexivity.
  - destruct (to_lambda_result_encoding
                {| HTTPResponse.status_code := 200;
                   HTTPResponse.headers :=
                     [("X-Request-Id", "7");
                      ("Content-Type", "application/json; charset=utf-8")];
                   HTTPResponse.body := Some [x7b; x7d] |}) as (_ & _ & H).
    destruct (H [x7b; x7d] "application/json; charset=utf-8") as (_ & Htext & _);
      [discriminate | reflexivity | discriminate | |].
    + left. exists [("X-Request-Id", "7")], [], "Content-Type". repeat split. exact Hother.
    + apply Htext; reflexivity.
  - destruct (to_lambda_result_encoding
                {| HTTPResponse.status_code := 403;
                   HTTPResponse.headers :=
                     [("X-Request-Id", "7"); ("Content-Type", "text/plain; charset=utf-8")];
                   HTTPResponse.body := Some [x6e; x6f] |}) as (_ & _ & H).
    destruct (H [x6e; x6f] "text/plain; charset=utf-8") as (_ & Htext & _);
      [discriminate | reflexivity | discriminate | |].
    + left. exists [("X-Request-Id", "7")], [], "Content-Type". repeat split. exact Hother.
    + apply Htext; reflexivity.
  - destruct (to_lambda_result_encoding
                {| HTTPResponse.status_code := 200;
                   HTTPResponse.headers := [("X-Request-Id", "7")];
                   HTTPResponse.body := Some [x68; x69] |}) as (_ & _ & H).
    destruct (H [x68; x69] "") as [Hbinary _];
      [discriminate | reflexivity | discriminate | |].
    + right. split; [reflexivity | exact Hother].
    + apply Hbinary. reflexivity.
Defined.

(** ** Rendering *)

Lemma fold_left_snoc {A B} (f : A -> B) (l : list A) (init : list B) :
  fold_left (fun acc a => acc ++ [f a]) l init = init ++ map f l.
Proof.
  revert init. induction l as [| a l IH]; intros init; simpl.
  - now rewrite app_nil_r.
  - rewrite IH, <- app_assoc. reflexivity.
Qed.

Lemma server_components_rows (instances : list Instance) :
  server_components instances
  = button_row refresh_label 2 "refresh" :: map instance_row instances.
Proof. unfold server_components. now rewrite fold_left_snoc. Qed.

(** C8. The control grid is the refresh row followed by one row per
    instance, in the order of the list. A row holds one button: for a
    stopped instance style 3, label [Start <name>], custom id [start:<id>];
    for a running one style 4, [Stop <name>], [stop:<id>]; for any other
    state style 2 and [refresh:<id>], with the label [<name> (pending)],
    [<name> (shutting-down)], [<name> (terminated)] or [<name> (stopping)]
    by the state, and [<name> (unknown)] for an absent state. The name is
    the instance identifier when the [Name] tag is absent or empty, and
    the tag otherwise. *)
Theorem rendered_buttons (instances : list Instance) :
  server_components instances
  = JDict [("type", JInt 1);
           ("components",
            JList [JDict [("type", JInt 2); ("label", JStr "↻");
                          ("style", JInt 2); ("custom_id", JStr "refresh")]])]
    :: map instance_row instances
  /\ forall instance : Instance,
       let name := display_name instance in
       let button := fun (label : string) (style : Z) (custom_id : string) =>
         JDict [("type", JInt 1);
                ("components",
                 JList [JDict [("type", JInt 2); ("label", JStr label);
                               ("style", JInt style); ("custom_id", JStr custom_id)]])] in
       (state instance = Some stopped ->
        instance_row instance = button ("Start " +:+ name) 3%Z ("start:" +:+ id instance))
       /\ (state instance = Some running ->
           instance_row instance = button ("Stop " +:+ name) 4%Z ("stop:" +:+ id instance))
       /\ (state instance = Some pending ->
           instance_row instance
           = button (name +:+ " (pending)") 2%Z ("refresh:" +:+ id instance))
       /\ (state instance = Some shutting_down ->
           instance_row instance
           = button (name +:+ " (shutting-down)") 2%Z ("refresh:" +:+ id instance))
       /\ (state instance = Some terminated ->
           instance_row instance
           = button (name +:+ " (terminated)") 2%Z ("refresh:" +:+ id instance))
       /\ (state instance = Some stopping ->
           instance_row instance
           = button (name +:+ " (stopping)") 2%Z ("refresh:" +:+ id instance))
       /\ (state instance = None ->
           instance_row instance
           = button (name +:+ " (unknown)") 2%Z ("refresh:" +:+ id instance))
       /\ (tags instance !! "Name" = None -> name = id instance)
       /\ (tags instance !! "Name" = Some "" -> name = id instance)
       /\ (forall tag : string,
             tags instance !! "Name" = Some tag -> tag <> "" -> name = tag).
Proof.
  split.
  - apply server_components_rows.
  - intros instance name button. unfold instance_row, display_name in *.
    repeat split.
    + intros ->. reflexivity.
    + intros ->. reflexivity.
    + intros ->. reflexivity.
    + intros ->. reflexivity.
    + intros ->. reflexivity.
    + intros ->. reflexivity.
    + intros ->. reflexivity.
    + subst name. intros ->. reflexivity.
    + subst name. intros ->. reflexivity.
    + subst name. intros tag -> Hne.
      apply String.eqb_neq in Hne. now rewrite Hne.
Qed.

(** A grid with an instance in each state: named web and stopped, named db
    and running, then five without a [Name] tag that are pending,
    shutting down, terminated, stopping and of unknown state. *)
Lemma rendered_buttons_witness :
  server_components
    [ {| id := "i-1"; tags := <["Name" := "web"]> ∅; state := Some stopped |};
      {| id := "i-2"; tags := <["Name" := "db"]> ∅; state := Some running |};
      {| id := "i-3"; tags := ∅; state := Some pending |};
      {| id := "i-4"; tags := ∅; state := Some shutting_down |};
      {| id := "i-5"; tags := ∅; state := Some terminated |};
      {| id := "i-6"; tags := <["Name" := ""]> ∅; state := Some stopping |};
      {| id := "i-7"; tags := ∅; state := None |} ]
  = [ button_row "↻" 2 "refresh";
      button_row "Start web" 3 "start:i-1";
      button_row "Stop db" 4 "stop:i-2";
      button_row "i-3 (pending)" 2 "refresh:i-3";
      button_row "i-4 (shutting-down)" 2 "refresh:i-4";
      button_row "i-5 (terminated)" 2 "refresh:i-5";
      button_row "i-6 (stopping)" 2 "refresh:i-6";
      button_row "i-7 (unknown)" 2 "refresh:i-7" ].
Proof.
  destruct (rendered_buttons
              [ {| id := "i-1"; tags := <["Name" := "web"]> ∅; state := Some stopped |};
                {| id := "i-2"; tags := <["Name" := "db"]> ∅; state := Some running |};
                {| id := "i-3"; tags := ∅; state := Some pending |};
                {| id := "i-4"; tags := ∅; state := Some shutting_down |};
                {| id := "i-5"; tags := ∅; state := Some terminated |};
                {| id := "i-6"; tags := <["Name" := ""]> ∅; state := Some stopping |};
                {| id := "i-7"; tags := ∅; state := None |} ]) as [Hgrid Hrow].
  rewrite Hgrid. cbn [map].
  destruct (Hrow {| id := "i-1"; tags := <["Name" := "web"]> ∅; state := Some stopped |})
    as (Hstopped & _ & _ & _ & _ & _ & _ & _ & _ & Hweb).
  destruct (Hrow {| id := "i-2"; tags := <["Name" := "db"]> ∅; state := Some running |})
    as (_ & Hrunning & _ & _ & _ & _ & _ & _ & _ & Hdb).
  destruct (Hrow {| id := "i-3"; tags := ∅; state := Some pending |})
    as (_ & _ & Hpending & _ & _ & _ & _ & Hname3 & _).
  destruct (Hrow {| id := "i-4"; tags := ∅; state := Some shutting_down |})
    as (_ & _ & _ & Hshutting & _ & _ & _ & Hname4 & _).
  destruct (Hrow {| id := "i-5"; tags := ∅; state := Some terminated |})
    as (_ & _ & _ & _ & Hterminated & _ & _ & Hname5 & _).
  destruct (Hrow {| id := "i-6"; tags := <["Name" := ""]> ∅; state := Some stopping |})
    as (_ & _ & _ & _ & _ & Hstopping & _ & _ & Hname6 & _).
  destruct (Hrow {| id := "i-7"; tags := ∅; state := None |})
    as (_ & _ & _ & _ & _ & _ & Hnone & Hname7 & _).
  rewrite Hstopped, Hrunning, Hpending, Hshutting, Hterminated, Hstopping, Hnone
    by reflexivity.
  rewrite (Hweb "web"), (Hdb "db") by (reflexivity || discriminate).
  rewrite Hname3, Hname4, Hname5, Hname6, Hname7 by reflexivity.
  reflexivity.
Defined.

(** ** The ownership query *)

Section Ownership.

Context (E : Externals).

(** [get_message_id_for_instance] makes one client call, the ownership
    query, and decides on the tags it reports. *)
Lemma get_message_id_for_instance_runs (instance_id : string) (s : system (World E)) :
  get_message_id_for_instance E instance_id s
  = Some (match owner_tags E instance_id s with
          | Raise e => Raise e
          | Ok [] =>
              Raise (NotManaged ("EC2 instance " +:+ repr E instance_id
                                 +:+ " is not managed by any Discord message"))
          | Ok (tag0 :: rest) =>
              if (2 <? length (tag0 :: rest))%nat
              then Raise (RuntimeError
                            ("Found multiple tags on EC2 instance " +:+ repr E instance_id
                             +:+ " with key " +:+ repr E TAG_KEY))
              else Ok (Value tag0)
          end,
          after_owner_query E instance_id s).
Proof.
  unfold get_message_id_for_instance, owner_tags, after_owner_query, bind,
    ec2_client_describe_tags, logged.
  destruct (describe_tags E (owner_filters instance_id) None (world s)) as [r w].
  cbn [fst snd]. destruct r as [response | e]; [| reflexivity].
  destruct (page_items response) as [| tag0 rest]; [reflexivity |].
  destruct (2 <? length (tag0 :: rest))%nat; reflexivity.
Qed.

Lemma issued_after_owner_query (instance_id : string) (s : system (World E)) :
  issued E s (after_owner_query E instance_id s)
  = [DescribeTags (owner_filters instance_id) None].
Proof.
  unfold issued, after_owner_query. cbn [calls].
  rewrite skipn_app, skipn_all, Nat.sub_diag. reflexivity.
Qed.

End Ownership.

(** C3 (the code departs from the claim at two tags). What the ownership
    resolution does by number of tags reported: none raises [NotManaged];
    one returns its value; three or more raise [RuntimeError]; exactly two
    return the value of the first, because the guard reads
    [len(tags) > 2]. *)
Theorem owner_resolution_by_count (E : Externals) (instance_id : string)
    (s : system (World E)) :
  let resolves := fun r : result string =>
    get_message_id_for_instance E instance_id s
    = Some (r, after_owner_query E instance_id s) in
  (owner_tags E instance_id s = Ok [] -> exists msg, resolves (Raise (NotManaged msg)))
  /\ (forall tag, owner_tags E instance_id s = Ok [tag] -> resolves (Ok (Value tag)))
  /\ (forall tag1 tag2,
        owner_tags E instance_id s = Ok [tag1; tag2] -> resolves (Ok (Value tag1)))
  /\ (forall tag1 tag2 tag3 rest,
        owner_tags E instance_id s = Ok (tag1 :: tag2 :: tag3 :: rest) ->
        exists msg, resolves (Raise (RuntimeError msg))).
Proof.
  intros resolves. unfold resolves.
  rewrite get_message_id_for_instance_runs.
  repeat split.
  - intros ->. eexists. reflexivity.
  - intros tag ->. reflexivity.
  - intros tag1 tag2 ->. reflexivity.
  - intros tag1 tag2 tag3 rest ->. eexists. reflexivity.
Qed.

(** On an account whose instance [i-dup] carries two ownership tags, for
    M1 and for M2: the resolution returns M1, and a press of [stop:i-dup]
    on message M1 stops the instance. *)
Lemma owner_resolution_by_count_witness :
  get_message_id_for_instance Toy.unkeyed "i-dup" (Toy.fresh Toy.tampered)
  = Some (Ok "M1",
          {| world := Toy.tampered; calls := [DescribeTags (owner_filters "i-dup") None] |})
  /\ exists response s',
       handle_request Toy.unkeyed 5 (Toy.post [] (Some "M1 stop:i-dup"))
         (Toy.fresh Toy.tampered) = Some (Ok response, s')
       /\ In (StopInstances ["i-dup"]) (calls s').
Proof.
  split.
  - destruct (owner_resolution_by_count Toy.unkeyed "i-dup" (Toy.fresh Toy.tampered))
      as (_ & _ & Htwo & _).
    apply (Htwo (Toy.tag "i-dup" TAG_KEY "M1") (Toy.tag "i-dup" TAG_KEY "M2")).
    reflexivity.
  - eexists. eexists. split.
    + vm_compute. reflexivity.
    + cbn. auto.
Defined.

(** ** The handler on a button press *)

Section Press.

Context (E : Externals).

Lemma handle_request_component (fuel : nat) (request : HTTPRequest.t)
    (message_id custom_id : json) (s : system (World E)) :
  message_component E request message_id custom_id ->
  handle_request E fuel request s
  = (_ <- act_on_button E message_id custom_id ;; render_message E fuel message_id) s.
Proof.
  intros (Hauth & d & Hbody & Hping & Hcomponent & Hmid & Hnull & Hcid & Htruthy).
  unfold handle_request.
  unfold bind at 1. unfold lift at 1. rewrite Hauth.
  unfold bind at 1. unfold lift at 1. rewrite Hbody.
  destruct (dict_get "type" d) eqn:Htype; try discriminate Hcomponent;
    rewrite Hping, Hcomponent; cbn [negb];
    (unfold bind at 1; unfold lift at 1; rewrite Hmid;
     destruct message_id; try contradiction;
     unfold bind at 1; unfold lift at 1; rewrite Hcid, Htruthy; reflexivity).
Qed.

Lemma first_split_action (action target : string) :
  action = "start" \/ action = "stop" ->
  first (Py.split ":" None (action +:+ ":" +:+ target)) = action
  /\ Py.split ":" (Some 1%nat) (action +:+ ":" +:+ target) = [action; target].
Proof.
  intros Haction.
  assert (Hclean : forallb (fun c => negb (Ascii.eqb c ":")) (list_ascii_of_string action)
                   = true) by (destruct Haction as [-> | ->]; reflexivity).
  change (action +:+ ":" +:+ target) with (action +:+ String ":" target).
  rewrite !split_at_first by (trivial; reflexivity).
  cbn [first Py.after_split Nat.pred]. now rewrite split_no_limit_left.
Qed.

(** The start/stop branch: the ownership query decides. *)
Lemma act_on_button_press (message_id : json) (action target : string)
    (s : system (World E)) :
  action = "start" \/ action = "stop" ->
  act_on_button E message_id (JStr (action +:+ ":" +:+ target)) s
  = match get_message_id_for_instance E target s with
    | Some (Ok owner, s1) =>
        if eq_str owner message_id then
          (if String.eqb action "start" then start_instance E target
           else stop_instance E target) s1
        else Some (Raise (HTTPError "Not allowed: instance isn't managed by this message" 403),
                   s1)
    | Some (Raise (NotManaged _), s1) =>
        Some (Raise (HTTPError
                       "Not allowed: instance doesn't exist or isn't managed by svrmgr" 403),
              s1)
    | Some (Raise e, s1) => Some (Raise e, s1)
    | None => None
    end.
Proof.
  intros Haction.
  destruct (first_split_action action target Haction) as [Hfirst Hsplit].
  unfold act_on_button.
  unfold bind at 1. unfold lift at 1. cbn [py_split]. rewrite Hfirst.
  assert (Hin : String.eqb action "start" || String.eqb action "stop" = true)
    by (destruct Haction as [-> | ->]; reflexivity).
  rewrite Hin.
  unfold bind at 1. unfold lift at 1. cbn [py_split]. rewrite Hsplit.
  unfold bind at 1. unfold lift at 1. cbn [unpack2 fst snd].
  unfold bind at 1. unfold try_except.
  destruct (get_message_id_for_instance E target s) as [[[owner | e] s1] |].
  - destruct (eq_str owner message_id); cbn [negb]; [| reflexivity].
    destruct Haction as [-> | ->]; reflexivity.
  - destruct e; reflexivity.
  - reflexivity.
Qed.

End Press.

(** ** From the handler to the Lambda result *)

Lemma main_of_raise (E : Externals) (fuel : nat) (request : HTTPRequest.t) (e : exn)
    (s s1 : system (World E)) :
  handle_request E fuel request s = Some (Raise e, s1) ->
  main E fuel request s
  = Some (HTTPResponse.to_lambda_result (HTTPResponse.from_exception e), s1).
Proof. intros H. unfold main. now rewrite H. Qed.

Lemma main_of_ok (E : Externals) (fuel : nat) (request : HTTPRequest.t)
    (response : HTTPResponse.t) (s s1 : system (World E)) :
  handle_request E fuel request s = Some (Ok response, s1) ->
  main E fuel request s = Some (HTTPResponse.to_lambda_result response, s1).
Proof. intros H. unfold main. now rewrite H. Qed.

(** ** Authorization of start and stop *)

(** A press whose ownership check fails stops there: the handler raises,
    in the system left by the ownership query. *)
Lemma press_stops_after_query (E : Externals) (fuel : nat) (request : HTTPRequest.t)
    (message_id : json) (action target : string) (e : exn) (s s1 : system (World E)) :
  message_component E request message_id (JStr (action +:+ ":" +:+ target)) ->
  action = "start" \/ action = "stop" ->
  act_on_button E message_id (JStr (action +:+ ":" +:+ target)) s = Some (Raise e, s1) ->
  handle_request E fuel request s = Some (Raise e, s1).
Proof.
  intros Hpress Haction Hact.
  rewrite (handle_request_component E fuel request _ _ s Hpress).
  unfold bind. now rewrite Hact.
Qed.

(** C1. On a [message_component] press of [start:<target>] or
    [stop:<target>]: when the ownership resolution raises [NotManaged], or
    returns a message identifier other than the interaction's, the handler
    raises a 403 [HTTPError], [main] answers 403, and the only client call
    made is the ownership query (so a provider whose tag queries are
    read-only is left as it was); and a start or stop call is among the
    calls of a run only if the resolution returned the interaction's own
    message identifier. *)
Theorem start_stop_requires_ownership (E : Externals) (fuel : nat)
    (request : HTTPRequest.t) (message_id : json) (action target : string)
    (s : system (World E)) :
  message_component E request message_id (JStr (action +:+ ":" +:+ target)) ->
  action = "start" \/ action = "stop" ->
  let s1 := after_owner_query E target s in
  let forbidden := fun message : string =>
    handle_request E fuel request s = Some (Raise (HTTPError message 403), s1)
    /\ main E fuel request s = Some (Ok (error_result 403 message), s1)
    /\ issued E s s1 = [DescribeTags (owner_filters target) None]
    /\ ((forall f t w, snd (describe_tags E f t w) = w) -> world s1 = world s) in
  (forall msg,
     get_message_id_for_instance E target s = Some (Raise (NotManaged msg), s1) ->
     forbidden "Not allowed: instance doesn't exist or isn't managed by svrmgr")
  /\ (forall owner,
        get_message_id_for_instance E target s = Some (Ok owner, s1) ->
        eq_str owner message_id = false ->
        forbidden "Not allowed: instance isn't managed by this message")
  /\ (forall r s',
        handle_request E fuel request s = Some (r, s') ->
        Exists (fun c => is_lifecycle_call c = true) (issued E s s') ->
        exists owner,
          get_message_id_for_instance E target s = Some (Ok owner, s1)
          /\ eq_str owner message_id = true).
Proof.
  intros Hpress Haction s1 forbidden.
  assert (Hforbidden : forall message,
             HTTPResponse.to_lambda_result (HTTPResponse.to_response message 403)
             = Ok (error_result 403 message) ->
             act_on_button E message_id (JStr (action +:+ ":" +:+ target)) s
             = Some (Raise (HTTPError message 403), s1) -> forbidden message).
  { intros message Hencoded Hact. unfold forbidden.
    pose proof (press_stops_after_query E fuel request _ _ _ _ s s1 Hpress Haction Hact)
      as Hraise.
    split; [exact Hraise |].
    split; [now rewrite (main_of_raise E fuel request _ s s1 Hraise), <- Hencoded |].
    split; [apply issued_after_owner_query |].
    intros Hreadonly. unfold s1, after_owner_query. cbn [world]. apply Hreadonly. }
  pose proof (act_on_button_press E message_id action target s Haction) as Hact.
  split; [| split].
  - intros msg Hget. apply Hforbidden; [reflexivity |]. now rewrite Hact, Hget.
  - intros owner Hget Hneq. apply Hforbidden; [reflexivity |].
    now rewrite Hact, Hget, Hneq.
  - intros r s' Hrun Hcall.
    pose proof (get_message_id_for_instance_runs E target s) as Hget.
    fold s1 in Hget.
    destruct (match owner_tags E target s with
              | Ok [] => _ | Ok (tag0 :: rest) => _ | Raise e => Raise e end)
      as [owner | e] eqn:Hresolved.
    + destruct (eq_str owner message_id) eqn:Heq.
      * exists owner. now split.
      * exfalso.
        assert (Hstop : act_on_button E message_id (JStr (action +:+ ":" +:+ target)) s
                        = Some (Raise (HTTPError
                                         "Not allowed: instance isn't managed by this message"
                                         403), s1))
          by now rewrite Hact, Hget, Heq.
        rewrite (press_stops_after_query E fuel request _ _ _ _ s s1 Hpress Haction Hstop)
          in Hrun.
        injection Hrun as <- <-.
        unfold s1 in Hcall. rewrite issued_after_owner_query in Hcall.
        inversion Hcall as [? ? Hc | ? ? Hc]; [discriminate Hc | inversion Hc].
    + exfalso.
      assert (Hstop : exists e', act_on_button E message_id
                                   (JStr (action +:+ ":" +:+ target)) s
                                 = Some (Raise e', s1)).
      { rewrite Hact, Hget. destruct e; eexists; reflexivity. }
      destruct Hstop as [e' Hstop].
      rewrite (press_stops_after_query E fuel request _ _ _ _ s s1 Hpress Haction Hstop)
        in Hrun.
      injection Hrun as <- <-.
      unfold s1 in Hcall. rewrite issued_after_owner_query in Hcall.
      inversion Hcall as [? ? Hc | ? ? Hc]; [discriminate Hc | inversion Hc].
Qed.

(** On the account of the examples, a press of [stop:i-zzz] on message M1
    (the instance belongs to M2) and a press of [start:i-none] (no such
    instance) are both answered 403 after the ownership query alone. *)
Lemma start_stop_requires_ownership_witness :
  main Toy.unkeyed 5 (Toy.post [] (Some "M1 stop:i-zzz")) (Toy.fresh Toy.account)
  = Some (Ok (error_result 403 "Not allowed: instance isn't managed by this message"),
          {| world := Toy.account;
             calls := [DescribeTags (owner_filters "i-zzz") None] |})
  /\ main Toy.unkeyed 5 (Toy.post [] (Some "M1 start:i-none")) (Toy.fresh Toy.account)
     = Some (Ok (error_result 403
                   "Not allowed: instance doesn't exist or isn't managed by svrmgr"),
             {| world := Toy.account;
                calls := [DescribeTags (owner_filters "i-none") None] |}).
Proof.
  split.
  - destruct (start_stop_requires_ownership Toy.unkeyed 5
                (Toy.post [] (Some "M1 stop:i-zzz")) (JStr "M1") "stop" "i-zzz"
                (Toy.fresh Toy.account)) as (_ & Hother & _).
    + split; [reflexivity |].
      eexists. repeat split; try reflexivity. discriminate.
    + now right.
    + destruct (Hother "M2") as (_ & Hmain & _); [reflexivity | reflexivity |].
      exact Hmain.
  - destruct (start_stop_requires_ownership Toy.unkeyed 5
                (Toy.post [] (Some "M1 start:i-none")) (JStr "M1") "start" "i-none"
                (Toy.fresh Toy.account)) as (Hunmanaged & _).
    + split; [reflexivity |].
      eexists. repeat split; try reflexivity. discriminate.
    + now left.
    + destruct (Hunmanaged "EC2 instance 'i-none' is not managed by any Discord message")
        as (_ & Hmain & _); [reflexivity |].
      exact Hmain.
Defined.

(** C10. A press of exactly [start:] or [stop:] is not a grammar error:
    the ownership query is made for the empty instance identifier, and
    when the provider reports no ownership tag for it the handler raises
    the 403 of an unmanaged instance, [main] answers 403, and no other
    client call is made. *)
Theorem empty_target_is_looked_up (E : Externals) (fuel : nat) (request : HTTPRequest.t)
    (message_id : json) (action : string) (s : system (World E)) :
  message_component E request message_id (JStr (action +:+ ":")) ->
  action = "start" \/ action = "stop" ->
  owner_tags E "" s = Ok [] ->
  let s1 := after_owner_query E "" s in
  let message := "Not allowed: instance doesn't exist or isn't managed by svrmgr" in
  handle_request E fuel request s = Some (Raise (HTTPError message 403), s1)
  /\ main E fuel request s = Some (Ok (error_result 403 message), s1)
  /\ issued E s s1
     = [DescribeTags [ {| Name := "resource-id"; Values := [""] |};
                       {| Name := "resource-type"; Values := ["instance"] |};
                       {| Name := "key"; Values := [TAG_KEY] |} ] None].
Proof.
  intros Hpress Haction Hnone s1 message.
  change (action +:+ ":") with (action +:+ ":" +:+ "") in Hpress.
  assert (Hact : act_on_button E message_id (JStr (action +:+ ":" +:+ "")) s
                 = Some (Raise (HTTPError message 403), s1)).
  { rewrite (act_on_button_press E message_id action "" s Haction).
    rewrite get_message_id_for_instance_runs, Hnone. reflexivity. }
  pose proof (press_stops_after_query E fuel request _ _ _ _ s s1 Hpress Haction Hact)
    as Hraise.
  split; [exact Hraise |].
  split; [now rewrite (main_of_raise E fuel request _ s s1 Hraise) |].
  apply issued_after_owner_query.
Qed.

(** A press of [start:] on the account of the examples. *)
Lemma empty_target_is_looked_up_witness :
  main Toy.unkeyed 5 (Toy.post [] (Some "M1 start:")) (Toy.fresh Toy.account)
  = Some (Ok (error_result 403
                "Not allowed: instance doesn't exist or isn't managed by svrmgr"),
          {| world := Toy.account; calls := [DescribeTags (owner_filters "") None] |}).
Proof.
  destruct (empty_target_is_looked_up Toy.unkeyed 5 (Toy.post [] (Some "M1 start:"))
              (JStr "M1") "start" (Toy.fresh Toy.account)) as (_ & Hmain & _).
  - split; [reflexivity |].
    eexists. repeat split; try reflexivity. discriminate.
  - now left.
  - reflexivity.
  - exact Hmain.
Defined.

(** ** Ping *)

(** C7. An authenticated payload whose type equals 1 is answered with
    status 200 and the JSON encoding of [{"type": 1}], whatever else the
    payload holds; the system is left as it was: no client call is made. *)
Theorem ping_is_acknowledged (E : Externals) (fuel : nat) (request : HTTPRequest.t)
    (d : list (string * json)) (s : system (World E)) :
  verify_discord_request_auth E request = Ok tt ->
  HTTPRequest.get_json_body_data E request = Ok (JDict d) ->
  eq_int (dict_get "type" d) 1 = true ->
  handle_request E fuel request s
  = Some (Ok {| HTTPResponse.status_code := 200;
                HTTPResponse.headers := [("Content-Type", "application/json; charset=utf-8")];
                HTTPResponse.body :=
                  Some (Py.encode (json_dumps E (JDict [("type", JInt 1)]))) |},
          s)
  /\ issued E s s = [].
Proof.
  intros Hauth Hbody Hping. split.
  - unfold handle_request.
    unfold bind at 1. unfold lift at 1. rewrite Hauth.
    unfold bind at 1. unfold lift at 1. rewrite Hbody.
    destruct (dict_get "type" d); try discriminate Hping; now rewrite Hping.
  - unfold issued. apply skipn_all.
Qed.

(** A signed ping whose payload also names message M1 and the button
    [stop:i-zzz] of an instance M1 does not own: acknowledged, nothing
    else happens. *)
Lemma ping_is_acknowledged_witness :
  main Toy.keyed 0 (Toy.signed "1700000000" "ping") (Toy.fresh Toy.account)
  = Some (Ok {| LambdaResult.statusCode := 200;
                LambdaResult.headers := [("Content-Type", "application/json; charset=utf-8")];
                LambdaResult.isBase64Encoded := Some false;
                LambdaResult.body := Some (Toy.dumps (JDict [("type", JInt 1)])) |},
          Toy.fresh Toy.account).
Proof.
  destruct (ping_is_acknowledged Toy.keyed 0 (Toy.signed "1700000000" "ping")
              [("type", JInt 1);
               ("message", JDict [("id", JStr "M1")]);
               ("data", JDict [("custom_id", JStr "stop:i-zzz")])]
              (Toy.fresh Toy.account)) as [Hrun _];
    [reflexivity | reflexivity | reflexivity |].
  rewrite (main_of_ok _ _ _ _ _ _ Hrun). reflexivity.
Defined.

(** ** The grammar of custom identifiers *)

Lemma append_cons (c : ascii) (a b : string) : String c a +:+ b = String c (a +:+ b).
Proof. reflexivity. Qed.

(** A string is its first segment, or its first segment, a colon and a rest. *)
Lemma first_split_cases (custom_id : string) :
  custom_id = first (Py.split ":" None custom_id)
  \/ exists rest, custom_id = first (Py.split ":" None custom_id) +:+ ":" +:+ rest.
Proof.
  induction custom_id as [| c custom_id IH].
  - now left.
  - cbn [Py.split Py.may_split]. rewrite andb_true_r.
    destruct (Ascii.eqb_spec c ":") as [-> | Hc].
    + right. exists custom_id. reflexivity.
    + destruct (Py.split ":" None custom_id) as [| w ws] eqn:Hsplit.
      * now apply split_nonempty in Hsplit.
      * cbn [first] in *. destruct IH as [IH | [rest IH]].
        -- left. now rewrite <- IH.
        -- right. exists rest. now rewrite append_cons, <- IH.
Qed.

Lemma outside_grammar (custom_id : string) :
  ~ custom_id_grammar custom_id -> custom_id <> "start" -> custom_id <> "stop" ->
  let action := first (Py.split ":" None custom_id) in
  action <> "start" /\ action <> "stop" /\ action <> "refresh".
Proof.
  intros Hgrammar Hstart Hstop action.
  assert (Hno : forall a, a = "start" \/ a = "stop" \/ a = "refresh" ->
                          action = a -> custom_id = a).
  { intros a Ha Haction.
    destruct (first_split_cases custom_id) as [Hbare | [rest Hrest]];
      fold action in Hbare || fold action in Hrest.
    - congruence.
    - exfalso. apply Hgrammar. right. exists a, rest. split; [congruence | exact Ha]. }
  repeat split; intros Ha.
  - apply Hstart, Hno; auto.
  - apply Hstop, Hno; auto.
  - apply Hgrammar. left. apply Hno; auto.
Qed.

(** X1. What the grammar check does get right: an identifier outside the
    grammar, other than a bare [start] or [stop], is refused with 400
    before any client call. *)
Theorem unknown_custom_id_is_400 (E : Externals) (fuel : nat) (request : HTTPRequest.t)
    (message_id : json) (custom_id : string) (s : system (World E)) :
  message_component E request message_id (JStr custom_id) ->
  ~ custom_id_grammar custom_id -> custom_id <> "start" -> custom_id <> "stop" ->
  handle_request E fuel request s
  = Some (Raise (HTTPError "Unknown component custom ID" 400), s)
  /\ main E fuel request s
     = Some (Ok (error_result 400 "Unknown component custom ID"), s).
Proof.
  intros Hpress Hgrammar Hstart Hstop.
  destruct (outside_grammar custom_id Hgrammar Hstart Hstop) as (H1 & H2 & H3).
  assert (Hrefresh : custom_id <> "refresh") by (intros ->; now apply H3).
  assert (Hrun : handle_request E fuel request s
                 = Some (Raise (HTTPError "Unknown component custom ID" 400), s)).
  { rewrite (handle_request_component E fuel request _ _ s Hpress).
    unfold bind at 1. unfold act_on_button.
    unfold bind at 1. unfold lift at 1. cbn [py_split eq_str].
    apply String.eqb_neq in H1, H2, H3. rewrite H1, H2, H3.
    assert (Hr : String.eqb "refresh" custom_id = false)
      by (apply String.eqb_neq; congruence).
    rewrite Hr. reflexivity. }
  split; [exact Hrun |].
  now rewrite (main_of_raise E fuel request _ s s Hrun).
Qed.

(** A press of [reboot:i-abc] on the account of the examples. *)
Lemma unknown_custom_id_is_400_witness :
  main Toy.unkeyed 5 (Toy.post [] (Some "M1 reboot:i-abc")) (Toy.fresh Toy.account)
  = Some (Ok (error_result 400 "Unknown component custom ID"), Toy.fresh Toy.account).
Proof.
  destruct (unknown_custom_id_is_400 Toy.unkeyed 5 (Toy.post [] (Some "M1 reboot:i-abc"))
              (JStr "M1") "reboot:i-abc" (Toy.fresh Toy.account)) as [_ Hmain].
  - split; [reflexivity |].
    eexists. repeat split; try reflexivity. discriminate.
  - intros [Hrefresh | (action & target & Hshape & Haction)]; [discriminate |].
    destruct Haction as [-> | [-> | ->]]; discriminate Hshape.
  - discriminate.
  - discriminate.
  - exact Hmain.
Defined.

(** C4 (the code departs from the claim at a bare action). A press whose
    custom identifier is exactly [start] or [stop] passes the membership
    test of the start/stop branch; the unpacking of
    [custom_id.split(":", maxsplit=1)] into two names then raises
    [ValueError], which nothing turns into a 400: [main] answers 500. *)
Theorem bare_action_is_not_rejected (E : Externals) (fuel : nat) (request : HTTPRequest.t)
    (message_id : json) (action : string) (s : system (World E)) :
  message_component E request message_id (JStr action) ->
  action = "start" \/ action = "stop" ->
  ~ custom_id_grammar action
  /\ handle_request E fuel request s
     = Some (Raise (ValueError "not enough values to unpack (expected 2, got 1)"), s)
  /\ main E fuel request s
     = Some (Ok (error_result 500
                   "ValueError: not enough values to unpack (expected 2, got 1)"), s).
Proof.
  intros Hpress Haction.
  assert (Hrun : handle_request E fuel request s
                 = Some (Raise (ValueError
                                  "not enough values to unpack (expected 2, got 1)"), s)).
  { rewrite (handle_request_component E fuel request _ _ s Hpress).
    destruct Haction as [-> | ->]; reflexivity. }
  split; [| split].
  - intros [Hrefresh | (a & target & Hshape & Ha)].
    + destruct Haction as [-> | ->]; discriminate.
    + assert (Hcolon : forall a,
                 existsb (Ascii.eqb ":") (list_ascii_of_string (a +:+ ":" +:+ target))
                 = true).
      { clear. intros a. induction a as [| c a IH].
        - reflexivity.
        - rewrite append_cons. cbn [list_ascii_of_string existsb].
          rewrite IH. apply orb_true_r. }
      specialize (Hcolon a). rewrite <- Hshape in Hcolon.
      destruct Haction as [-> | ->]; discriminate Hcolon.
  - exact Hrun.
  - now rewrite (main_of_raise E fuel request _ s s Hrun).
Qed.

(** A press of [start] on the account of the examples. *)
Lemma bare_action_is_not_rejected_witness :
  main Toy.unkeyed 5 (Toy.post [] (Some "M1 start")) (Toy.fresh Toy.account)
  = Some (Ok (error_result 500
                "ValueError: not enough values to unpack (expected 2, got 1)"),
          Toy.fresh Toy.account).
Proof.
  destruct (bare_action_is_not_rejected Toy.unkeyed 5 (Toy.post [] (Some "M1 start"))
              (JStr "M1") "start" (Toy.fresh Toy.account)) as (_ & _ & Hmain).
  - split; [reflexivity |].
    eexists. repeat split; try reflexivity. discriminate.
  - now left.
  - exact Hmain.
Defined.

(** ** Authentication *)

Lemma handle_request_unauthenticated (E : Externals) (fuel : nat) (request : HTTPRequest.t)
    (e : exn) (s : system (World E)) :
  verify_discord_request_auth E request = Raise e ->
  handle_request E fuel request s = Some (Raise e, s).
Proof.
  intros Hauth. unfold handle_request, bind, lift. now rewrite Hauth.
Qed.

(** C2 (the code departs from the claim). With a verification key
    configured: a request with no signature header and an empty signed
    message is refused with 401, and so is one the verifier rejects with
    [BadSignatureError]. But the 401 for a missing signature is tied to the
    message being empty, not to the header: with the header absent and a
    body present, the empty signature goes to the verifier, and any
    exception of the verifier other than [BadSignatureError] passes
    through; and a header that is not hexadecimal raises [ValueError]
    before the message is looked at, even when it is empty. *)
Theorem signature_header_failures (E : Externals) (fuel : nat) (request : HTTPRequest.t)
    (verify : list byte -> list byte -> option exn) (s : system (World E)) :
  verify_key E = Some verify ->
  let header := HTTPRequest.get_header request "X-Signature-Ed25519" in
  let message := signed_message request in
  let raises := fun e : exn =>
    handle_request E fuel request s = Some (Raise e, s)
    /\ main E fuel request s
       = Some (HTTPResponse.to_lambda_result (HTTPResponse.from_exception e), s) in
  (header = None -> message = [] -> raises (HTTPError "missing request signature" 401))
  /\ (header = None -> message <> [] -> forall msg,
        verify message [] = Some (BadSignatureError msg) ->
        raises (HTTPError "invalid request signature" 401))
  /\ (header = None -> message <> [] -> forall e,
        verify message [] = Some e -> (forall msg, e <> BadSignatureError msg) ->
        raises e)
  /\ (forall h, header = Some h -> Py.fromhex h = None ->
        raises (ValueError "non-hexadecimal number found in fromhex() arg")
        /\ main E fuel request s
           = Some (Ok (error_result 500
                         "ValueError: non-hexadecimal number found in fromhex() arg"), s)).
Proof.
  intros Hkey header message raises.
  assert (Hraises : forall e, verify_discord_request_auth E request = Raise e -> raises e).
  { intros e Hauth. unfold raises.
    pose proof (handle_request_unauthenticated E fuel request e s Hauth) as Hrun.
    split; [exact Hrun | now apply main_of_raise]. }
  assert (Habsent : header = None -> message <> [] -> forall e e',
             verify message [] = Some e ->
             match e with BadSignatureError _ =>
               HTTPError "invalid request signature" 401 | _ => e end = e' ->
             verify_discord_request_auth E request = Raise e').
  { intros Hheader Hmessage e e' Hverify He.
    unfold verify_discord_request_auth. rewrite Hkey. fold header. rewrite Hheader.
    cbn [or_empty Py.fromhex]. fold message.
    destruct message; [contradiction |]. rewrite Hverify, <- He.
    destruct e; reflexivity. }
  split; [| split; [| split]].
  - intros Hheader Hempty. apply Hraises.
    unfold verify_discord_request_auth. rewrite Hkey. fold header. rewrite Hheader.
    cbn [or_empty Py.fromhex]. fold message. now rewrite Hempty.
  - intros Hheader Hmessage msg Hverify. apply Hraises.
    now apply (Habsent Hheader Hmessage (BadSignatureError msg)).
  - intros Hheader Hmessage e Hverify Hother. apply Hraises.
    apply (Habsent Hheader Hmessage e); [exact Hverify |].
    destruct e; try reflexivity. now destruct (Hother message0).
  - intros h Hheader Hhex.
    assert (Hauth : verify_discord_request_auth E request
                    = Raise (ValueError "non-hexadecimal number found in fromhex() arg")).
    { unfold verify_discord_request_auth. rewrite Hkey. fold header. rewrite Hheader.
      cbn [or_empty]. now rewrite Hhex. }
    split; [now apply Hraises |].
    now rewrite (main_of_raise E fuel request _ s s
                   (handle_request_unauthenticated E fuel request _ s Hauth)).
Qed.

(** With a key configured: a request with a timestamp and a body but no
    signature header, and a request whose signature header is [zz] and
    whose signed message is empty, are both answered 500. *)
Lemma signature_header_failures_witness :
  main Toy.keyed 5 (Toy.post [("X-Signature-Timestamp", "1700000000")] (Some "M1 refresh"))
    (Toy.fresh Toy.account)
  = Some (Ok (error_result 500 "ValueError: The signature must be exactly 64 bytes long"),
          Toy.fresh Toy.account)
  /\ main Toy.keyed 5 (Toy.post [("X-Signature-Ed25519", "zz")] None) (Toy.fresh Toy.account)
     = Some (Ok (error_result 500
                   "ValueError: non-hexadecimal number found in fromhex() arg"),
             Toy.fresh Toy.account).
Proof.
  split.
  - destruct (signature_header_failures Toy.keyed 5
                (Toy.post [("X-Signature-Timestamp", "1700000000")] (Some "M1 refresh"))
                Toy.verify (Toy.fresh Toy.account) eq_refl) as (_ & _ & Hother & _).
    destruct (Hother eq_refl) with
      (e := ValueError "The signature must be exactly 64 bytes long") as [_ Hmain];
      [discriminate | reflexivity | discriminate |].
    rewrite Hmain. reflexivity.
  - destruct (signature_header_failures Toy.keyed 5
                (Toy.post [("X-Signature-Ed25519", "zz")] None)
                Toy.verify (Toy.fresh Toy.account) eq_refl) as (_ & _ & _ & Hhex).
    destruct (Hhex "zz") as [_ Hmain]; [reflexivity | reflexivity |].
    exact Hmain.
Defined.

(** ** The request body *)

(** C6 (the code departs from the claim at a body that does not decode).
    After authentication: an absent body, a body that decodes to anything
    but an object, and an object without a type are refused with 400. A
    body that is not UTF-8, or that [json.loads] refuses, is not: the
    exception of the decoder passes through [handle_request], and [main]
    answers 500. *)
Theorem undecodable_body_is_not_400 (E : Externals) (fuel : nat) (request : HTTPRequest.t)
    (s : system (World E)) :
  verify_discord_request_auth E request = Ok tt ->
  let raises := fun e : exn =>
    handle_request E fuel request s = Some (Raise e, s)
    /\ main E fuel request s
       = Some (HTTPResponse.to_lambda_result (HTTPResponse.from_exception e), s) in
  (HTTPRequest.body request = None ->
   raises (HTTPError "Bad request body: not an object" 400))
  /\ (forall v, HTTPRequest.get_json_body_data E request = Ok v ->
        (forall d, v <> JDict d) ->
        raises (HTTPError "Bad request body: not an object" 400))
  /\ (forall d, HTTPRequest.get_json_body_data E request = Ok (JDict d) ->
        dict_get "type" d = JNull ->
        raises (HTTPError "Bad request body: missing type" 400))
  /\ (forall b, HTTPRequest.body request = Some b -> Py.decode b = None ->
        raises (UnicodeDecodeError "'utf-8' codec can't decode bytes")
        /\ main E fuel request s
           = Some (Ok (error_result 500
                         "UnicodeDecodeError: 'utf-8' codec can't decode bytes"), s))
  /\ (forall b text e,
        HTTPRequest.body request = Some b -> Py.decode b = Some text ->
        json_loads E text = Raise e ->
        raises e).
Proof.
  intros Hauth raises.
  assert (Hdata : forall v, HTTPRequest.get_json_body_data E request = Ok v ->
                            (forall d, v <> JDict d) ->
                            handle_request E fuel request s
                            = Some (Raise (HTTPError "Bad request body: not an object" 400),
                                    s)).
  { intros v Hv Hnot. unfold handle_request, bind, lift. rewrite Hauth, Hv.
    destruct v; try reflexivity. now destruct (Hnot d). }
  assert (Hfail : forall e, HTTPRequest.get_json_body_data E request = Raise e ->
                            handle_request E fuel request s = Some (Raise e, s)).
  { intros e He. unfold handle_request, bind, lift. now rewrite Hauth, He. }
  assert (Hmain : forall e, handle_request E fuel request s = Some (Raise e, s) -> raises e).
  { intros e Hrun. split; [exact Hrun | now apply main_of_raise]. }
  split; [| split; [| split; [| split]]].
  - intros Hbody. apply Hmain, (Hdata JNull); [| discriminate].
    unfold HTTPRequest.get_json_body_data. now rewrite Hbody.
  - intros v Hv Hnot. now apply Hmain, (Hdata v).
  - intros d Hd Htype. apply Hmain.
    unfold handle_request, bind, lift. now rewrite Hauth, Hd, Htype.
  - intros b Hbody Hdecode.
    assert (Hrun : handle_request E fuel request s
                   = Some (Raise (UnicodeDecodeError "'utf-8' codec can't decode bytes"), s)).
    { apply Hfail. unfold HTTPRequest.get_json_body_data. now rewrite Hbody, Hdecode. }
    split; [now apply Hmain |].
    now rewrite (main_of_raise E fuel request _ s s Hrun).
  - intros b text e Hbody Hdecode Hloads. apply Hmain, Hfail.
    unfold HTTPRequest.get_json_body_data. now rewrite Hbody, Hdecode.
Qed.

(** A body that is the single byte 255, and a body that is not a JSON
    text, are both answered 500. *)
Lemma undecodable_body_is_not_400_witness :
  main Toy.unkeyed 5
    {| HTTPRequest.method := "POST"; HTTPRequest.path := "/";
       HTTPRequest.query_parameters := None; HTTPRequest.headers := [];
       HTTPRequest.body := Some [xff] |} (Toy.fresh Toy.account)
  = Some (Ok (error_result 500 "UnicodeDecodeError: 'utf-8' codec can't decode bytes"),
          Toy.fresh Toy.account)
  /\ main Toy.unkeyed 5 (Toy.post [] (Some "{")) (Toy.fresh Toy.account)
     = Some (Ok (error_result 500 "JSONDecodeError: Expecting value"),
             Toy.fresh Toy.account).
Proof.
  split.
  - destruct (undecodable_body_is_not_400 Toy.unkeyed 5
                {| HTTPRequest.method := "POST"; HTTPRequest.path := "/";
                   HTTPRequest.query_parameters := None; HTTPRequest.headers := [];
                   HTTPRequest.body := Some [xff] |} (Toy.fresh Toy.account) eq_refl)
      as (_ & _ & _ & Hutf8 & _).
    destruct (Hutf8 [xff]) as [_ Hmain]; [reflexivity | reflexivity |].
    exact Hmain.
  - destruct (undecodable_body_is_not_400 Toy.unkeyed 5 (Toy.post [] (Some "{"))
                (Toy.fresh Toy.account) eq_refl) as (_ & _ & _ & _ & Hjson).
    destruct (Hjson (Py.encode "{") "{" (OtherError "JSONDecodeError" "Expecting value"))
      as [_ Hmain]; [reflexivity | reflexivity | reflexivity |].
    rewrite Hmain. reflexivity.
Defined.


(** ** Pagination and fuel

    A run that finishes with some fuel finishes the same way with more:
    the result of a run does not depend on the bound given to the
    pagination loops. *)

Section Fuel.

Context (E : Externals).

Lemma bind_finishes {A B} (m m' : M (World E) A) (k k' : A -> M (World E) B)
    (s : system (World E)) (out : result B * system (World E)) :
  (forall o, m s = Some o -> m' s = Some o) ->
  (forall a s1 o, k a s1 = Some o -> k' a s1 = Some o) ->
  bind m k s = Some out -> bind m' k' s = Some out.
Proof.
  intros Hm Hk. unfold bind.
  destruct (m s) as [[[a | e] s1] |] eqn:Hms; [| | discriminate].
  - rewrite (Hm _ eq_refl). apply Hk.
  - now rewrite (Hm _ eq_refl).
Qed.

Lemma next_pages_more_fuel {A} (client_fn : option string -> M (World E) (Page A))
    (n m : nat) :
  (n <= m)%nat ->
  forall (response : Page A) (s : system (World E)) out,
    next_pages E n client_fn response s = Some out ->
    next_pages E m client_fn response s = Some out.
Proof.
  revert m. induction n as [| n IH]; intros m Hle response s out Hrun.
  - destruct m; [exact Hrun |].
    cbn [next_pages] in *. destruct (next_token response); [discriminate | exact Hrun].
  - destruct m as [| m]; [lia |].
    cbn [next_pages] in *. destruct (next_token response) as [tok |]; [| exact Hrun].
    revert Hrun. apply bind_finishes; [trivial |].
    intros response' s1 o. apply bind_finishes; [| trivial].
    intros o'. apply IH. lia.
Qed.

Lemma iter_pages_more_fuel {A} (client_fn : option string -> M (World E) (Page A))
    (n m : nat) (s : system (World E)) out :
  (n <= m)%nat ->
  _iter_ec2_response_pages E n client_fn s = Some out ->
  _iter_ec2_response_pages E m client_fn s = Some out.
Proof.
  intros Hle. unfold _iter_ec2_response_pages.
  apply bind_finishes; [trivial |].
  intros response s1 o. apply bind_finishes; [| trivial].
  intros o'. now apply next_pages_more_fuel.
Qed.

Lemma list_instances_more_fuel (n m : nat) (s : system (World E)) out :
  (n <= m)%nat ->
  list_instances E n s = Some out -> list_instances E m s = Some out.
Proof.
  intros Hle. unfold list_instances.
  apply bind_finishes; [| trivial].
  intros o. now apply iter_pages_more_fuel.
Qed.

Lemma get_instances_state_more_fuel (n m : nat) (instances : list Instance)
    (s : system (World E)) out :
  (n <= m)%nat ->
  get_instances_state E n instances s = Some out ->
  get_instances_state E m instances s = Some out.
Proof.
  intros Hle. unfold get_instances_state.
  apply bind_finishes; [| trivial].
  intros o. now apply iter_pages_more_fuel.
Qed.

Lemma render_message_more_fuel (n m : nat) (message_id : json)
    (s : system (World E)) out :
  (n <= m)%nat ->
  render_message E n message_id s = Some out ->
  render_message E m message_id s = Some out.
Proof.
  intros Hle. unfold render_message.
  apply bind_finishes.
  - intros o. now apply list_instances_more_fuel.
  - intros listed s1 o. apply bind_finishes; [| trivial].
    intros o'. now apply get_instances_state_more_fuel.
Qed.

(** X5. A run of the handler that finishes with some bound on the
    pagination loops finishes the same way with any larger bound. *)
Theorem handle_request_more_fuel (n m : nat) (request : HTTPRequest.t)
    (s : system (World E)) out :
  (n <= m)%nat ->
  handle_request E n request s = Some out ->
  handle_request E m request s = Some out.
Proof.
  intros Hle. unfold handle_request.
  apply bind_finishes; [trivial |]. intros _ s1 o.
  apply bind_finishes; [trivial |]. intros request_data s2 o2.
  destruct request_data; trivial.
  destruct (dict_get "type" d); trivial;
    (destruct (eq_int _ 1); [trivial |];
     destruct (negb (eq_int _ 3)); [trivial |];
     apply bind_finishes; [trivial |]; intros message_id s3 o3;
     destruct message_id; trivial;
     (apply bind_finishes; [trivial |]; intros custom_id s4 o4;
      destruct (negb (truthy custom_id)); [trivial |];
      apply bind_finishes; [trivial |]; intros _ s5 o5;
      now apply render_message_more_fuel)).
Qed.


End Fuel.

(** The press of [stop:i-abc] of the examples needs two further pages of
    the tag listing; with that bound or a larger one the run is the same. *)
Lemma handle_request_more_fuel_witness :
  handle_request Toy.unkeyed 9 (Toy.post [] (Some "M1 stop:i-abc")) (Toy.fresh Toy.account)
  = handle_request Toy.unkeyed 2 (Toy.post [] (Some "M1 stop:i-abc")) (Toy.fresh Toy.account)
  /\ handle_request Toy.unkeyed 1 (Toy.post [] (Some "M1 stop:i-abc"))
       (Toy.fresh Toy.account) = None.
Proof.
  split; [| reflexivity].
  destruct (handle_request Toy.unkeyed 2 (Toy.post [] (Some "M1 stop:i-abc"))
              (Toy.fresh Toy.account)) as [out |] eqn:Hrun.
  - apply (handle_request_more_fuel Toy.unkeyed 2 9); [lia | exact Hrun].
  - vm_compute in Hrun. discriminate Hrun.
Defined.

(** ** The order of the rendered instances *)





Lemma render_message_runs (E : Externals) (fuel : nat) (message_id : json)
    (s s' : system (World E)) (response : HTTPResponse.t) :
  render_message E fuel message_id s = Some (Ok response, s') ->
  exists listed statuses shown s1,
    list_instances E fuel s = Some (Ok listed, s1)
    /\ _iter_ec2_response_pages E fuel
         (ec2_client_describe_instance_status E
            (map id (sorted display_name (owned_by message_id listed))) true) s1
       = Some (Ok statuses, s')
    /\ set_states E statuses (sorted display_name (owned_by message_id listed)) = Ok shown
    /\ response = HTTPResponse.from_json_body_data E 200 (response_data shown).
Proof.
  unfold render_message, bind. intros Hrun.
  destruct (list_instances E fuel s) as [[[listed | e] s1] |]; try discriminate.
  destruct (get_instances_state E fuel _ s1) as [[[shown | e] s2] |] eqn:Hstates;
    try discriminate.
  injection Hrun as <- <-.
  unfold get_instances_state, bind, lift in Hstates.
  destruct (_iter_ec2_response_pages E fuel _ s1) as [[[statuses | e] s3] |] eqn:Hpages;
    try discriminate.
  injection Hstates as Hset <-.
  exists listed, statuses, shown, s1. repeat split; trivial.
Qed.





(** ** Which calls a run makes *)

Section Calls.

Context (E : Externals).

Lemma queries_only_lift {A} (r : result A) : queries_only (lift (W := World E) r).
Proof.
  intros s r' s' H. injection H as <- <-. exists []. now rewrite app_nil_r.
Qed.

Lemma queries_only_ret {A} (a : A) : queries_only (ret (W := World E) a).
Proof. apply (queries_only_lift (Ok a)). Qed.

Lemma queries_only_raise {A} (e : exn) : queries_only (raise (W := World E) (A := A) e).
Proof. apply (queries_only_lift (Raise e)). Qed.

Lemma queries_only_bind {A B} (m : M (World E) A) (k : A -> M (World E) B) :
  queries_only m -> (forall a, queries_only (k a)) -> queries_only (bind m k).
Proof.
  intros Hm Hk s r s' Hrun. unfold bind in Hrun.
  destruct (m s) as [[[a | e] s1] |] eqn:Hms; [| | discriminate].
  - destruct (Hm _ _ _ Hms) as (added1 & Hcalls1 & Hq1).
    destruct (Hk a _ _ _ Hrun) as (added2 & Hcalls2 & Hq2).
    exists (added1 ++ added2). split.
    + now rewrite Hcalls2, Hcalls1, app_assoc.
    + now rewrite forallb_app, Hq1, Hq2.
  - injection Hrun as <- <-. now apply (Hm _ _ _ Hms).
Qed.

Lemma queries_only_logged {A} (c : ec2_call) (f : World E -> result A * World E) :
  is_lifecycle_call c = false -> queries_only (logged E c f).
Proof.
  intros Hc s r s' Hrun. unfold logged in Hrun.
  destruct (f (world s)) as [r0 w]. injection Hrun as <- <-.
  exists [c]. cbn. now rewrite Hc.
Qed.

Lemma queries_only_next_pages {A} (client_fn : option string -> M (World E) (Page A))
    (fuel : nat) :
  (forall token, queries_only (client_fn token)) ->
  forall response, queries_only (next_pages E fuel client_fn response).
Proof.
  intros Hclient. induction fuel as [| fuel IH]; intros response; cbn [next_pages].
  - destruct (next_token response) as [tok |]; [| apply queries_only_ret].
    intros s r s' Hrun. discriminate Hrun.
  - destruct (next_token response) as [tok |]; [| apply queries_only_ret].
    apply queries_only_bind; [apply Hclient |]. intros response'.
    apply queries_only_bind; [apply IH |]. intros rest. apply queries_only_ret.
Qed.

Lemma queries_only_iter_pages {A} (client_fn : option string -> M (World E) (Page A))
    (fuel : nat) :
  (forall token, queries_only (client_fn token)) ->
  queries_only (_iter_ec2_response_pages E fuel client_fn).
Proof.
  intros Hclient. unfold _iter_ec2_response_pages.
  apply queries_only_bind; [apply Hclient |]. intros response.
  apply queries_only_bind; [now apply queries_only_next_pages |].
  intros rest. apply queries_only_ret.
Qed.

Lemma queries_only_render_message (fuel : nat) (message_id : json) :
  queries_only (render_message E fuel message_id).
Proof.
  unfold render_message.
  apply queries_only_bind.
  - unfold list_instances. apply queries_only_bind; [| intros; apply queries_only_ret].
    apply queries_only_iter_pages. intros token. now apply queries_only_logged.
  - intros listed. apply queries_only_bind; [| intros; apply queries_only_ret].
    unfold get_instances_state.
    apply queries_only_bind; [| intros; apply queries_only_lift].
    apply queries_only_iter_pages. intros token. now apply queries_only_logged.
Qed.

Lemma queries_only_get_message_id (instance_id : string) :
  queries_only (get_message_id_for_instance E instance_id).
Proof.
  unfold get_message_id_for_instance.
  apply queries_only_bind; [now apply queries_only_logged |].
  intros response. destruct (page_items response); [apply queries_only_raise |].
  destruct (2 <? _)%nat; [apply queries_only_raise | apply queries_only_ret].
Qed.

End Calls.

(** X2. A press of [refresh], or of [refresh:<target>], goes straight to
    the rendering: a run makes no start and no stop call. *)
Theorem refresh_never_mutates (E : Externals) (fuel : nat) (request : HTTPRequest.t)
    (message_id : json) (custom_id : string) (s : system (World E)) :
  message_component E request message_id (JStr custom_id) ->
  first (Py.split ":" None custom_id) = "refresh" ->
  handle_request E fuel request s = render_message E fuel message_id s
  /\ forall r s', handle_request E fuel request s = Some (r, s') ->
       exists added,
         calls s' = calls s ++ added
         /\ forallb (fun c => negb (is_lifecycle_call c)) added = true.
Proof.
  intros Hpress Hfirst.
  assert (Hrun : handle_request E fuel request s = render_message E fuel message_id s).
  { rewrite (handle_request_component E fuel request _ _ s Hpress).
    unfold bind at 1. unfold act_on_button.
    unfold bind at 1. unfold lift at 1. cbn [py_split]. rewrite Hfirst.
    cbn [String.eqb Ascii.eqb Bool.eqb orb andb negb]. rewrite andb_false_r.
    reflexivity. }
  split; [exact Hrun |].
  intros r s'. rewrite Hrun. apply queries_only_render_message.
Qed.

(** A press of [refresh:i-abc] on message M1, on the account of the
    examples: three queries, and the account is as it was. *)
Lemma refresh_never_mutates_witness :
  exists response s',
    handle_request Toy.unkeyed 5 (Toy.post [] (Some "M1 refresh")) (Toy.fresh Toy.account)
    = Some (Ok response, s')
    /\ world s' = Toy.account
    /\ existsb is_lifecycle_call (calls s') = false.
Proof.
  destruct (refresh_never_mutates Toy.unkeyed 5 (Toy.post [] (Some "M1 refresh"))
              (JStr "M1") "refresh" (Toy.fresh Toy.account)) as [Hrun _].
  - split; [reflexivity |].
    eexists. repeat split; try reflexivity. discriminate.
  - reflexivity.
  - rewrite Hrun. eexists. eexists. split; [vm_compute; reflexivity |].
    split; reflexivity.
Defined.

(** X3. A press of [start:<target>] or [stop:<target>] whose ownership
    check passes makes the ownership query, then the one start or stop call
    for the target, then only queries. *)
Theorem owned_press_calls_once (E : Externals) (fuel : nat) (request : HTTPRequest.t)
    (message_id : json) (action target owner : string) (s : system (World E)) :
  message_component E request message_id (JStr (action +:+ ":" +:+ target)) ->
  action = "start" \/ action = "stop" ->
  get_message_id_for_instance E target s
  = Some (Ok owner, after_owner_query E target s) ->
  eq_str owner message_id = true ->
  forall r s', handle_request E fuel request s = Some (r, s') ->
    exists added,
      calls s'
      = calls s
        ++ [DescribeTags (owner_filters target) None;
            if String.eqb action "start" then StartInstances [target]
            else StopInstances [target]]
        ++ added
      /\ forallb (fun c => negb (is_lifecycle_call c)) added = true.
Proof.
  intros Hpress Haction Hget Hsame r s' Hrun.
  rewrite (handle_request_component E fuel request _ _ s Hpress) in Hrun.
  unfold bind at 1 in Hrun.
  rewrite (act_on_button_press E message_id action target s Haction), Hget, Hsame in Hrun.
  assert (Hcall : forall c (f : World E -> result unit * World E),
             match logged E c f (after_owner_query E target s) with
             | Some (Ok _, s2) => render_message E fuel message_id s2
             | Some (Raise e, s2) => Some (Raise e, s2)
             | None => None
             end = Some (r, s') ->
             exists added,
               calls s' = calls s ++ [DescribeTags (owner_filters target) None; c] ++ added
               /\ forallb (fun c => negb (is_lifecycle_call c)) added = true).
  { intros c f Hc. unfold logged in Hc.
    destruct (f (world (after_owner_query E target s))) as [[[] | e] w].
    - destruct (queries_only_render_message E fuel message_id _ _ _ Hc)
        as (added & Hcalls & Hq).
      exists added. split; [| exact Hq].
      rewrite Hcalls. cbn [calls after_owner_query]. now rewrite <- !app_assoc.
    - injection Hc as <- <-. exists []. split; [| reflexivity].
      cbn [calls after_owner_query]. now rewrite <- !app_assoc. }
  destruct Haction as [-> | ->]; cbn [String.eqb Ascii.eqb Bool.eqb] in *;
    now apply Hcall in Hrun.
Qed.

(** The scenario of the specification: [i-abc] runs and belongs to M1; a
    press of [stop:i-abc] on M1 stops it, and the grid that comes back
    shows it as stopping, on a neutral button. *)
Lemma owned_press_calls_once_witness :
  match handle_request Toy.unkeyed 5 (Toy.post [] (Some "M1 stop:i-abc"))
          (Toy.fresh Toy.account) with
  | Some (Ok response, s') =>
      response
      = HTTPResponse.from_json_body_data Toy.unkeyed 200
          (JDict [("type", JInt 7);
                  ("data",
                   JDict [("content", JStr "Servers");
                          ("components",
                           JList [button_row refresh_label 2 "refresh";
                                  button_row "Start i-def" 3 "start:i-def";
                                  button_row "web (stopping)" 2 "refresh:i-abc"])])])
      /\ List.filter is_lifecycle_call (calls s') = [StopInstances ["i-abc"]]
  | _ => False
  end.
Proof.
  destruct (handle_request Toy.unkeyed 5 (Toy.post [] (Some "M1 stop:i-abc"))
              (Toy.fresh Toy.account)) as [[r s'] |] eqn:Hrun.
  - destruct (owned_press_calls_once Toy.unkeyed 5 (Toy.post [] (Some "M1 stop:i-abc"))
                (JStr "M1") "stop" "i-abc" "M1" (Toy.fresh Toy.account)) with r s'
      as (added & Hcalls & Hq).
    + split; [reflexivity |].
      eexists. repeat split; try reflexivity. discriminate.
    + now right.
    + reflexivity.
    + reflexivity.
    + exact Hrun.
    + vm_compute in Hrun. injection Hrun as <- <-. split; reflexivity.
  - vm_compute in Hrun. discriminate Hrun.
Defined.

(** ** Termination

    The pagination loops are the only loops of the handler. When every
    listing of the provider is finite, every request gets an outcome. *)

Section Termination.

Context (E : Externals).

Lemma returns_lift {A} (r : result A) : returns (lift (W := World E) r).
Proof. intros s. now eexists. Qed.

Lemma returns_logged {A} (c : ec2_call) (f : World E -> result A * World E) :
  returns (logged E c f).
Proof. intros s. unfold logged. destruct (f (world s)). now eexists. Qed.

Lemma returns_bind {A B} (m : M (World E) A) (k : A -> M (World E) B) :
  returns m -> (forall a, returns (k a)) -> returns (bind m k).
Proof.
  intros Hm Hk s. unfold bind.
  destruct (Hm s) as [[[a | e] s1] ->]; [apply Hk | now eexists].
Qed.

Lemma returns_get_message_id (instance_id : string) :
  returns (get_message_id_for_instance E instance_id).
Proof. intros s. rewrite get_message_id_for_instance_runs. now eexists. Qed.

Lemma returns_act_on_button (message_id custom_id : json) :
  returns (act_on_button E message_id custom_id).
Proof.
  unfold act_on_button.
  apply returns_bind; [apply returns_lift |]. intros parts.
  destruct (_ || _).
  - apply returns_bind; [apply returns_lift |]. intros parts1.
    apply returns_bind; [apply returns_lift |]. intros ai.
    apply returns_bind.
    + intros s. unfold try_except.
      destruct (returns_get_message_id (snd ai) s) as [[[owner | e] s1] ->].
      * now eexists.
      * destruct e; now eexists.
    + intros owner. destruct (negb _); [intros s; now eexists |].
      destruct (String.eqb (fst ai) "start"); [apply returns_logged |].
      destruct (String.eqb (fst ai) "stop"); [apply returns_logged |].
      intros s; now eexists.
  - destruct (_ && _); intros s; now eexists.
Qed.

Lemma next_pages_returns {A} (c : option string -> ec2_call)
    (f : option string -> World E -> result (Page A) * World E) (response : Page A)
    (w : World E) :
  listing_ends f response w ->
  forall s, world s = w ->
    exists fuel out,
      next_pages E fuel (fun token => logged E (c token) (f token)) response s = Some out.
Proof.
  induction 1 as [response w Hlast | response w tok Htok _ IH]; intros s Hw.
  - exists 0%nat. eexists. cbn [next_pages]. unfold next_token.
    destruct Hlast as [-> | ->]; reflexivity.
  - destruct (String.eqb_spec tok "") as [-> | Hne].
    + exists 0%nat. eexists. cbn [next_pages]. unfold next_token. now rewrite Htok.
    + assert (Hnext : next_token response = Some tok).
      { unfold next_token. rewrite Htok.
        apply String.eqb_neq in Hne. now rewrite Hne. }
      destruct (f (Some tok) w) as [[response' | e] w'] eqn:Hf.
      * destruct (IH response' eq_refl
                    {| world := w'; calls := calls s ++ [c (Some tok)] |} eq_refl)
          as (fuel & out & Hrest).
        exists (S fuel). cbn [next_pages]. rewrite Hnext.
        unfold bind at 1. unfold logged at 1. rewrite Hw, Hf.
        unfold bind at 1. cbn [snd] in Hrest. rewrite Hrest.
        destruct out as [[rest | e] s2]; now eexists.
      * exists 1%nat. cbn [next_pages]. rewrite Hnext.
        unfold bind at 1. unfold logged at 1. rewrite Hw, Hf. now eexists.
Qed.

Lemma iter_pages_returns {A} (c : option string -> ec2_call)
    (f : option string -> World E -> result (Page A) * World E) :
  (forall response w, listing_ends f response w) ->
  forall s, exists fuel out,
    _iter_ec2_response_pages E fuel (fun token => logged E (c token) (f token)) s
    = Some out.
Proof.
  intros Hends s. unfold _iter_ec2_response_pages.
  destruct (f None (world s)) as [[response | e] w'] eqn:Hf.
  - destruct (next_pages_returns c f response w' (Hends response w')
                {| world := w'; calls := calls s ++ [c None] |} eq_refl)
      as (fuel & out & Hrest).
    exists fuel. unfold bind at 1. unfold logged at 1. rewrite Hf.
    unfold bind at 1. rewrite Hrest.
    destruct out as [[rest | e] s2]; now eexists.
  - exists 0%nat. unfold bind at 1. unfold logged at 1. rewrite Hf. now eexists.
Qed.

Lemma render_message_returns (message_id : json) :
  listings_end E ->
  forall s, exists fuel out, render_message E fuel message_id s = Some out.
Proof.
  intros [Htags Hstatuses] s.
  assert (Hlist : exists fuel out, list_instances E fuel s = Some out).
  { unfold list_instances.
    destruct (iter_pages_returns
                (DescribeTags [ {| Name := "resource-type"; Values := ["instance"] |};
                                {| Name := "key"; Values := [TAG_KEY; "Name"] |} ])
                (describe_tags E [ {| Name := "resource-type"; Values := ["instance"] |};
                                   {| Name := "key"; Values := [TAG_KEY; "Name"] |} ])
                (Htags _) s) as (fuel & out & Hrun).
    exists fuel. unfold bind. unfold ec2_client_describe_tags. rewrite Hrun.
    destruct out as [[tags | e] s1]; now eexists. }
  destruct Hlist as (fuel1 & [[listed | e] s1] & Hlisted).
  - set (instances := sorted display_name (owned_by message_id listed)).
    assert (Hstates : exists fuel out, get_instances_state E fuel instances s1 = Some out).
    { unfold get_instances_state.
      destruct (iter_pages_returns
                  (DescribeInstanceStatus (map id instances) true)
                  (describe_instance_status E (map id instances) true)
                  (Hstatuses _ _) s1) as (fuel & out & Hrun).
      exists fuel. unfold bind. unfold ec2_client_describe_instance_status. rewrite Hrun.
      destruct out as [[statuses | e] s2]; now eexists. }
    destruct Hstates as (fuel2 & out2 & Hshown).
    exists (Nat.max fuel1 fuel2).
    unfold render_message, bind.
    rewrite (list_instances_more_fuel E fuel1 _ s _ (Nat.le_max_l _ _) Hlisted).
    fold instances.
    rewrite (get_instances_state_more_fuel E fuel2 _ instances s1 _ (Nat.le_max_r _ _) Hshown).
    destruct out2 as [[shown | e] s2]; now eexists.
  - exists fuel1. unfold render_message, bind. rewrite Hlisted. now eexists.
Qed.

End Termination.

(** X6. When every listing of the provider is finite, the handler gives
    every request an outcome, a response or an exception, and [main] a
    result. *)
Theorem handle_request_returns (E : Externals) (request : HTTPRequest.t)
    (s : system (World E)) :
  listings_end E ->
  exists fuel,
    (exists out, handle_request E fuel request s = Some out)
    /\ (exists out, main E fuel request s = Some out).
Proof.
  intros Hends.
  assert (Hrun : exists fuel out, handle_request E fuel request s = Some out).
  { unfold handle_request.
    unfold bind at 1. unfold lift at 1.
    destruct (verify_discord_request_auth E request); [| exists 0%nat; now eexists].
    unfold bind at 1. unfold lift at 1.
    destruct (HTTPRequest.get_json_body_data E request) as [request_data | e];
      [| exists 0%nat; now eexists].
    destruct request_data; try (exists 0%nat; now eexists).
    destruct (dict_get "type" d); try (exists 0%nat; now eexists);
      (destruct (eq_int _ 1); [exists 0%nat; now eexists |];
       destruct (negb (eq_int _ 3)); [exists 0%nat; now eexists |];
       unfold bind at 1; unfold lift at 1;
       destruct (py_get _ "id") as [message_id | e]; [| exists 0%nat; now eexists];
       destruct message_id; try (exists 0%nat; now eexists);
       (unfold bind at 1; unfold lift at 1;
        destruct (py_get _ "custom_id") as [custom_id | e];
          [| exists 0%nat; now eexists];
        destruct (negb (truthy custom_id)); [exists 0%nat; now eexists |];
        unfold bind at 1;
        match goal with
        | |- context [act_on_button E ?m ?c s] =>
            destruct (returns_act_on_button E m c s) as [[[[] | e] s1] ->];
              [apply (render_message_returns E m Hends s1) | exists 0%nat; now eexists]
        end)). }
  destruct Hrun as (fuel & [r s'] & Hrun).
  exists fuel. split; [eexists; exact Hrun |].
  unfold main. rewrite Hrun. destruct r; eexists; reflexivity.
Qed.

(** The listings of the provider of the examples are finite: a page holds
    at least one item, and the offset grows from page to page. *)
Lemma length_unary (n : nat) : String.length (Toy.unary n) = n.
Proof.
  unfold Toy.unary. induction n as [| n IH]; cbn [repeat string_of_list_ascii String.length].
  - reflexivity.
  - now rewrite IH.
Qed.

Lemma toy_pages_end {A} (k : nat) (l : list A)
    (f : option string -> Toy.cloud -> result (Page A) * Toy.cloud) (w : Toy.cloud) :
  (forall token, f token w = (Ok (Toy.paged (S k) token l), w)) ->
  forall response, listing_ends f response w.
Proof.
  intros Hf.
  assert (Hpaged : forall n token,
             (length l - Toy.offset_of token <= n)%nat ->
             listing_ends f (Toy.paged (S k) token l) w).
  { induction n as [| n IH]; intros token Hn.
    - apply ends_here. left. unfold Toy.paged. cbn [NextToken].
      rewrite length_skipn.
      destruct (Nat.ltb_spec (S k) (length l - Toy.offset_of token)); [lia | reflexivity].
    - unfold Toy.paged. rewrite length_skipn.
      destruct (Nat.ltb_spec (S k) (length l - Toy.offset_of token)) as [Hmore | Hlast].
      + apply ends_later with (tok := Toy.unary (Toy.offset_of token + S k));
          [reflexivity |].
        intros response'. rewrite Hf. cbn [fst snd]. intros Hresponse.
        injection Hresponse as <-. apply IH.
        cbn [Toy.offset_of]. rewrite length_unary. lia.
      + apply ends_here. now left. }
  intros response. destruct (NextToken response) as [tok |] eqn:Htok.
  - apply ends_later with (tok := tok); [exact Htok |].
    intros response'. rewrite Hf. cbn [fst snd]. intros Hresponse.
    injection Hresponse as <-. now apply (Hpaged (length l)); lia.
  - apply ends_here. now left.
Qed.

Lemma toy_listings_end (keyed : bool) (documents : list (string * json)) :
  listings_end (Toy.externals keyed documents).
Proof.
  split.
  - intros Filters response w.
    apply (toy_pages_end (Toy.page_more w)
             (List.filter (fun t => forallb (Toy.filter_matches (ResourceId t) (Key t)) Filters)
                (Toy.account_tags w))).
    reflexivity.
  - intros InstanceIds IncludeAllInstances response w.
    eapply (toy_pages_end (Toy.page_more w)). reflexivity.
Qed.

(** Every request to the provider of the examples gets a result. *)
Lemma handle_request_returns_witness :
  exists fuel,
    (exists out,
       handle_request Toy.unkeyed fuel (Toy.post [] (Some "M1 stop:i-abc"))
         (Toy.fresh Toy.account) = Some out)
    /\ (exists out,
          main Toy.unkeyed fuel (Toy.post [] (Some "M1 stop:i-abc"))
            (Toy.fresh Toy.account) = Some out).
Proof.
  apply (handle_request_returns Toy.unkeyed (Toy.post [] (Some "M1 stop:i-abc"))
           (Toy.fresh Toy.account)).
  apply toy_listings_end.
Defined.

(** * The parts of the handler

    The transport (the event Lambda hands in, the result it takes back),
    the pagination of the client's listings, the grouping of the tags, the
    refresh of the states, authentication, and the error responses. *)

(** ** Base64

    [base64.b64decode] undoes [base64.b64encode]. The arithmetic of a
    group is checked on all pairs of bytes; the rest is an induction on
    the groups. *)

Lemma below_in (k : nat) (n : N) : (n < N.of_nat k)%N -> In n (map N.of_nat (seq 0 k)).
Proof.
  intros H. apply in_map_iff. exists (N.to_nat n). split; [lia |]. apply in_seq. lia.
Qed.

Lemma below_forallb (P : N -> bool) (k : nat) (n : N) :
  forallb P (map N.of_nat (seq 0 k)) = true -> (n < N.of_nat k)%N -> P n = true.
Proof.
  intros Hall Hn. rewrite forallb_forall in Hall. apply Hall. now apply below_in.
Qed.

(** A character of the alphabet is not the pad, and the decoder's table
    gives back its value. *)
Lemma b64_value_char (v : N) :
  (v < 64)%N ->
  (Byte.to_N (Py.b64_char v) =? 61)%N = false /\ Py.b64_value (Py.b64_char v) = Some v.
Proof.
  intros Hv.
  assert (Hall : forallb (fun v => negb (Byte.to_N (Py.b64_char v) =? 61)%N
                                   && match Py.b64_value (Py.b64_char v) with
                                      | Some v' => (v' =? v)%N
                                      | None => false
                                      end)
                   (map N.of_nat (seq 0 64)) = true) by (vm_compute; reflexivity).
  apply (below_forallb _ 64 v Hall) in Hv.
  apply andb_prop in Hv as [Hpad Hval]. split.
  - now apply negb_true_iff.
  - destruct (Py.b64_value (Py.b64_char v)); [| discriminate].
    apply N.eqb_eq in Hval. now subst.
Qed.

Lemma sextets (a b : byte) : sextets_ok (Byte.to_N a) (Byte.to_N b) = true.
Proof.
  assert (Hall : forallb (fun n => forallb (sextets_ok n) (map N.of_nat (seq 0 256)))
                   (map N.of_nat (seq 0 256)) = true) by (vm_compute; reflexivity).
  pose proof (Byte.to_N_bounded a). pose proof (Byte.to_N_bounded b).
  apply (below_forallb _ 256 (Byte.to_N a)) in Hall; [| lia].
  apply (below_forallb _ 256 (Byte.to_N b)) in Hall; [| lia].
  exact Hall.
Qed.

Lemma byte_of_to_N (a : byte) : Py.byte_of_N (Byte.to_N a) = a.
Proof. unfold Py.byte_of_N. now rewrite Byte.of_to_N. Qed.

(** One step of the decoder on a character of the alphabet. *)
Lemma a2b_base64_char (quad_pos : nat) (leftchar : N) (pads : nat) (v : N) (rest : list byte) :
  (v < 64)%N ->
  Py.a2b_base64 quad_pos leftchar pads (Py.b64_char v :: rest)
  = match quad_pos with
    | 0%nat => Py.a2b_base64 1 v 0 rest
    | 1%nat =>
        option_map
          (cons (Py.byte_of_N (N.lor (N.shiftl leftchar 2) (N.shiftr v 4) mod 256)))
          (Py.a2b_base64 2 (N.land v 15) 0 rest)
    | 2%nat =>
        option_map
          (cons (Py.byte_of_N (N.lor (N.shiftl leftchar 4) (N.shiftr v 2) mod 256)))
          (Py.a2b_base64 3 (N.land v 3) 0 rest)
    | _ =>
        option_map
          (cons (Py.byte_of_N (N.lor (N.shiftl leftchar 6) v mod 256)))
          (Py.a2b_base64 0 0 0 rest)
    end.
Proof.
  intros Hv. destruct (b64_value_char v Hv) as [Hpad Hval].
  cbn [Py.a2b_base64]. now rewrite Hpad, Hval.
Qed.

(** One step of the decoder on the pad. *)
Lemma a2b_base64_pad (quad_pos : nat) (leftchar : N) (pads : nat) (rest : list byte) :
  Py.a2b_base64 quad_pos leftchar pads (Py.b64_pad :: rest)
  = if (2 <=? quad_pos)%nat then
      if (4 <=? quad_pos + S pads)%nat then Some []
      else Py.a2b_base64 quad_pos leftchar (S pads) rest
    else Py.a2b_base64 quad_pos leftchar pads rest.
Proof. reflexivity. Qed.

Lemma b64decode_b64encode_upto (n : nat) :
  forall l : list byte, (length l <= n)%nat -> Py.b64decode (Py.b64encode l) = Some l.
Proof.
  unfold Py.b64decode.
  induction n as [| n IH]; intros l Hlen.
  - destruct l; [reflexivity | simpl in Hlen; lia].
  - destruct l as [| a [| b [| c rest]]]; cbn [Py.b64encode].
    + reflexivity.
    + pose proof (sextets a x00) as H. unfold sextets_ok in H.
      repeat (apply andb_prop in H as [H ?]).
      change (Byte.to_N x00) with 0%N in *. change (0 / 16)%N with 0%N in *.
      rewrite N.add_0_r in *.
      rewrite !a2b_base64_char by now apply N.ltb_lt.
      rewrite !a2b_base64_pad. cbn [Nat.leb Nat.add option_map].
      apply N.eqb_eq in H. rewrite H. now rewrite byte_of_to_N.
    + pose proof (sextets a b) as H. unfold sextets_ok in H.
      repeat (apply andb_prop in H as [H ?]).
      pose proof (sextets b x00) as H'. unfold sextets_ok in H'.
      repeat (apply andb_prop in H' as [H' ?]).
      change (Byte.to_N x00) with 0%N in *. change (0 / 64)%N with 0%N in *.
      rewrite N.add_0_r in *.
      rewrite !a2b_base64_char by now apply N.ltb_lt.
      rewrite !a2b_base64_pad. cbn [Nat.leb Nat.add option_map].
      repeat match goal with E : (_ =? _)%N = true |- _ => apply N.eqb_eq in E end.
      repeat match goal with E : _ = _ |- _ => rewrite E end.
      now rewrite !byte_of_to_N.
    + pose proof (sextets a b) as H. unfold sextets_ok in H.
      repeat (apply andb_prop in H as [H ?]).
      pose proof (sextets b c) as H'. unfold sextets_ok in H'.
      repeat (apply andb_prop in H' as [H' ?]).
      pose proof (sextets c c) as H''. unfold sextets_ok in H''.
      repeat (apply andb_prop in H'' as [H'' ?]).
      rewrite !a2b_base64_char by now apply N.ltb_lt.
      rewrite IH by (simpl in Hlen; lia). cbn [option_map].
      repeat match goal with E : (_ =? _)%N = true |- _ => apply N.eqb_eq in E end.
      repeat match goal with E : _ = _ |- _ => rewrite E end.
      now rewrite !byte_of_to_N.
Qed.

Lemma b64decode_b64encode (l : list byte) : Py.b64decode (Py.b64encode l) = Some l.
Proof. now apply (b64decode_b64encode_upto (length l)). Qed.

(** Text that decoded from bytes encodes to these bytes. *)
Lemma encode_decode (b : list byte) (text : string) :
  Py.decode b = Some text -> Py.encode text = b.
Proof.
  unfold Py.decode, Py.encode. destruct (Py.utf8_valid b); [| discriminate].
  intros [= <-]. apply list_byte_of_string_of_list_byte.
Qed.

(** ** The transport, there and back *)

(** X7. The two ends of the Lambda transport are inverse to each other:
    an event that carries the [body] and the [isBase64Encoded] flag of a
    result of [to_lambda_result] (and the keys [from_lambda_event] reads
    by subscript) decodes to a request, and the body of the request is
    the body of the response, byte for byte, whether it went as text or
    as base64; the result of a 204 has no body, and neither has the
    request. *)
Theorem lambda_body_round_trip (r : HTTPResponse.t) (res : LambdaResult.t)
    (event : LambdaEvent.t) (method path : string) (headers : list (string * string)) :
  HTTPResponse.to_lambda_result r = Ok res ->
  LambdaEvent.body event = LambdaResult.body res ->
  LambdaEvent.isBase64Encoded event = LambdaResult.isBase64Encoded res ->
  LambdaEvent.requestContext event
  = Some {| LambdaEvent.http := Some {| LambdaEvent.method := Some method |} |} ->
  LambdaEvent.rawPath event = Some path ->
  LambdaEvent.headers event = Some headers ->
  HTTPRequest.from_lambda_event event
  = Ok {| HTTPRequest.method := method;
          HTTPRequest.path := path;
          HTTPRequest.query_parameters := LambdaEvent.queryStringParameters event;
          HTTPRequest.headers := headers;
          HTTPRequest.body :=
            if (HTTPResponse.status_code r =? 204)%Z then None else HTTPResponse.body r |}.
Proof.
  intros Hres Hbody Hflag Hcontext Hpath Hheaders.
  unfold HTTPRequest.from_lambda_event.
  rewrite Hbody, Hflag, Hcontext, Hpath, Hheaders. clear Hbody Hflag.
  unfold HTTPResponse.to_lambda_result in Hres.
  destruct (HTTPResponse.status_code r =? 204)%Z; cbn [negb] in Hres.
  - injection Hres as <-. reflexivity.
  - destruct (HTTPResponse.body_missing r) eqn:Hmissing; [discriminate |].
    destruct (HTTPResponse.body r) as [b |] eqn:Hb;
      [| unfold HTTPResponse.body_missing in Hmissing; now rewrite Hb in Hmissing].
    change (default [] (Some b)) with b in Hres.
    destruct (HTTPResponse.body_is_binary r).
    + rewrite decode_b64encode in Hres. injection Hres as <-.
      cbn [LambdaResult.body LambdaResult.isBase64Encoded rbind HTTPRequest.subscript
           LambdaEvent.http LambdaEvent.method].
      unfold Py.encode. rewrite list_byte_of_string_of_list_byte.
      now rewrite b64decode_b64encode.
    + destruct (Py.decode b) as [text |] eqn:Hdecode; [| discriminate].
      injection Hres as <-.
      cbn [LambdaResult.body LambdaResult.isBase64Encoded rbind HTTPRequest.subscript
           LambdaEvent.http LambdaEvent.method].
      now rewrite (encode_decode _ _ Hdecode).
Qed.

(** Four bytes that are not UTF-8 go out as [/wABfw==] and come back. *)
Lemma lambda_body_round_trip_witness :
  HTTPResponse.to_lambda_result Toy.binary_response = Ok Toy.binary_result
  /\ HTTPRequest.from_lambda_event (Toy.event [] true "/wABfw==")
     = Ok {| HTTPRequest.method := "POST";
             HTTPRequest.path := "/";
             HTTPRequest.query_parameters := None;
             HTTPRequest.headers := [];
             HTTPRequest.body := Some [xff; x00; x01; x7f] |}.
Proof.
  split; [reflexivity |].
  apply (lambda_body_round_trip Toy.binary_response Toy.binary_result
           (Toy.event [] true "/wABfw==") "POST" "/" []); reflexivity.
Defined.

(** ** Pagination *)

Section Pages.

Context (E : Externals) {A : Type}.
Context (c : option string -> ec2_call).
Context (f : option string -> World E -> result (Page A) * World E).

Lemma next_pages_of_listing (fuel : nat) :
  forall (tok : string) (w : World E) (response : Page A)
         (pages : list (Page A)) (raised : option exn) (w' : World E)
         (log : list ec2_call),
    next_token response = Some tok ->
    listing f (Some tok) w pages raised w' ->
    (length (listing_tokens pages raised) <= S fuel)%nat ->
    next_pages E (S fuel) (fun token => logged E (c token) (f token)) response
      {| world := w; calls := log |}
    = Some (listing_outcome pages raised,
            {| world := w';
               calls := log ++ [c (Some tok)]
                        ++ map c (tl (listing_tokens pages raised)) |}).
Proof.
  induction fuel as [| fuel IH]; intros tok w response pages raised w' log Htok Hlisting Hlen;
    cbn [next_pages]; rewrite Htok;
    unfold bind at 1; unfold logged at 1; cbn [world calls].
  - inversion Hlisting as [? ? ? ? Hf Hnext | ? ? ? ? Hf | ? ? ? ? ? ? ? ? Hf Hnext Hrest];
      subst; rewrite Hf.
    + unfold bind at 1. cbn [next_pages]. rewrite Hnext. unfold ret.
      cbn. now rewrite !app_nil_r.
    + reflexivity.
    + exfalso. destruct raised; inversion Hrest; subst; simpl in Hlen; lia.
  - inversion Hlisting as [? ? ? ? Hf Hnext | ? ? ? ? Hf | ? ? ? ? ? ? ? ? Hf Hnext Hrest];
      subst; rewrite Hf.
    + unfold bind at 1. cbn [next_pages]. rewrite Hnext. unfold ret.
      cbn. now rewrite !app_nil_r.
    + reflexivity.
    + unfold bind at 1.
      rewrite (IH tok0 w1 response0 pages0 raised w' _ Hnext Hrest).
      * unfold listing_outcome, listing_tokens. cbn [tl].
        destruct raised as [e |].
        -- cbn [map]. rewrite Hnext. now rewrite <- !app_assoc.
        -- unfold ret. cbn [map concat].
           assert (Hne : pages0 <> []) by (inversion Hrest; discriminate).
           destruct pages0 as [| p pages0]; [contradiction |].
           change (removelast (response0 :: p :: pages0))
             with (response0 :: removelast (p :: pages0)).
           cbn [map]. rewrite Hnext. now rewrite <- !app_assoc.
      * unfold listing_tokens in *. destruct raised; cbn [length map] in *.
        -- lia.
        -- assert (Hne : pages0 <> []) by (inversion Hrest; discriminate).
           destruct pages0 as [| p pages0]; [contradiction |].
           change (removelast (response0 :: p :: pages0))
             with (response0 :: removelast (p :: pages0)) in Hlen.
           cbn [length map] in Hlen. lia.
Qed.

(** X8. [_iter_ec2_response_pages] follows a listing of the provider to
    its end: it makes the first call without a token and one call with
    the token of each page that carries one, in this order, and nothing
    else; it stops at the first page without a token (an empty token
    counts as none); it yields the items of the pages in order (a page
    without the items key gives none); and when a call raises, so does
    the iteration, after exactly the calls made so far. The bound of the
    model only has to cover the calls made. *)
Theorem iter_pages_follow_listing (fuel : nat) (pages : list (Page A))
    (raised : option exn) (s : system (World E)) (w' : World E) :
  listing f None (world s) pages raised w' ->
  (length (listing_tokens pages raised) <= S fuel)%nat ->
  _iter_ec2_response_pages E fuel (fun token => logged E (c token) (f token)) s
  = Some (listing_outcome pages raised,
          {| world := w'; calls := calls s ++ map c (listing_tokens pages raised) |}).
Proof.
  intros Hlisting Hlen.
  unfold _iter_ec2_response_pages.
  unfold bind at 1. unfold logged at 1.
  inversion Hlisting as [? ? ? ? Hf Hnext | ? ? ? ? Hf | ? ? ? ? ? ? ? ? Hf Hnext Hrest];
    subst; rewrite Hf.
  - unfold bind at 1.
    assert (Hend : forall s0, next_pages E fuel (fun token => logged E (c token) (f token))
                                response s0 = Some (Ok [], s0))
      by (intros s0; destruct fuel; cbn [next_pages]; now rewrite Hnext).
    rewrite Hend. unfold ret. cbn. now rewrite !app_nil_r.
  - reflexivity.
  - unfold bind at 1.
    destruct fuel as [| fuel].
    { exfalso. unfold listing_tokens in Hlen.
      destruct raised; inversion Hrest; subst; simpl in Hlen; lia. }
    rewrite (next_pages_of_listing fuel tok w1 response pages0 raised w' _ Hnext Hrest).
    + unfold listing_outcome, listing_tokens. cbn [tl].
      destruct raised as [e |].
      * cbn [map]. rewrite Hnext. now rewrite <- !app_assoc.
      * unfold ret. cbn [map concat].
        assert (Hne : pages0 <> []) by (inversion Hrest; discriminate).
        destruct pages0 as [| p pages0]; [contradiction |].
        change (removelast (response :: p :: pages0))
          with (response :: removelast (p :: pages0)).
        cbn [map]. rewrite Hnext. now rewrite <- !app_assoc.
    + unfold listing_tokens in *. destruct raised; cbn [length map] in *.
      * lia.
      * assert (Hne : pages0 <> []) by (inversion Hrest; discriminate).
        destruct pages0 as [| p pages0]; [contradiction |].
        change (removelast (response :: p :: pages0))
          with (response :: removelast (p :: pages0)) in Hlen.
        cbn [length map] in Hlen. lia.
Qed.

End Pages.

(** The tags of the account of the examples come in three pages of
    three, three and two. *)
Lemma iter_pages_follow_listing_witness :
  _iter_ec2_response_pages Toy.keyed 2
    (ec2_client_describe_tags Toy.keyed instance_tag_filters) (Toy.fresh Toy.account)
  = Some (Ok (Toy.account_tags Toy.account),
          {| world := Toy.account;
             calls := [ DescribeTags instance_tag_filters None;
                        DescribeTags instance_tag_filters (Some "xxx");
                        DescribeTags instance_tag_filters (Some "xxxxxx") ] |}).
Proof.
  assert (Hlisting : listing (Toy.tags_of instance_tag_filters) None Toy.account
                       Toy.tag_pages None Toy.account).
  { apply listing_more with (w1 := Toy.account) (tok := "xxx"); [reflexivity | reflexivity |].
    apply listing_more with (w1 := Toy.account) (tok := "xxxxxx");
      [reflexivity | reflexivity |].
    apply listing_last; reflexivity. }
  assert (Hlen : (length (listing_tokens Toy.tag_pages None) <= 3)%nat) by (cbn; lia).
  exact (iter_pages_follow_listing Toy.keyed (DescribeTags instance_tag_filters)
           (Toy.tags_of instance_tag_filters) 2 Toy.tag_pages None
           (Toy.fresh Toy.account) Toy.account Hlisting Hlen).
Defined.

(** ** Grouping the tags by instance *)

Lemma add_tag_ids (tag : Tag) (d : list (string * gmap string string)) :
  map fst (add_tag tag d)
  = if existsb (fun k => String.eqb k (ResourceId tag)) (map fst d)
    then map fst d else map fst d ++ [ResourceId tag].
Proof.
  induction d as [| [k m] d IH]; [reflexivity |].
  cbn [add_tag map fst existsb].
  destruct (String.eqb k (ResourceId tag)); [reflexivity |].
  cbn [map fst orb]. rewrite IH.
  now destruct (existsb _ (map fst d)).
Qed.

Lemma add_tag_assoc (tag : Tag) (d : list (string * gmap string string)) (k : string) :
  assoc k (add_tag tag d)
  = if String.eqb k (ResourceId tag)
    then Some (<[Key tag := Value tag]> (default ∅ (assoc k d)))
    else assoc k d.
Proof.
  induction d as [| [k' m] d IH]; cbn [add_tag assoc].
  - rewrite String.eqb_sym. now destruct (String.eqb k (ResourceId tag)).
  - destruct (String.eqb_spec k' (ResourceId tag)) as [-> | Hk'].
    + cbn [assoc]. rewrite String.eqb_sym.
      now destruct (String.eqb k (ResourceId tag)).
    + cbn [assoc]. destruct (String.eqb_spec k' k) as [-> | Hk].
      * now destruct (String.eqb_spec k (ResourceId tag)).
      * exact IH.
Qed.

Lemma group_tags_snoc (tag_list : list Tag) (tag : Tag) :
  group_tags (tag_list ++ [tag]) = add_tag tag (group_tags tag_list).
Proof. unfold group_tags. now rewrite fold_left_app. Qed.

Lemma existsb_eqb_In (k : string) (l : list string) :
  existsb (fun k' => String.eqb k' k) l = true <-> In k l.
Proof.
  rewrite existsb_exists. split.
  - intros (x & Hin & Heq). apply String.eqb_eq in Heq. now subst.
  - intros Hin. exists k. split; [exact Hin | apply String.eqb_refl].
Qed.

Lemma first_seen_snoc (l : list string) (x : string) :
  first_seen (l ++ [x]) = if in_dec String.string_dec x l then first_seen l
                          else first_seen l ++ [x].
Proof.
  unfold first_seen. rewrite rev_unit. cbn [nodup].
  destruct (in_dec String.string_dec x (rev l)) as [Hin | Hout];
    destruct (in_dec String.string_dec x l) as [Hin' | Hout']; trivial.
  - exfalso. apply Hout'. now apply in_rev.
  - exfalso. apply Hout. now apply in_rev in Hin'.
Qed.

Lemma first_seen_In (l : list string) (x : string) : In x (first_seen l) <-> In x l.
Proof. unfold first_seen. now rewrite <- in_rev, nodup_In, <- in_rev. Qed.

Lemma first_seen_NoDup (l : list string) : List.NoDup (first_seen l).
Proof. unfold first_seen. apply NoDup_rev, NoDup_nodup. Qed.

(** The instances come in the order in which their first tag was listed. *)
Lemma group_tags_ids (tag_list : list Tag) :
  map fst (group_tags tag_list) = first_seen (map ResourceId tag_list).
Proof.
  induction tag_list as [| tag tag_list IH] using rev_ind; [reflexivity |].
  rewrite group_tags_snoc, add_tag_ids, map_app. cbn [map]. rewrite first_seen_snoc, IH.
  destruct (in_dec String.string_dec (ResourceId tag) (map ResourceId tag_list))
    as [Hin | Hout].
  - apply first_seen_In, existsb_eqb_In in Hin. now rewrite Hin.
  - destruct (existsb _ (first_seen (map ResourceId tag_list))) eqn:Hex; [| reflexivity].
    exfalso. apply Hout. now apply first_seen_In, existsb_eqb_In.
Qed.

Lemma last_tag_value_snoc (tag_list : list Tag) (tag : Tag) (instance_id key : string) :
  last_tag_value (tag_list ++ [tag]) instance_id key
  = if String.eqb (ResourceId tag) instance_id && String.eqb (Key tag) key
    then Some (Value tag) else last_tag_value tag_list instance_id key.
Proof.
  unfold last_tag_value. rewrite rev_unit. cbn [List.find].
  now destruct (String.eqb (ResourceId tag) instance_id && String.eqb (Key tag) key).
Qed.

(** A later tag of the same instance and key overwrites an earlier one. *)
Lemma group_tags_lookup (tag_list : list Tag) (instance_id key : string) :
  default ∅ (assoc instance_id (group_tags tag_list)) !! key
  = last_tag_value tag_list instance_id key.
Proof.
  induction tag_list as [| tag tag_list IH] using rev_ind; [reflexivity |].
  rewrite group_tags_snoc, add_tag_assoc, last_tag_value_snoc,
    (String.eqb_sym (ResourceId tag)).
  destruct (String.eqb instance_id (ResourceId tag)); cbn [andb]; [| exact IH].
  cbn [default from_option Datatypes.id].
  destruct (String.eqb_spec (Key tag) key) as [<- | Hkey].
  - apply lookup_insert_eq.
  - rewrite lookup_insert_ne by exact Hkey. exact IH.
Qed.

Lemma assoc_In {B} (d : list (string * B)) (k : string) (v : B) :
  List.NoDup (map fst d) -> In (k, v) d -> assoc k d = Some v.
Proof.
  induction d as [| [k' v'] d IH]; intros Hnodup Hin; [contradiction |].
  cbn [map fst] in Hnodup. inversion Hnodup as [| ? ? Hout Hrest]; subst.
  cbn [assoc]. destruct Hin as [[= -> ->] | Hin].
  - now rewrite String.eqb_refl.
  - destruct (String.eqb_spec k' k) as [-> | Hk]; [| now apply IH].
    exfalso. apply Hout. change k with (fst (k, v)). now apply in_map.
Qed.

(** X9. [list_instances] on the tags the provider listed: when the
    listing returns, so does [list_instances], with one instance for each
    resource that has a tag, none twice, in the order in which the
    resources first appear in the listing; no instance has a state yet; a
    tag of an instance is the value of the last tag listed for that
    resource and key; and so the instances a message owns are those whose
    last ownership tag is the message's identifier. *)
Theorem list_instances_groups_tags (E : Externals) (fuel : nat) (s s' : system (World E))
    (tag_list : list Tag) :
  _iter_ec2_response_pages E fuel (ec2_client_describe_tags E instance_tag_filters) s
  = Some (Ok tag_list, s') ->
  exists listed : list Instance,
    list_instances E fuel s = Some (Ok listed, s')
    /\ map id listed = first_seen (map ResourceId tag_list)
    /\ List.NoDup (map id listed)
    /\ (forall instance_id : string,
          In instance_id (map id listed) <-> In instance_id (map ResourceId tag_list))
    /\ (forall instance : Instance,
          In instance listed ->
          state instance = None
          /\ forall key : string,
               tags instance !! key = last_tag_value tag_list (id instance) key)
    /\ (forall (message_id : string) (instance : Instance),
          In instance (owned_by (JStr message_id) listed)
          <-> In instance listed
              /\ last_tag_value tag_list (id instance) TAG_KEY = Some message_id).
Proof.
  intros Hpages. unfold instance_tag_filters in Hpages. eexists. split.
  { unfold list_instances. unfold bind at 1. rewrite Hpages. reflexivity. }
  assert (Hids : map id (map (fun it => {| id := fst it; tags := snd it; state := None |})
                           (group_tags tag_list))
                 = first_seen (map ResourceId tag_list)).
  { rewrite map_map. cbn [id]. apply group_tags_ids. }
  assert (Htags : forall instance : Instance,
             In instance (map (fun it => {| id := fst it; tags := snd it; state := None |})
                            (group_tags tag_list)) ->
             state instance = None
             /\ forall key : string,
                  tags instance !! key = last_tag_value tag_list (id instance) key).
  { intros instance Hin. apply in_map_iff in Hin as ([k m] & <- & Hin).
    cbn [id tags state fst snd]. split; [reflexivity |]. intros key.
    rewrite <- group_tags_lookup.
    rewrite (assoc_In _ k m); [reflexivity | | exact Hin].
    rewrite group_tags_ids. apply first_seen_NoDup. }
  split; [exact Hids |]. split; [rewrite Hids; apply first_seen_NoDup |].
  split; [intros instance_id; rewrite Hids; apply first_seen_In |].
  split; [exact Htags |].
  intros message_id instance. unfold owned_by. rewrite List.filter_In.
  split; intros [Hin Hown]; (split; [exact Hin |]);
    destruct (Htags instance Hin) as [_ Hkey].
  - rewrite <- Hkey. destruct (tags instance !! TAG_KEY) as [v |]; [| discriminate].
    cbn [eq_opt_str eq_str] in Hown. apply String.eqb_eq in Hown. now subst.
  - rewrite Hkey, Hown. cbn [eq_opt_str eq_str]. apply String.eqb_refl.
Qed.

(** The account of the examples: five instances, in the order of their
    first tag, and M3 owns the last two. *)
Lemma list_instances_groups_tags_witness :
  match list_instances Toy.keyed 2 (Toy.fresh Toy.account) with
  | Some (Ok listed, _) =>
      map id listed = ["i-abc"; "i-def"; "i-zzz"; "i-2"; "i-1"]
      /\ List.NoDup (map id listed)
      /\ map id (owned_by (JStr "M3") listed) = ["i-2"; "i-1"]
  | _ => False
  end.
Proof.
  destruct (_iter_ec2_response_pages Toy.keyed 2
              (ec2_client_describe_tags Toy.keyed instance_tag_filters)
              (Toy.fresh Toy.account)) as [[[tag_list | e] s'] |] eqn:Hpages.
  - destruct (list_instances_groups_tags Toy.keyed 2 (Toy.fresh Toy.account) s' tag_list
                Hpages) as (listed & Hrun & Hids & Hnodup & _).
    rewrite Hrun. vm_compute in Hpages. injection Hpages as <- <-.
    split; [exact Hids |]. split; [exact Hnodup |].
    vm_compute in Hrun. injection Hrun as <-. reflexivity.
  - vm_compute in Hpages. discriminate Hpages.
  - vm_compute in Hpages. discriminate Hpages.
Defined.

(** ** The states of the instances *)

(** [InstanceState(value)] is the member whose value is [value]. *)
Lemma InstanceState_of_value_spec (v : string) (st : InstanceState) :
  InstanceState_of_value v = Some st <-> InstanceState_value st = v.
Proof.
  split.
  - intros H. apply find_some in H as [_ H]. now apply String.eqb_eq in H.
  - intros <-. now destruct st.
Qed.

(** The dictionary by instance identifier keeps the last status listed
    for an identifier. *)
Lemma status_by_instance_id_spec (instance_statuses : list InstanceStatus)
    (instance_id : string) (status : InstanceStatus) :
  status_by_instance_id instance_statuses instance_id = Some status
  <-> exists before after,
        instance_statuses = before ++ status :: after
        /\ InstanceId status = instance_id
        /\ Forall (fun later => InstanceId later <> instance_id) after.
Proof.
  unfold status_by_instance_id.
  induction instance_statuses as [| last l IH] using rev_ind.
  - split; [discriminate | intros (before & after & H & _)]. now destruct before.
  - rewrite rev_unit. cbn [List.find].
    destruct (String.eqb_spec (InstanceId last) instance_id) as [Heq | Hne].
    + split.
      * intros [= <-]. exists l, []. now repeat split.
      * intros (before & after & Hsplit & Hid & Hafter).
        destruct after as [| x after _] using rev_ind.
        -- apply app_inj_tail in Hsplit as [_ ->]. reflexivity.
        -- exfalso. rewrite app_comm_cons, app_assoc in Hsplit.
           apply app_inj_tail in Hsplit as [_ ->].
           rewrite List.Forall_forall in Hafter. apply (Hafter x); [| exact Heq].
           apply in_or_app. right. now left.
    + rewrite IH. split; intros (before & after & Hsplit & Hid & Hafter).
      * exists before, (after ++ [last]). subst l. rewrite <- app_assoc.
        repeat split; trivial.
        apply Forall_app. split; [exact Hafter |]. now repeat constructor.
      * destruct after as [| x after _] using rev_ind.
        -- apply app_inj_tail in Hsplit as [_ ->]. contradiction.
        -- rewrite app_comm_cons, app_assoc in Hsplit.
           apply app_inj_tail in Hsplit as [-> ->].
           exists before, after. repeat split; trivial.
           apply Forall_app in Hafter. tauto.
Qed.

Lemma set_states_spec (E : Externals) (instance_statuses : list InstanceStatus)
    (instances shown : list Instance) :
  set_states E instance_statuses instances = Ok shown
  <-> Forall2 (shows_last_status instance_statuses) instances shown.
Proof.
  revert shown. induction instances as [| instance rest IH]; intros shown.
  - cbn [set_states]. split.
    + intros [= <-]. constructor.
    + intros H. inversion H. reflexivity.
  - cbn [set_states]. split.
    + intros Hset.
      destruct (status_by_instance_id instance_statuses (id instance)) as [status |]
        eqn:Hstatus; [| discriminate].
      destruct (InstanceState_of_value (InstanceStateName status)) as [st |] eqn:Hst;
        [| discriminate].
      destruct (set_states E instance_statuses rest) as [rest' |]; [| discriminate].
      injection Hset as <-. constructor; [| now apply IH].
      apply status_by_instance_id_spec in Hstatus as (before & after & Hsplit & Hid & Hafter).
      apply InstanceState_of_value_spec in Hst.
      repeat split. exists before, after, status, st. now repeat split.
    + intros H. inversion H as [| ? one ? rest' Hone Hrest]; subst.
      destruct Hone as (Hid & Htags & before & after & status & st & Hsplit & Hsid & Hafter
                        & Hvalue & Hstate).
      assert (Hstatus : status_by_instance_id instance_statuses (id instance) = Some status)
        by (apply status_by_instance_id_spec; eauto).
      rewrite Hstatus.
      apply InstanceState_of_value_spec in Hvalue. rewrite Hvalue.
      apply IH in Hrest. rewrite Hrest. cbn [rbind].
      destruct one as [i t o]. cbn [id tags state] in *. now subst.
Qed.

(** What the update loop raises: [KeyError] for an instance no status
    lists, [ValueError] for a state name outside the enumeration. *)
Lemma set_states_raises (E : Externals) (instance_statuses : list InstanceStatus)
    (instances : list Instance) (e : exn) :
  set_states E instance_statuses instances = Raise e ->
  exists instance : Instance,
    In instance instances
    /\ ((e = KeyError (repr E (id instance))
         /\ Forall (fun status => InstanceId status <> id instance) instance_statuses)
        \/ exists status : InstanceStatus,
             In status instance_statuses
             /\ InstanceId status = id instance
             /\ (forall st, InstanceState_value st <> InstanceStateName status)
             /\ e = ValueError (repr E (InstanceStateName status)
                                +:+ " is not a valid InstanceState")).
Proof.
  induction instances as [| instance rest IH]; cbn [set_states]; [discriminate |].
  intros Hset.
  destruct (status_by_instance_id instance_statuses (id instance)) as [status |] eqn:Hstatus.
  - destruct (InstanceState_of_value (InstanceStateName status)) as [st |] eqn:Hst.
    + destruct (set_states E instance_statuses rest) as [rest' | e'] eqn:Hrest;
        [discriminate |].
      injection Hset as ->. destruct (IH eq_refl) as (i & Hin & Hi).
      exists i. split; [now right | exact Hi].
    + injection Hset as <-. exists instance. split; [now left |]. right.
      apply status_by_instance_id_spec in Hstatus as (before & after & -> & Hid & _).
      exists status. repeat split; trivial.
      * apply in_or_app. right. now left.
      * intros st Hvalue. apply InstanceState_of_value_spec in Hvalue. congruence.
  - injection Hset as <-. exists instance. split; [now left |]. left. split; [reflexivity |].
    apply List.Forall_forall. intros status Hin Hid.
    unfold status_by_instance_id in Hstatus.
    apply in_rev in Hin. apply (find_none _ _ Hstatus) in Hin.
    apply String.eqb_neq in Hin. contradiction.
Qed.

(** X10. [get_instances_state] on the statuses the provider listed: when
    the listing returns, the call has an outcome; it returns exactly the
    instances it was given, in order, identifiers and tags untouched,
    each with the state whose value is the state name of the last status
    listed for the instance; and it raises only when an instance has no
    status in the listing ([KeyError]) or a status names a state outside
    the six of [InstanceState] ([ValueError]). *)
Theorem get_instances_state_shows_last_status (E : Externals) (fuel : nat)
    (instances : list Instance) (instance_statuses : list InstanceStatus)
    (s s' : system (World E)) :
  _iter_ec2_response_pages E fuel
    (ec2_client_describe_instance_status E (map id instances) true) s
  = Some (Ok instance_statuses, s') ->
  (exists out : result (list Instance),
     get_instances_state E fuel instances s = Some (out, s'))
  /\ (forall shown : list Instance,
        get_instances_state E fuel instances s = Some (Ok shown, s')
        <-> Forall2 (shows_last_status instance_statuses) instances shown)
  /\ (forall e : exn,
        get_instances_state E fuel instances s = Some (Raise e, s') ->
        exists instance : Instance,
          In instance instances
          /\ ((e = KeyError (repr E (id instance))
               /\ Forall (fun status => InstanceId status <> id instance) instance_statuses)
              \/ exists status : InstanceStatus,
                   In status instance_statuses
                   /\ InstanceId status = id instance
                   /\ (forall st, InstanceState_value st <> InstanceStateName status)
                   /\ e = ValueError (repr E (InstanceStateName status)
                                      +:+ " is not a valid InstanceState"))).
Proof.
  intros Hpages.
  unfold get_instances_state. unfold bind at 1 2 3. rewrite Hpages. unfold lift.
  split; [eexists; reflexivity |]. split.
  - intros shown. rewrite <- set_states_spec. split.
    + now intros [= ->].
    + now intros ->.
  - intros e [= Hset]. now apply set_states_raises in Hset.
Qed.

(** The two instances of M3, both stopped. *)
Lemma get_instances_state_shows_last_status_witness :
  Forall2
    (shows_last_status [ {| InstanceId := "i-2"; InstanceStateName := "stopped" |};
                         {| InstanceId := "i-1"; InstanceStateName := "stopped" |} ])
    [Toy.db "i-2" None; Toy.db "i-1" None]
    [Toy.db "i-2" (Some stopped); Toy.db "i-1" (Some stopped)].
Proof.
  destruct (get_instances_state_shows_last_status Toy.keyed 2
              [Toy.db "i-2" None; Toy.db "i-1" None]
              [ {| InstanceId := "i-2"; InstanceStateName := "stopped" |};
                {| InstanceId := "i-1"; InstanceStateName := "stopped" |} ]
              (Toy.fresh Toy.account)
              {| world := Toy.account;
                 calls := [DescribeInstanceStatus ["i-2"; "i-1"] true None] |})
    as (_ & Hshown & _).
  - reflexivity.
  - apply Hshown. reflexivity.
Defined.

(** ** A message that owns no instance *)

Lemma owned_by_non_string (message_id : json) (listed : list Instance) :
  message_id <> JNull -> (forall text, message_id <> JStr text) ->
  owned_by message_id listed = [].
Proof.
  intros Hnull Hstr. unfold owned_by.
  induction listed as [| i listed IH]; [reflexivity |].
  cbn [List.filter]. rewrite IH.
  destruct (tags i !! TAG_KEY) as [owner |], message_id as [| | | | text | |];
    cbn [eq_opt_str eq_str]; try reflexivity; try contradiction.
  now destruct (Hstr text).
Qed.

Lemma next_pages_appends (E : Externals) {A} (c : option string -> ec2_call)
    (f : option string -> World E -> result (Page A) * World E) (fuel : nat) :
  forall (response : Page A) (s s' : system (World E)) (r : result (list A)),
    next_pages E fuel (fun token => logged E (c token) (f token)) response s = Some (r, s') ->
    exists more, calls s' = calls s ++ more.
Proof.
  induction fuel as [| fuel IH]; intros response s s' r; cbn [next_pages];
    destruct (next_token response) as [tok |].
  - discriminate.
  - intros [= <- <-]. exists []. now rewrite app_nil_r.
  - unfold bind at 1. unfold logged at 1.
    destruct (f (Some tok) (world s)) as [[response' | e] w].
    + unfold bind at 1.
      destruct (next_pages E fuel _ response' _) as [[[rest | e] s1] |] eqn:Hrest;
        try discriminate; intros [= <- <-];
        apply IH in Hrest as [more Hmore]; cbn [calls] in Hmore;
        exists (c (Some tok) :: more); now rewrite Hmore, <- app_assoc.
    + intros [= <- <-]. now exists [c (Some tok)].
  - intros [= <- <-]. exists []. now rewrite app_nil_r.
Qed.

(** The first call of an iteration carries no token. *)
Lemma iter_pages_first_call (E : Externals) {A} (fuel : nat) (c : option string -> ec2_call)
    (f : option string -> World E -> result (Page A) * World E)
    (s s' : system (World E)) (r : result (list A)) :
  _iter_ec2_response_pages E fuel (fun token => logged E (c token) (f token)) s
  = Some (r, s') ->
  exists more, calls s' = calls s ++ c None :: more.
Proof.
  unfold _iter_ec2_response_pages. unfold bind at 1. unfold logged at 1.
  destruct (f None (world s)) as [[response | e] w].
  - unfold bind at 1.
    destruct (next_pages E fuel _ response _) as [[[rest | e] s1] |] eqn:Hrest;
      try discriminate; intros [= <- <-];
      apply next_pages_appends in Hrest as [more Hmore]; cbn [calls] in Hmore;
      exists more; now rewrite Hmore, <- app_assoc.
  - intros [= <- <-]. now exists [].
Qed.

(** X11. The render of a message that owns none of the listed instances
    (a message identifier that is not a string owns none): the statuses
    are still asked for, with an empty list of instance identifiers, which
    the provider reads as all instances; what the provider answers is
    dropped and the grid is the refresh row alone; and if that listing
    raises, so does the render. *)
Theorem render_of_message_without_instances (E : Externals) (fuel : nat) (message_id : json)
    (listed : list Instance) (s s1 : system (World E)) :
  list_instances E fuel s = Some (Ok listed, s1) ->
  owned_by message_id listed = [] ->
  render_message E fuel message_id s
  = match _iter_ec2_response_pages E fuel
            (ec2_client_describe_instance_status E [] true) s1 with
    | Some (Ok _, s') =>
        Some (Ok (HTTPResponse.from_json_body_data E 200
                    (JDict [("type", JInt 7);
                            ("data",
                             JDict [("content", JStr "Servers");
                                    ("components",
                                     JList [button_row refresh_label 2 "refresh"])])])),
              s')
    | Some (Raise e, s') => Some (Raise e, s')
    | None => None
    end
  /\ (forall (r : result HTTPResponse.t) (s' : system (World E)),
        render_message E fuel message_id s = Some (r, s') ->
        exists more, calls s' = calls s1 ++ DescribeInstanceStatus [] true None :: more)
  /\ (forall other : json,
        other <> JNull -> (forall text, other <> JStr text) -> owned_by other listed = []).
Proof.
  intros Hlist Hnone.
  assert (Hrender : render_message E fuel message_id s
                    = (instances <- get_instances_state E fuel [] ;;
                       ret (HTTPResponse.from_json_body_data E 200 (response_data instances)))
                        s1).
  { unfold render_message. unfold bind at 1. rewrite Hlist, Hnone. reflexivity. }
  rewrite Hrender. unfold get_instances_state, bind, lift, ret. cbn [map set_states].
  unfold ec2_client_describe_instance_status.
  split; [| split].
  - destruct (_iter_ec2_response_pages E fuel _ s1) as [[[statuses | e] s2] |]; reflexivity.
  - intros r s'.
    destruct (_iter_ec2_response_pages E fuel _ s1) as [[[statuses | e] s2] |] eqn:Hpages;
      try discriminate; intros [= <- <-];
      now apply iter_pages_first_call in Hpages.
  - intros other. apply owned_by_non_string.
Qed.

(** No instance of the account of the examples belongs to M9: the
    statuses of all five instances are listed, in two pages, for a grid
    that shows none. *)
Lemma render_of_message_without_instances_witness :
  match render_message Toy.keyed 2 (JStr "M9") (Toy.fresh Toy.account) with
  | Some (Ok response, s') =>
      response
      = HTTPResponse.from_json_body_data Toy.keyed 200
          (JDict [("type", JInt 7);
                  ("data",
                   JDict [("content", JStr "Servers");
                          ("components", JList [button_row refresh_label 2 "refresh"])])])
      /\ List.filter (fun c => match c with
                               | DescribeInstanceStatus _ _ _ => true
                               | _ => false
                               end) (calls s')
         = [DescribeInstanceStatus [] true None;
            DescribeInstanceStatus [] true (Some "xxx")]
  | _ => False
  end.
Proof.
  destruct (list_instances Toy.keyed 2 (Toy.fresh Toy.account)) as [[[listed | e] s1] |]
    eqn:Hlist.
  - destruct (render_of_message_without_instances Toy.keyed 2 (JStr "M9") listed
                (Toy.fresh Toy.account) s1 Hlist) as (Hrender & _).
    + vm_compute in Hlist. injection Hlist as <- <-. reflexivity.
    + rewrite Hrender. vm_compute in Hlist. injection Hlist as <- <-.
      vm_compute. split; reflexivity.
  - vm_compute in Hlist. discriminate Hlist.
  - vm_compute in Hlist. discriminate Hlist.
Defined.

(** ** Authentication, as a whole *)

Lemma verify_discord_request_auth_accepted (E : Externals) (request : HTTPRequest.t) :
  verify_discord_request_auth E request = Ok tt <-> accepted E request.
Proof.
  unfold verify_discord_request_auth, accepted.
  destruct (verify_key E) as [verify |]; [| tauto].
  destruct (Py.fromhex _) as [signature |].
  - destruct (signed_message request) as [| b message] eqn:Hmessage.
    + split; [discriminate | intros (sig & _ & Hne & _); contradiction].
    + split.
      * intros Hok. exists signature. repeat split; [discriminate |].
        destruct (verify (b :: message) signature) as [e |]; [| reflexivity].
        destruct e; discriminate.
      * intros (sig & [= <-] & _ & ->). reflexivity.
  - split; [discriminate | intros (sig & Hsig & _); discriminate].
Qed.

(** X12. Nothing happens without authentication. The check passes exactly
    when no key is configured or the verifier returns on the timestamp
    followed by the body and the signature decoded from the header; a
    request it does not pass gets the exception of the check as its
    outcome, no client call is made and the provider is left as it was,
    and [main] answers with the response of that exception. *)
Theorem effects_require_authentication (E : Externals) (fuel : nat)
    (request : HTTPRequest.t) (s : system (World E)) :
  (verify_discord_request_auth E request = Ok tt <-> accepted E request)
  /\ (~ accepted E request ->
      exists e : exn,
        verify_discord_request_auth E request = Raise e
        /\ handle_request E fuel request s = Some (Raise e, s)
        /\ main E fuel request s
           = Some (HTTPResponse.to_lambda_result (HTTPResponse.from_exception e), s)).
Proof.
  split; [apply verify_discord_request_auth_accepted |].
  intros Hrefused.
  destruct (verify_discord_request_auth E request) as [[] | e] eqn:Hauth.
  - exfalso. now apply Hrefused, verify_discord_request_auth_accepted.
  - exists e. split; [reflexivity |].
    pose proof (handle_request_unauthenticated E fuel request e s Hauth) as Hrun.
    split; [exact Hrun | now apply main_of_raise].
Qed.

(** A press of [stop:i-abc] on M1 whose signature is over another body. *)
Lemma effects_require_authentication_witness :
  main Toy.keyed 2
    (Toy.post [("X-Signature-Ed25519", Toy.sign (Py.encode "1700000000M1 refresh"));
               ("X-Signature-Timestamp", "1700000000")] (Some "M1 stop:i-abc"))
    (Toy.fresh Toy.account)
  = Some (Ok (error_result 401 "invalid request signature"), Toy.fresh Toy.account).
Proof.
  destruct (effects_require_authentication Toy.keyed 2
              (Toy.post [("X-Signature-Ed25519",
                          Toy.sign (Py.encode "1700000000M1 refresh"));
                         ("X-Signature-Timestamp", "1700000000")] (Some "M1 stop:i-abc"))
              (Toy.fresh Toy.account)) as [Hiff Hrefused].
  destruct Hrefused as (e & Hauth & _ & Hmain).
  - intros Haccepted. apply Hiff in Haccepted. vm_compute in Haccepted.
    discriminate Haccepted.
  - rewrite Hmain. vm_compute in Hauth. injection Hauth as <-. reflexivity.
Defined.

(** ** Where the exceptions come from *)

Section Raises.

Context (E : Externals) (P : exn -> Prop).

Lemma raises_only_ret {A} (a : A) : raises_only P (ret (W := World E) a).
Proof. intros s e s' H. discriminate H. Qed.

Lemma raises_only_lift {A} (r : result A) :
  (forall e, r = Raise e -> P e) -> raises_only P (lift (W := World E) r).
Proof. intros Hr s e s' H. injection H as -> _. now apply Hr. Qed.

Lemma raises_only_bind {A B} (m : M (World E) A) (k : A -> M (World E) B) :
  raises_only P m -> (forall a, raises_only P (k a)) -> raises_only P (bind m k).
Proof.
  intros Hm Hk s e s' Hrun. unfold bind in Hrun.
  destruct (m s) as [[[a | e0] s1] |] eqn:Hms; [| | discriminate].
  - now apply (Hk a s1 e s').
  - injection Hrun as <- <-. now apply (Hm s e0 s1).
Qed.

Lemma raises_only_logged {A} (c : ec2_call) (f : World E -> result A * World E) :
  (forall w e, fst (f w) = Raise e -> P e) -> raises_only P (logged E c f).
Proof.
  intros Hf s e s' Hrun. unfold logged in Hrun.
  destruct (f (world s)) as [r w] eqn:Hfw. injection Hrun as -> _.
  apply (Hf (world s)). now rewrite Hfw.
Qed.

Lemma raises_only_next_pages {A} (client_fn : option string -> M (World E) (Page A))
    (fuel : nat) :
  (forall token, raises_only P (client_fn token)) ->
  forall response, raises_only P (next_pages E fuel client_fn response).
Proof.
  intros Hclient. induction fuel as [| fuel IH]; intros response; cbn [next_pages].
  - destruct (next_token response) as [tok |]; [| apply raises_only_ret].
    intros s r s' Hrun. discriminate Hrun.
  - destruct (next_token response) as [tok |]; [| apply raises_only_ret].
    apply raises_only_bind; [apply Hclient |]. intros response'.
    apply raises_only_bind; [apply IH |]. intros rest. apply raises_only_ret.
Qed.

(** An iteration raises only what a call of the client raised. *)
Lemma raises_only_iter_pages {A} (client_fn : option string -> M (World E) (Page A))
    (fuel : nat) :
  (forall token, raises_only P (client_fn token)) ->
  raises_only P (_iter_ec2_response_pages E fuel client_fn).
Proof.
  intros Hclient. unfold _iter_ec2_response_pages.
  apply raises_only_bind; [apply Hclient |]. intros response.
  apply raises_only_bind; [now apply raises_only_next_pages |].
  intros rest. apply raises_only_ret.
Qed.

End Raises.

Lemma set_states_no_HTTPError (E : Externals) (instance_statuses : list InstanceStatus)
    (instances : list Instance) (e : exn) :
  set_states E instance_statuses instances = Raise e -> is_HTTPError e = false.
Proof.
  intros H. apply set_states_raises in H as (i & _ & [[-> _] | (status & _ & _ & _ & ->)]);
    reflexivity.
Qed.

(** The rendering raises no [HTTPError]. *)
Lemma render_message_no_HTTPError (E : Externals) (fuel : nat) (message_id : json) :
  libraries_raise_no_HTTPError E ->
  raises_only (fun e => is_HTTPError e = false) (render_message E fuel message_id).
Proof.
  intros (_ & _ & Htags & Hstatus & _). unfold render_message.
  apply raises_only_bind.
  - unfold list_instances. apply raises_only_bind; [| intros; apply raises_only_ret].
    apply raises_only_iter_pages. intros token. apply raises_only_logged.
    intros w e. apply Htags.
  - intros listed. apply raises_only_bind; [| intros; apply raises_only_ret].
    unfold get_instances_state.
    apply raises_only_bind.
    + apply raises_only_iter_pages. intros token. apply raises_only_logged.
      intros w e. apply Hstatus.
    + intros statuses. apply raises_only_lift. apply set_states_no_HTTPError.
Qed.

(** The [HTTPError]s of the button: the 400 of the grammar, before any
    call, and the two 403 of the ownership check, right after its query. *)
Lemma act_on_button_http_error (E : Externals) (message_id custom_id : json)
    (s s' : system (World E)) (message : string) (status : Z) :
  libraries_raise_no_HTTPError E ->
  act_on_button E message_id custom_id s = Some (Raise (HTTPError message status), s') ->
  (s' = s /\ message = "Unknown component custom ID" /\ status = 400%Z)
  \/ exists target : string,
       s' = after_owner_query E target s
       /\ status = 403%Z
       /\ (message = "Not allowed: instance doesn't exist or isn't managed by svrmgr"
           \/ message = "Not allowed: instance isn't managed by this message").
Proof.
  intros (_ & _ & Htags & _ & Hstart & Hstop). unfold act_on_button.
  destruct custom_id as [| | | | custom_id | |]; try discriminate.
  unfold bind at 1. unfold lift at 1. cbn [py_split].
  destruct (String.eqb _ "start" || String.eqb _ "stop").
  - unfold bind at 1. unfold lift at 1. cbn [py_split].
    unfold bind at 1. unfold lift at 1.
    destruct (Py.split ":" (Some 1%nat) custom_id) as [| action [| target [| ? ?]]];
      cbn [unpack2]; try discriminate.
    cbn [fst snd]. unfold bind at 1. unfold try_except.
    rewrite get_message_id_for_instance_runs.
    destruct (owner_tags E target s) as [[| tag0 rest] | e] eqn:Howner.
    + intros [= <- <- <-]. right. exists target. auto.
    + destruct (2 <? length (tag0 :: rest))%nat; [discriminate |].
      destruct (eq_str (Value tag0) message_id); cbn [negb].
      * destruct (String.eqb action "start").
        -- unfold start_instance, ec2_client_start_instances, logged.
           destruct (start_instances E [target] _) as [r w] eqn:Hcall.
           intros [= -> _]. specialize (Hstart [target] _ _ (f_equal fst Hcall)).
           discriminate.
        -- destruct (String.eqb action "stop"); [| discriminate].
           unfold stop_instance, ec2_client_stop_instances, logged.
           destruct (stop_instances E [target] _) as [r w] eqn:Hcall.
           intros [= -> _]. specialize (Hstop [target] _ _ (f_equal fst Hcall)).
           discriminate.
      * intros [= <- <- <-]. right. exists target. auto.
    + unfold owner_tags in Howner.
      destruct (fst (describe_tags E (owner_filters target) None (world s)))
        as [response | e0] eqn:Hcall; [discriminate |].
      injection Howner as ->. apply Htags in Hcall.
      destruct e; try discriminate.
      intros [= <- <- <-]. right. exists target. auto.
  - destruct (negb (eq_str "refresh" (JStr custom_id)) && _); [| discriminate].
    intros [= <- <- <-]. now left.
Qed.

Lemma auth_http_error (E : Externals) (request : HTTPRequest.t) (message : string)
    (status : Z) :
  libraries_raise_no_HTTPError E ->
  verify_discord_request_auth E request = Raise (HTTPError message status) ->
  In (message, status) early_http_errors.
Proof.
  intros (_ & Hverify & _). unfold verify_discord_request_auth.
  destruct (verify_key E) as [verify |] eqn:Hkey; [| discriminate].
  destruct (Py.fromhex _) as [signature |]; [| discriminate].
  destruct (signed_message request) as [| b rest].
  - intros [= <- <-]. cbn. tauto.
  - destruct (verify (b :: rest) signature) as [e |] eqn:Hcall; [| discriminate].
    specialize (Hverify _ _ _ _ eq_refl Hcall).
    destruct e; try discriminate.
    intros [= <- <-]. cbn. tauto.
Qed.

Lemma body_data_no_HTTPError (E : Externals) (request : HTTPRequest.t) (e : exn) :
  libraries_raise_no_HTTPError E ->
  HTTPRequest.get_json_body_data E request = Raise e -> is_HTTPError e = false.
Proof.
  intros (Hloads & _). unfold HTTPRequest.get_json_body_data.
  destruct (HTTPRequest.body request) as [b |]; [| discriminate].
  destruct (Py.decode b) as [text |]; [apply Hloads | now intros [= <-]].
Qed.

Lemma py_get_no_HTTPError (v : json) (k : string) (e : exn) :
  py_get v k = Raise e -> is_HTTPError e = false.
Proof. destruct v; try discriminate; now intros [= <-]. Qed.

(** Every [HTTPError] of the handler is one of the ten of the source,
    raised where the source raises it. *)
Lemma handle_request_http_error (E : Externals) (fuel : nat) (request : HTTPRequest.t)
    (s s' : system (World E)) (message : string) (status : Z) :
  libraries_raise_no_HTTPError E ->
  handle_request E fuel request s = Some (Raise (HTTPError message status), s') ->
  (s' = s /\ In (message, status) early_http_errors)
  \/ exists target : string,
       s' = after_owner_query E target s /\ In (message, status) ownership_http_errors.
Proof.
  intros Hlib. unfold handle_request.
  unfold bind at 1. unfold lift at 1.
  destruct (verify_discord_request_auth E request) as [[] | e] eqn:Hauth.
  2: { intros [= -> <-]. left. split; [reflexivity |]. now apply (auth_http_error E request). }
  unfold bind at 1. unfold lift at 1.
  destruct (HTTPRequest.get_json_body_data E request) as [request_data | e] eqn:Hbody.
  2: { intros [= -> <-]. now apply (body_data_no_HTTPError E request _ Hlib) in Hbody. }
  assert (Hearly : forall m st, In (m, st) early_http_errors ->
                     raise (W := World E) (A := HTTPResponse.t) (HTTPError m st) s
                     = Some (Raise (HTTPError message status), s') ->
                     (s' = s /\ In (message, status) early_http_errors)
                     \/ exists target : string,
                          s' = after_owner_query E target s
                          /\ In (message, status) ownership_http_errors).
  { intros m st Hin [= <- <- <-]. now left. }
  destruct request_data as [| | | | | | d]; try (apply Hearly; cbn; tauto).
  destruct (dict_get "type" d) eqn:Htype; try (apply Hearly; cbn; tauto).
  all: destruct (eq_int _ 1); [discriminate |].
  all: destruct (negb (eq_int _ 3)); [apply Hearly; cbn; tauto |].
  all: unfold bind at 1; unfold lift at 1.
  all: destruct (py_get (py_or (dict_get "message" d) (JDict [])) "id") as [message_id | e]
         eqn:Hmid;
       [| intros [= -> <-]; now apply py_get_no_HTTPError in Hmid].
  all: assert (Hrest :
         (custom_id <- lift (py_get (py_or (dict_get "data" d) (JDict [])) "custom_id") ;;
          if negb (truthy custom_id) then
            raise (HTTPError "Bad request body: missing component custom ID" 400)
          else _ <- act_on_button E message_id custom_id ;;
               render_message E fuel message_id) s
         = Some (Raise (HTTPError message status), s') ->
         (s' = s /\ In (message, status) early_http_errors)
         \/ exists target : string,
              s' = after_owner_query E target s
              /\ In (message, status) ownership_http_errors).
  all: try (destruct message_id; try (apply Hearly; cbn; tauto); exact Hrest).
  all: unfold bind at 1; unfold lift at 1.
  all: destruct (py_get (py_or (dict_get "data" d) (JDict [])) "custom_id") as [custom_id | e]
         eqn:Hcid;
       [| intros [= -> <-]; now apply py_get_no_HTTPError in Hcid].
  all: destruct (negb (truthy custom_id)); [apply Hearly; cbn; tauto |].
  all: unfold bind at 1.
  all: destruct (act_on_button E message_id custom_id s) as [[[[] | e] s1] |] eqn:Hact;
       [| | discriminate].
  all: try (intros Hrender;
            apply (render_message_no_HTTPError E fuel message_id Hlib) in Hrender;
            discriminate).
  all: intros [= -> <-].
  all: apply (act_on_button_http_error E _ _ _ _ _ _ Hlib) in Hact
         as [(-> & -> & ->) | (target & -> & -> & Hmessage)].
  all: try (left; split; [reflexivity | cbn; tauto]).
  all: right; exists target; split; [reflexivity |].
  all: destruct Hmessage as [-> | ->]; cbn; tauto.
Qed.

Lemma issued_nothing (E : Externals) (s : system (World E)) : issued E s s = [].
Proof. unfold issued. apply skipn_all. Qed.

(** The Lambda result of a response with a text body. *)
Lemma to_lambda_result_text (status : Z) (content_type text : string) :
  status <> 204%Z -> text <> "" ->
  Py.startswith content_type "text/" || Py.startswith content_type "application/json" = true ->
  let result := {| LambdaResult.statusCode := status;
                   LambdaResult.headers := [("Content-Type", content_type)];
                   LambdaResult.isBase64Encoded := Some false;
                   LambdaResult.body := Some text |} in
  HTTPResponse.to_lambda_result
    {| HTTPResponse.status_code := status;
       HTTPResponse.headers := [("Content-Type", content_type)];
       HTTPResponse.body := Some (Py.encode text) |}
  = if Py.utf8_valid (Py.encode text) then Ok result
    else Raise (UnicodeDecodeError "'utf-8' codec can't decode bytes").
Proof.
  intros Hstatus Htext Htype result.
  unfold HTTPResponse.to_lambda_result. cbn [HTTPResponse.status_code].
  apply Z.eqb_neq in Hstatus. rewrite Hstatus. cbn [negb].
  unfold HTTPResponse.body_is_binary, HTTPResponse.content_type_header.
  cbn [HTTPResponse.headers List.find fst].
  change (String.eqb (Py.lower "Content-Type") "content-type") with true.
  cbn iota. cbn [snd]. rewrite Htype. cbn [negb].
  unfold HTTPResponse.body_missing. cbn [HTTPResponse.body].
  change (default [] (Some ?x)) with x.
  unfold Py.decode.
  destruct (Py.encode text) as [| b l] eqn:Hencode.
  - exfalso. apply Htext. destruct text; [reflexivity | discriminate].
  - rewrite <- Hencode. unfold Py.encode. rewrite string_of_list_byte_of_string.
    now destruct (Py.utf8_valid (list_byte_of_string text)).
Qed.

Lemma catalogued_error_result (message : string) (status : Z) :
  In (message, status) (early_http_errors ++ ownership_http_errors) ->
  HTTPResponse.to_lambda_result (HTTPResponse.from_exception (HTTPError message status))
  = Ok (error_result status message).
Proof.
  intros Hin. cbn in Hin.
  repeat (destruct Hin as [[= <- <-] | Hin]; [vm_compute; reflexivity |]).
  contradiction.
Qed.

(** X13. A 4xx answer means that nothing was started or stopped. When
    the libraries raise no [HTTPError] (it is the handler's own class),
    an [HTTPError] outcome of [handle_request] is one of the eight the
    source raises before any client call (401 and 400), with the system
    untouched, or one of the two 403 of the ownership check, raised
    right after the ownership query and nothing else; no start or stop
    call was made; and [main] answers with that status and that text,
    as plain text. *)
Theorem http_error_precedes_any_change (E : Externals) (fuel : nat) (request : HTTPRequest.t)
    (s s' : system (World E)) (message : string) (status : Z) :
  libraries_raise_no_HTTPError E ->
  handle_request E fuel request s = Some (Raise (HTTPError message status), s') ->
  ((s' = s /\ In (message, status) early_http_errors)
   \/ exists target : string,
        s' = after_owner_query E target s /\ In (message, status) ownership_http_errors)
  /\ forallb (fun c => negb (is_lifecycle_call c)) (issued E s s') = true
  /\ main E fuel request s = Some (Ok (error_result status message), s').
Proof.
  intros Hlib Hrun.
  pose proof (handle_request_http_error E fuel request s s' message status Hlib Hrun)
    as Horigin.
  split; [exact Horigin |]. split.
  - destruct Horigin as [[-> _] | (target & -> & _)].
    + now rewrite issued_nothing.
    + now rewrite issued_after_owner_query.
  - rewrite (main_of_raise E fuel request _ s s' Hrun).
    rewrite catalogued_error_result; [reflexivity |].
    apply in_or_app. destruct Horigin as [[_ Hin] | (target & _ & Hin)]; tauto.
Qed.

(** The provider of the examples raises [ClientError], its verifier
    [ValueError] and [BadSignatureError], its decoder [JSONDecodeError]. *)
Lemma toy_raises_no_HTTPError (keyed : bool) (documents : list (string * json)) :
  libraries_raise_no_HTTPError (Toy.externals keyed documents).
Proof.
  split; [| split; [| split; [| split; [| split]]]].
  - intros text e. cbn [json_loads Toy.externals]. unfold Toy.loads.
    destruct (assoc text documents); [discriminate | now intros [= <-]].
  - intros verify message signature e. cbn [verify_key Toy.externals].
    destruct keyed; [| discriminate]. intros [= <-]. unfold Toy.verify.
    destruct (negb _); [now intros [= <-] |].
    destruct (forallb _ _); [discriminate | now intros [= <-]].
  - intros Filters token w e. discriminate.
  - intros InstanceIds IncludeAllInstances token w e. discriminate.
  - intros InstanceIds w e. cbn [start_instances Toy.externals]. unfold Toy.set_state.
    destruct (forallb _ _); cbn [fst]; [discriminate | now intros [= <-]].
  - intros InstanceIds w e. cbn [stop_instances Toy.externals]. unfold Toy.set_state.
    destruct (forallb _ _); cbn [fst]; [discriminate | now intros [= <-]].
Qed.

(** A signed press of [stop:i-zzz] on M1: the instance belongs to M2. *)
Lemma http_error_precedes_any_change_witness :
  main Toy.keyed 2 (Toy.signed "1700000000" "M1 stop:i-zzz") (Toy.fresh Toy.account)
  = Some (Ok (error_result 403 "Not allowed: instance isn't managed by this message"),
          after_owner_query Toy.keyed "i-zzz" (Toy.fresh Toy.account)).
Proof.
  destruct (http_error_precedes_any_change Toy.keyed 2
              (Toy.signed "1700000000" "M1 stop:i-zzz") (Toy.fresh Toy.account)
              (after_owner_query Toy.keyed "i-zzz" (Toy.fresh Toy.account))
              "Not allowed: instance isn't managed by this message" 403)
    as (_ & _ & Hmain).
  - apply toy_raises_no_HTTPError.
  - vm_compute. reflexivity.
  - exact Hmain.
Defined.

(** ** What [main] hands back *)

(** A response of the handler is a 200 with a JSON body. *)
Lemma handle_request_ok_json (E : Externals) (fuel : nat) (request : HTTPRequest.t)
    (s s' : system (World E)) (response : HTTPResponse.t) :
  handle_request E fuel request s = Some (Ok response, s') ->
  exists data : json, response = HTTPResponse.from_json_body_data E 200 data.
Proof.
  unfold handle_request.
  unfold bind at 1. unfold lift at 1.
  destruct (verify_discord_request_auth E request) as [[] | e]; [| discriminate].
  unfold bind at 1. unfold lift at 1.
  destruct (HTTPRequest.get_json_body_data E request) as [request_data | e]; [| discriminate].
  destruct request_data as [| | | | | | d]; try discriminate.
  destruct (dict_get "type" d); try discriminate.
  all: destruct (eq_int _ 1); [intros [= <- _]; eauto |].
  all: destruct (negb (eq_int _ 3)); [discriminate |].
  all: unfold bind at 1; unfold lift at 1.
  all: destruct (py_get (py_or (dict_get "message" d) (JDict [])) "id") as [message_id | e];
       [| discriminate].
  all: assert (Hrest :
         (custom_id <- lift (py_get (py_or (dict_get "data" d) (JDict [])) "custom_id") ;;
          if negb (truthy custom_id) then
            raise (HTTPError "Bad request body: missing component custom ID" 400)
          else _ <- act_on_button E message_id custom_id ;;
               render_message E fuel message_id) s
         = Some (Ok response, s') ->
         exists data : json, response = HTTPResponse.from_json_body_data E 200 data).
  all: try (destruct message_id; try discriminate; exact Hrest).
  all: unfold bind at 1; unfold lift at 1.
  all: destruct (py_get (py_or (dict_get "data" d) (JDict [])) "custom_id") as [custom_id | e];
       [| discriminate].
  all: destruct (negb (truthy custom_id)); [discriminate |].
  all: unfold bind at 1.
  all: destruct (act_on_button E message_id custom_id s) as [[[[] | e] s1] |];
       [| discriminate | discriminate].
  all: intros Hrender; apply render_message_runs in Hrender
         as (listed & statuses & shown & s2 & _ & _ & _ & ->); eauto.
Qed.

(** What decoding the event raises: [KeyError] for a key read by
    subscript and absent, [binascii.Error] for a body flagged as base64
    that is not. *)
Lemma from_lambda_event_raises (event : LambdaEvent.t) (e : exn) :
  HTTPRequest.from_lambda_event event = Raise e ->
  e = OtherError "Error" "Incorrect padding"
  \/ exists key : string,
       In key ["isBase64Encoded"; "requestContext"; "http"; "method"; "rawPath"; "headers"]
       /\ e = KeyError ("'" +:+ key +:+ "'").
Proof.
  unfold HTTPRequest.from_lambda_event, HTTPRequest.subscript.
  destruct (LambdaEvent.body event) as [text |].
  - destruct (LambdaEvent.isBase64Encoded event) as [[] |]; cbn [rbind].
    + destruct (Py.b64decode (Py.encode text)); cbn [rbind]; [| intros [= <-]; now left].
      destruct (LambdaEvent.requestContext event) as [[[[[method |]] |]] |]; cbn;
        destruct (LambdaEvent.rawPath event); cbn;
        destruct (LambdaEvent.headers event); cbn;
        try discriminate; intros [= <-]; right; eexists; (split; [| reflexivity]); cbn; tauto.
    + destruct (LambdaEvent.requestContext event) as [[[[[method |]] |]] |]; cbn;
        destruct (LambdaEvent.rawPath event); cbn;
        destruct (LambdaEvent.headers event); cbn;
        try discriminate; intros [= <-]; right; eexists; (split; [| reflexivity]); cbn; tauto.
    + intros [= <-]. right. eexists. split; [| reflexivity]. cbn. tauto.
  - cbn [rbind].
    destruct (LambdaEvent.requestContext event) as [[[[[method |]] |]] |]; cbn;
      destruct (LambdaEvent.rawPath event); cbn;
      destruct (LambdaEvent.headers event); cbn;
      try discriminate; intros [= <-]; right; eexists; (split; [| reflexivity]); cbn; tauto.
Qed.

Lemma from_exception_other (e : exn) :
  is_HTTPError e = false ->
  HTTPResponse.from_exception e
  = {| HTTPResponse.status_code := 500;
       HTTPResponse.headers := [("Content-Type", "text/plain; charset=utf-8")];
       HTTPResponse.body := Some (Py.encode (exn_class_name e +:+ ": " +:+ exn_str e)) |}.
Proof. destruct e; try discriminate; reflexivity. Qed.

Lemma error_text_nonempty (e : exn) : exn_class_name e +:+ ": " +:+ exn_str e <> "".
Proof.
  destruct (exn_class_name e) as [| c name]; [| discriminate].
  change ("" +:+ ": " +:+ exn_str e) with (String ":" (String " " (exn_str e))). discriminate.
Qed.

(** X14. [main] as a whole, from the event. When the libraries raise no
    [HTTPError] and [json.dumps] gives a text that is not empty: a result
    of [main] has status 200, 400, 401, 403 or 500, a body that is not
    empty, and is never flagged as base64; the exceptions of the handler
    never leave [main]; what leaves it is what decoding the event raised
    ([KeyError] for a missing key, [binascii.Error] for bad base64),
    before anything was called, or the decoding error of a response text
    that is not UTF-8. *)
Theorem main_of_event_outcomes (E : Externals) (fuel : nat) (event : LambdaEvent.t)
    (s s' : system (World E)) (r : result LambdaResult.t) :
  libraries_raise_no_HTTPError E ->
  (forall data : json, json_dumps E data <> "") ->
  main_of_event E fuel event s = Some (r, s') ->
  match r with
  | Ok result =>
      In (LambdaResult.statusCode result) [200; 400; 401; 403; 500]%Z
      /\ LambdaResult.isBase64Encoded result = Some false
      /\ exists text : string, LambdaResult.body result = Some text /\ text <> ""
  | Raise e =>
      (HTTPRequest.from_lambda_event event = Raise e
       /\ s' = s
       /\ (e = OtherError "Error" "Incorrect padding"
           \/ exists key : string,
                In key ["isBase64Encoded"; "requestContext"; "http"; "method"; "rawPath";
                        "headers"]
                /\ e = KeyError ("'" +:+ key +:+ "'")))
      \/ e = UnicodeDecodeError "'utf-8' codec can't decode bytes"
  end.
Proof.
  intros Hlib Hdumps. unfold main_of_event.
  destruct (HTTPRequest.from_lambda_event event) as [request | e] eqn:Hevent.
  2: { intros [= <- <-]. left. repeat split. now apply (from_lambda_event_raises event). }
  unfold main.
  destruct (handle_request E fuel request s) as [[[response | e] s1] |] eqn:Hrun;
    [| | discriminate]; intros [= <- <-].
  - apply handle_request_ok_json in Hrun as [data ->].
    unfold HTTPResponse.from_json_body_data.
    rewrite to_lambda_result_text; [| discriminate | apply Hdumps | reflexivity].
    destruct (Py.utf8_valid _); [| now right].
    cbn. repeat split; [tauto |]. exists (json_dumps E data). split; [reflexivity | apply Hdumps].
  - destruct (is_HTTPError e) eqn:Hclass.
    + destruct e as [message status | | | | | | | | |]; try discriminate.
      apply (handle_request_http_error E _ _ _ _ _ _ Hlib) in Hrun.
      assert (Hin : In (message, status) (early_http_errors ++ ownership_http_errors))
        by (apply in_or_app; destruct Hrun as [[_ Hin] | (target & _ & Hin)]; tauto).
      rewrite catalogued_error_result by exact Hin.
      cbn in Hin.
      repeat (destruct Hin as [[= <- <-] | Hin];
              [cbn; repeat split; [tauto | eexists; split; [reflexivity | discriminate]] |]).
      contradiction.
    + rewrite from_exception_other by exact Hclass.
      rewrite to_lambda_result_text;
        [| discriminate | apply error_text_nonempty | reflexivity].
      destruct (Py.utf8_valid _); [| now right].
      cbn. repeat split; [tauto |]. eexists. split; [reflexivity | apply error_text_nonempty].
Qed.

Lemma append_nonempty (a b : string) : a <> "" -> a +:+ b <> "".
Proof. destruct a as [| c a]; [contradiction | discriminate]. Qed.

(** The encoder of the examples never gives an empty text. *)
Lemma toy_dumps_nonempty (data : json) : Toy.dumps data <> "".
Proof.
  destruct data as [| b | n | f | text | l | d]; cbn [Toy.dumps].
  - discriminate.
  - destruct b; discriminate.
  - unfold Py.str_of_int. destruct (Z.to_int n) as [u | u]; destruct u; discriminate.
  - discriminate.
  - unfold Toy.dumps_str. now apply append_nonempty.
  - now apply append_nonempty.
  - now apply append_nonempty.
Qed.

(** A ping that arrives as base64: [cGluZw==] is the document [ping]. *)
Lemma main_of_event_outcomes_witness :
  match main_of_event Toy.unkeyed 2 (Toy.event [] true "cGluZw==") (Toy.fresh Toy.account) with
  | Some (Ok result, _) =>
      In (LambdaResult.statusCode result) [200; 400; 401; 403; 500]%Z
      /\ LambdaResult.isBase64Encoded result = Some false
      /\ exists text : string, LambdaResult.body result = Some text /\ text <> ""
  | _ => False
  end.
Proof.
  destruct (main_of_event Toy.unkeyed 2 (Toy.event [] true "cGluZw==")
              (Toy.fresh Toy.account)) as [[[result | e] s'] |] eqn:Hrun.
  - exact (main_of_event_outcomes Toy.unkeyed 2 (Toy.event [] true "cGluZw==")
             (Toy.fresh Toy.account) s' (Ok result)
             (toy_raises_no_HTTPError false Toy.documents) toy_dumps_nonempty Hrun).
  - vm_compute in Hrun. discriminate Hrun.
  - vm_compute in Hrun. discriminate Hrun.
Defined.

(** ** From the grid back to the handler *)

(** X15. A button of the grid, pressed, addresses the instance it was
    rendered for. The custom identifier of the row of an instance is
    [<action>:<id>], with the action start for a stopped instance, stop
    for a running one and refresh otherwise; it is inside the grammar;
    the handler splits it back into that action and that identifier,
    whole, colons included; a refresh button goes to the rendering
    without a call, and a start or stop button makes the ownership query
    for that instance and, when it passes, the call of its action on
    that instance. *)
Theorem rendered_button_parses_back (E : Externals) (message_id : json)
    (instance : Instance) (s : system (World E)) :
  let action := button_action instance in
  let custom_id := action +:+ ":" +:+ id instance in
  (exists (label : string) (style : Z),
     instance_row instance = button_row label style custom_id)
  /\ custom_id_grammar custom_id
  /\ first (Py.split ":" None custom_id) = action
  /\ rbind (py_split (JStr custom_id) (Some 1%nat)) unpack2 = Ok (action, id instance)
  /\ act_on_button E message_id (JStr custom_id) s
     = if String.eqb action "refresh" then Some (Ok tt, s)
       else
         match get_message_id_for_instance E (id instance) s with
         | Some (Ok owner, s1) =>
             if eq_str owner message_id then
               (if String.eqb action "start" then start_instance E (id instance)
                else stop_instance E (id instance)) s1
             else
               Some (Raise (HTTPError "Not allowed: instance isn't managed by this message"
                              403), s1)
         | Some (Raise (NotManaged _), s1) =>
             Some (Raise (HTTPError
                            "Not allowed: instance doesn't exist or isn't managed by svrmgr"
                            403), s1)
         | Some (Raise e, s1) => Some (Raise e, s1)
         | None => None
         end.
Proof.
  intros action custom_id.
  assert (Hclean : forallb (fun c => negb (Ascii.eqb c ":")) (list_ascii_of_string action)
                   = true)
    by (unfold action, button_action; destruct (state instance) as [[] |]; reflexivity).
  assert (Hfirst : first (Py.split ":" None custom_id) = action).
  { unfold custom_id. change (action +:+ ":" +:+ id instance)
      with (action +:+ String ":" (id instance)).
    now rewrite split_at_first. }
  assert (Hsplit : Py.split ":" (Some 1%nat) custom_id = [action; id instance]).
  { unfold custom_id. change (action +:+ ":" +:+ id instance)
      with (action +:+ String ":" (id instance)).
    rewrite split_at_first by (trivial; reflexivity).
    cbn [Py.after_split Nat.pred]. now rewrite split_no_limit_left. }
  split; [| split; [| split; [exact Hfirst | split]]].
  - unfold custom_id, action, button_action, instance_row.
    destruct (state instance) as [[] |]; eauto.
  - right. exists action, (id instance). split; [reflexivity |].
    unfold action, button_action. destruct (state instance) as [[] |]; auto.
  - cbn [py_split rbind]. now rewrite Hsplit.
  - destruct (String.eqb action "refresh") eqn:Hrefresh.
    + unfold act_on_button. unfold bind at 1. unfold lift at 1. cbn [py_split].
      rewrite Hfirst. apply String.eqb_eq in Hrefresh. rewrite Hrefresh.
      change (String.eqb "refresh" "start" || String.eqb "refresh" "stop") with false.
      change (String.eqb "refresh" "refresh") with true.
      cbn [negb]. now rewrite andb_false_r.
    + apply act_on_button_press.
      unfold action, button_action in *. destruct (state instance) as [[] |];
        auto; discriminate.
Qed.

(** ** Validation of a component interaction

    The checks of lines 378 to 392 and the first step of the button, on
    a payload that is an object of type 3 or of an unsupported type. *)

Lemma no_attribute_result (v : json) (attr : string) :
  attr = "get" \/ attr = "split" ->
  HTTPResponse.to_lambda_result (HTTPResponse.from_exception (no_attribute v attr))
  = Ok (crash_result v attr).
Proof. intros [-> | ->]; destruct v; vm_compute; reflexivity. Qed.

Lemma refused_400_of_raise (E : Externals) (fuel : nat) (request : HTTPRequest.t)
    (s : system (World E)) (text : string) :
  In (text, 400%Z) early_http_errors ->
  handle_request E fuel request s = Some (Raise (HTTPError text 400), s) ->
  refused_400 E fuel request s text.
Proof.
  intros Hin Hrun. split; [exact Hrun |].
  rewrite (main_of_raise E fuel request _ s s Hrun).
  rewrite catalogued_error_result; [reflexivity |]. apply in_or_app. now left.
Qed.

Lemma crashes_500_of_raise (E : Externals) (fuel : nat) (request : HTTPRequest.t)
    (s : system (World E)) (v : json) (attr : string) :
  attr = "get" \/ attr = "split" ->
  handle_request E fuel request s = Some (Raise (no_attribute v attr), s) ->
  crashes_500 E fuel request s v attr.
Proof.
  intros Hattr Hrun. split; [exact Hrun |].
  rewrite (main_of_raise E fuel request _ s s Hrun).
  now rewrite no_attribute_result.
Qed.

(** [(v or {}).get(k)] by cases on [v]. *)
Lemma py_get_or_empty (v : json) (k : string) :
  py_get (py_or v (JDict [])) k
  = match v with
    | JDict m => Ok (dict_get k m)
    | _ => if truthy v then Raise (no_attribute v "get") else Ok JNull
    end.
Proof.
  unfold py_or. destruct v as [| b | n | f | text | l | m]; cbn [truthy].
  - reflexivity.
  - now destruct b.
  - now destruct (negb (n =? 0)%Z).
  - now destruct (negb (PrimFloat.eqb f 0)).
  - now destruct (negb (String.eqb text "")).
  - now destruct l.
  - now destruct m.
Qed.

Section Validation.

Context (E : Externals) (fuel : nat) (request : HTTPRequest.t) (d : list (string * json)).
Context (s : system (World E)).

Hypothesis Hauth : verify_discord_request_auth E request = Ok tt.
Hypothesis Hbody : HTTPRequest.get_json_body_data E request = Ok (JDict d).
Hypothesis Htype : eq_int (dict_get "type" d) 1 = false.
Hypothesis Hcomponent : eq_int (dict_get "type" d) 3 = true.

Lemma handle_request_type_3 :
  handle_request E fuel request s
  = (message_id <- lift (py_get (py_or (dict_get "message" d) (JDict [])) "id") ;;
     match message_id with
     | JNull => raise (HTTPError "Bad request body: missing message ID" 400)
     | _ =>
         custom_id <- lift (py_get (py_or (dict_get "data" d) (JDict [])) "custom_id") ;;
         if negb (truthy custom_id) then
           raise (HTTPError "Bad request body: missing component custom ID" 400)
         else
           _ <- act_on_button E message_id custom_id ;;
           render_message E fuel message_id
     end) s.
Proof.
  unfold handle_request.
  unfold bind at 1. unfold lift at 1. rewrite Hauth.
  unfold bind at 1. unfold lift at 1. rewrite Hbody.
  destruct (dict_get "type" d); try discriminate Hcomponent;
    rewrite Htype, Hcomponent; reflexivity.
Qed.

End Validation.

(** X16. The validation of an authenticated interaction whose type is
    neither null nor 1, in the order of the source and before any client
    call. A type other than 3 is refused with 400. For type 3: a
    [message] that is absent, falsy, or an object without an [id] (or
    with a null one) is refused with 400, whatever [data] holds; then a
    [data] that is absent, falsy, or an object whose [custom_id] is
    absent or falsy is refused with 400. But a field of the wrong type is
    not refused: a truthy [message] or [data] that is not an object, and
    a truthy [custom_id] that is not a string, raise [AttributeError]
    (on [.get], on [.split]), and [main] answers 500. *)
Theorem component_payload_validation (E : Externals) (fuel : nat) (request : HTTPRequest.t)
    (d : list (string * json)) (s : system (World E)) :
  verify_discord_request_auth E request = Ok tt ->
  HTTPRequest.get_json_body_data E request = Ok (JDict d) ->
  dict_get "type" d <> JNull ->
  eq_int (dict_get "type" d) 1 = false ->
  let message := dict_get "message" d in
  let data := dict_get "data" d in
  (eq_int (dict_get "type" d) 3 = false ->
   refused_400 E fuel request s "Unsupported interaction type")
  /\ (eq_int (dict_get "type" d) 3 = true ->
      (truthy message = true -> (forall m, message <> JDict m) ->
       crashes_500 E fuel request s message "get")
      /\ (truthy message = false \/ (exists m, message = JDict m /\ dict_get "id" m = JNull) ->
          refused_400 E fuel request s "Bad request body: missing message ID")
      /\ (forall m, message = JDict m -> dict_get "id" m <> JNull ->
          (truthy data = true -> (forall m', data <> JDict m') ->
           crashes_500 E fuel request s data "get")
          /\ (truthy data = false
              \/ (exists m', data = JDict m' /\ truthy (dict_get "custom_id" m') = false) ->
              refused_400 E fuel request s "Bad request body: missing component custom ID")
          /\ (forall m', data = JDict m' ->
              truthy (dict_get "custom_id" m') = true ->
              (forall text, dict_get "custom_id" m' <> JStr text) ->
              crashes_500 E fuel request s (dict_get "custom_id" m') "split"))).
Proof.
  intros Hauth Hbody Hnull Htype message data. subst message data. split.
  - intros Hother. apply refused_400_of_raise; [cbn; tauto |].
    unfold handle_request.
    unfold bind at 1. unfold lift at 1. rewrite Hauth.
    unfold bind at 1. unfold lift at 1. rewrite Hbody.
    destruct (dict_get "type" d); try contradiction; rewrite Htype, Hother; reflexivity.
  - intros Hcomponent.
    pose proof (handle_request_type_3 E fuel request d s Hauth Hbody Htype Hcomponent) as Hrun.
    unfold bind at 1 in Hrun. unfold lift at 1 in Hrun. rewrite py_get_or_empty in Hrun.
    split; [| split].
    + intros Htruthy Hshape. apply crashes_500_of_raise; [now left |].
      rewrite Hrun.
      destruct (dict_get "message" d) as [| | | | | | m]; try reflexivity;
        try discriminate Htruthy; try (rewrite Htruthy; reflexivity).
      now destruct (Hshape m).
    + intros Hmissing. apply refused_400_of_raise; [cbn; tauto |].
      rewrite Hrun. destruct Hmissing as [Hfalsy | (m & Hm & Hid)].
      * destruct (dict_get "message" d) as [| | | | | | m];
          try (rewrite Hfalsy; reflexivity).
        destruct m; [reflexivity | discriminate Hfalsy].
      * rewrite Hm, Hid. reflexivity.
    + intros m Hm Hid. rewrite Hm in Hrun.
      assert (Hrest : handle_request E fuel request s
                      = (custom_id <- lift (py_get (py_or (dict_get "data" d) (JDict []))
                                              "custom_id") ;;
                         if negb (truthy custom_id) then
                           raise (HTTPError "Bad request body: missing component custom ID" 400)
                         else
                           _ <- act_on_button E (dict_get "id" m) custom_id ;;
                           render_message E fuel (dict_get "id" m)) s).
      { rewrite Hrun. destruct (dict_get "id" m); try reflexivity. contradiction. }
      clear Hrun.
      unfold bind at 1 in Hrest. unfold lift at 1 in Hrest. rewrite py_get_or_empty in Hrest.
      split; [| split].
      * intros Htruthy Hshape. apply crashes_500_of_raise; [now left |].
        rewrite Hrest.
        destruct (dict_get "data" d) as [| | | | | | m']; try reflexivity;
          try discriminate Htruthy; try (rewrite Htruthy; reflexivity).
        now destruct (Hshape m').
      * intros Hmissing. apply refused_400_of_raise; [cbn; tauto |].
        rewrite Hrest. destruct Hmissing as [Hfalsy | (m' & Hm' & Hcid)].
        -- destruct (dict_get "data" d) as [| | | | | | m'];
             try (rewrite Hfalsy; reflexivity).
           destruct m'; [reflexivity | discriminate Hfalsy].
        -- rewrite Hm', Hcid. reflexivity.
      * intros m' Hm' Htruthy Hshape. apply crashes_500_of_raise; [now right |].
        rewrite Hrest, Hm', Htruthy. cbn [negb].
        unfold bind at 1. unfold act_on_button. unfold bind at 1. unfold lift at 1.
        destruct (dict_get "custom_id" m') as [| | | | text | |]; try reflexivity.
        now destruct (Hshape text).
Qed.

(** A press whose custom identifier is the number 5, and one whose
    message is a text: both get a 500. *)
Lemma component_payload_validation_witness :
  crashes_500 (Toy.externals false Toy.ill_typed) 2
    (Toy.post [] (Some "numeric custom id")) (Toy.fresh Toy.account) (JInt 5) "split"
  /\ crashes_500 (Toy.externals false Toy.ill_typed) 2
       (Toy.post [] (Some "message as text")) (Toy.fresh Toy.account) (JStr "M1") "get".
Proof.
  split.
  - destruct (component_payload_validation (Toy.externals false Toy.ill_typed) 2
                (Toy.post [] (Some "numeric custom id"))
                [("type", JInt 3);
                 ("message", JDict [("id", JStr "M1")]);
                 ("data", JDict [("custom_id", JInt 5)])]
                (Toy.fresh Toy.account)) as [_ Hcomponent];
      [reflexivity | reflexivity | discriminate | reflexivity |].
    destruct (Hcomponent eq_refl) as (_ & _ & Hmessage).
    destruct (Hmessage [("id", JStr "M1")] eq_refl) as (_ & _ & Hcustom); [discriminate |].
    apply (Hcustom [("custom_id", JInt 5)]); [reflexivity | reflexivity | discriminate].
  - destruct (component_payload_validation (Toy.externals false Toy.ill_typed) 2
                (Toy.post [] (Some "message as text"))
                [("type", JInt 3);
                 ("message", JStr "M1");
                 ("data", JDict [("custom_id", JStr "refresh")])]
                (Toy.fresh Toy.account)) as [_ Hcomponent];
      [reflexivity | reflexivity | discriminate | reflexivity |].
    destruct (Hcomponent eq_refl) as (Hmessage & _).
    apply Hmessage; [reflexivity | discriminate].
Defined.
